(** * check_stack.py: the provisioning orchestrator and its bounded polling

    A shallow embedding of [check_stack.py].  The script talks to four things
    outside of itself: the HTTP control API (through [requests]), the docker
    command line (through [subprocess]), the wall clock ([time.time],
    [time.sleep]) and the terminal ([print]).  Every such interaction is an
    [Event]; a run is the chronological list of its events, and the outside
    world is an oracle that answers each request from the history so far
    (which ends with the request itself).

    Conventions.
    - A Python [str] is a [string], read as a sequence of characters.
    - HTTP statuses and process return codes are [Z]; the [timeout_s] and
      [sleep_s] arguments are [Z] (Python [int], in seconds).
    - [time.time()] is a float in Python; here the clock is read in ticks,
      [hz] ticks to the second, for whatever resolution [hz] the world has.
    - [requests] and [subprocess.run] may raise; the script never catches
      that, so an exception ends the run ([Raise]).  The exceptions the script
      does catch (around [json.loads] and the [dict] accesses) are modelled
      where they are caught.
    - The [json] module and the [str] methods that depend on the character
      set ([strip], [lower], [splitlines]) and [str()] are library code: they
      are fields of [PyLib].
    - [print] is taken to succeed: the terminal accepts every character it
      is sent.  Where an exception can come from is therefore not a result
      of this development, beyond what [requests], [subprocess] and
      [time.sleep] do.
    - The body of [main] is cut at its numbered headings into one definition
      per section, which [main] chains; a [return n] of [main] is the outcome
      [Return n], and [sys.exit(main())] is [exit_status].
    - The [while] loop of [wait_until] is a recursion on a loop bound
      ([fuel]); a run that hits the bound is [OutOfFuel], and the results
      about runs that end say from which bound on they do. *)

From Stdlib Require Import ZArith List String Ascii Bool Lia DecimalString.
Import ListNotations.
Local Open Scope string_scope.
Local Open Scope Z_scope.

Set Warnings "-register-all".

(** ** Strings as Python uses them *)

Definition nl : string := String (ascii_of_nat 10) EmptyString.
Definition tab : string := String (ascii_of_nat 9) EmptyString.

(** [s * n] *)
Fixpoint str_mul (s : string) (n : nat) : string :=
  match n with
  | O => ""
  | S n' => s ++ str_mul s n'
  end.

(** [s[:n]] *)
Fixpoint str_take (n : nat) (s : string) : string :=
  match n, s with
  | O, _ => ""
  | S _, EmptyString => ""
  | S n', String c s' => String c (str_take n' s')
  end.

Fixpoint str_drop (n : nat) (s : string) : string :=
  match n, s with
  | O, _ => s
  | S _, EmptyString => ""
  | S n', String _ s' => str_drop n' s'
  end.

(** [s[-n:]] for [n > 0] *)
Definition str_last (n : nat) (s : string) : string :=
  str_drop (String.length s - n) s.

(** [l[-n:]] for [n > 0] *)
Definition list_last {A} (n : nat) (l : list A) : list A :=
  skipn (List.length l - n) l.

(** [needle in s] on strings *)
Fixpoint str_contains (needle s : string) : bool :=
  String.prefix needle s ||
  match s with
  | EmptyString => false
  | String _ s' => str_contains needle s'
  end.

(** [s.rstrip("/")] *)
Fixpoint rstrip_slash (s : string) : string :=
  match s with
  | EmptyString => ""
  | String c s' =>
      match rstrip_slash s' with
      | EmptyString => if Ascii.eqb c "/" then "" else String c ""
      | r => String c r
      end
  end.

(** [sep.join(l)] *)
Definition str_join (sep : string) (l : list string) : string :=
  String.concat sep l.

(** [f"{z}"] for an [int] *)
Definition str_of_Z (z : Z) : string := NilZero.string_of_int (Z.to_int z).

(** [z not in (a, b, ...)] is [negb (Z_in z [a; b; ...])] *)
Definition Z_in (z : Z) (l : list Z) : bool := existsb (Z.eqb z) l.

(** ** Decoded JSON documents and request payloads *)

Inductive json : Type :=
| JNull
| JBool (b : bool)
| JInt (z : Z)
| JFloat (lexeme : string)
| JStr (s : string)
| JArr (items : list json)
| JObj (members : list (string * json)).

(** [d.get(key, default)] on the items of a [dict] (keys are unique) *)
Fixpoint dict_get (members : list (string * json)) (key : string)
    (default : json) : json :=
  match members with
  | [] => default
  | (k, v) :: rest => if String.eqb k key then v else dict_get rest key default
  end.

(** The library functions the script calls and does not define. *)
Record PyLib : Type := {
  json_loads : string -> option json;   (* [None]: json.loads raises *)
  json_dumps : json -> string;          (* json.dumps(v, indent=2) *)
  py_str : json -> string;              (* str(v), as print and f-strings use *)
  str_strip : string -> string;         (* s.strip() *)
  str_lower : string -> string;         (* s.lower() *)
  str_splitlines : string -> list string (* s.splitlines() *)
}.

(** ** Events, the world and runs *)

Inductive Method : Type := GET | POST | PUT | DELETE.

Definition Method_eqb (a b : Method) : bool :=
  match a, b with
  | GET, GET | POST, POST | PUT, PUT | DELETE, DELETE => true
  | _, _ => false
  end.

Inductive Event : Type :=
| EvHttp (m : Method) (url : string) (auth : option (string * string))
         (payload : option json) (timeout : Z)
| EvRun (cmd : list string)
| EvTime
| EvSleep (secs : Z)
| EvPrint (line : string)
| EvCall.

Definition History : Type := list Event.
Bind Scope list_scope with History.

Record World : Type := {
  argv : list string;                         (* sys.argv *)
  environ : string -> option string;          (* os.environ *)
  hz : positive;                              (* clock ticks per second *)
  clock : History -> Z;                       (* reading of time.time() *)
  http_response : History -> option (Z * string);
      (* status and text; [None]: requests raises *)
  run_response : History -> option (Z * string * string);
      (* returncode, stdout, stderr; [None]: subprocess.run raises *)
  fn_response : History -> bool * string
      (* answer of a predicate supplied by the caller of wait_until *)
}.

Inductive Outcome (A : Type) : Type :=
| Next (a : A) (h : History)        (* the statement completed with value a *)
| Return (code : Z) (h : History)   (* main executed [return code] *)
| Raise (h : History)               (* an uncaught exception *)
| OutOfFuel (h : History).          (* the loop bound of the model was hit *)

Arguments Next {A} a h.
Arguments Return {A} code h.
Arguments Raise {A} h.
Arguments OutOfFuel {A} h.

Definition M (A : Type) : Type := History -> Outcome A.

Definition ret {A} (a : A) : M A := fun h => Next a h.

Definition bind {A B} (m : M A) (k : A -> M B) : M B :=
  fun h =>
    match m h with
    | Next a h' => k a h'
    | Return c h' => Return c h'
    | Raise h' => Raise h'
    | OutOfFuel h' => OutOfFuel h'
    end.

Definition return_ {A} (code : Z) : M A := fun h => Return code h.

Definition trace {A} (o : Outcome A) : History :=
  match o with
  | Next _ h | Return _ h | Raise h | OutOfFuel h => h
  end.

Declare Scope run_scope.
Delimit Scope run_scope with run.
Notation "x <- m ;; k" := (bind m (fun x => k))
  (at level 61, m at next level, right associativity) : run_scope.
Notation "' p <- m ;; k" := (bind m (fun x => let p := x in k))
  (at level 61, p pattern, m at next level, right associativity) : run_scope.
Notation "m ;; k" := (bind m (fun _ => k))
  (at level 61, right associativity) : run_scope.
Local Open Scope run_scope.

(** ** helpers *)

Section Program.

Variable w : World.
Variable lib : PyLib.

Definition emit (e : Event) : M unit := fun h => Next tt (h ++ [e])%list.

Definition print (line : string) : M unit := emit (EvPrint line).

(** [for x in l: body(x)] *)
Fixpoint for_each {A} (l : list A) (body : A -> M unit) : M unit :=
  match l with
  | [] => ret tt
  | x :: l' => body x ;; for_each l' body
  end.

Definition run (cmd : list string) : M (Z * string) :=
  fun h =>
    let h' := (h ++ [EvRun cmd])%list in
    match run_response w h' with
    | Some (returncode, stdout, stderr) =>
        Next (returncode, str_strip lib (stdout ++ stderr)) h'
    | None => Raise h'
    end.

Definition bar : string := str_mul "=" 90.

Definition heading (title : string) : M unit :=
  print (nl ++ bar) ;;
  print title ;;
  print bar.

Definition ok (msg : string) : M unit := print ("[OK] " ++ msg).

Definition warn (msg : string) : M unit := print ("[WARN] " ++ msg).

Definition fail (msg : string) : M unit := print ("[FAIL] " ++ msg).

Definition env (name : string) (default : option string) : string :=
  match environ w name with
  | Some v => v
  | None => match default with Some d => d | None => "" end
  end.

Definition http (method : Method) (url : string)
    (auth : option (string * string)) (payload : option json)
    (timeout : Z) : M (Z * string) :=
  fun h =>
    let h' := (h ++ [EvHttp method url auth payload timeout])%list in
    match http_response w h' with
    | Some (status_code, text) => Next (status_code, text) h'
    | None => Raise h'
    end.

Definition jdump (s : string) (limit : nat) : string :=
  match json_loads lib s with
  | Some v => str_take limit (json_dumps lib v)
  | None => str_take limit s
  end.

(** [time.time()] *)
Definition time_time : M Z :=
  fun h => let h' := (h ++ [EvTime])%list in Next (clock w h') h'.

(** [time.sleep(secs)]: a negative argument raises ValueError *)
Definition time_sleep (secs : Z) : M unit :=
  if secs <? 0 then (fun h => Raise h) else emit (EvSleep secs).

(** The loop of [wait_until]; [fuel] bounds the number of times its condition
    is evaluated.  The readings [now] and [t0] are in ticks, so the timeout
    is brought to ticks for the comparison. *)
Fixpoint wait_loop (fuel : nat) (desc : string) (fn : M (bool * string))
    (t0 timeout_s sleep_s : Z) : M bool :=
  match fuel with
  | O => fun h => OutOfFuel h
  | S fuel' =>
      now <- time_time ;;
      if now - t0 <? timeout_s * Z.pos (hz w) then
        r <- fn ;;
        let '(ok_flag, info) := r in
        if (ok_flag : bool) then
          ok (desc ++ ": ready") ;;
          ret true
        else
          print ("[WAIT] " ++ desc ++ ": " ++ info) ;;
          time_sleep sleep_s ;;
          wait_loop fuel' desc fn t0 timeout_s sleep_s
      else
        fail (desc ++ ": timed out after " ++ str_of_Z timeout_s ++ "s") ;;
        ret false
  end.

Definition wait_until (fuel : nat) (desc : string) (fn : M (bool * string))
    (timeout_s sleep_s : Z) : M bool :=
  t0 <- time_time ;;
  wait_loop fuel desc fn t0 timeout_s sleep_s.

(** A predicate handed to [wait_until] by some caller: each invocation is an
    event, and the world supplies the pair it returns. *)
Definition callback : M (bool * string) :=
  fun h => let h' := (h ++ [EvCall])%list in Next (fn_response w h') h'.

(** ** Reading decoded documents

    Each of these is [None] where Python raises (TypeError, AttributeError,
    IndexError, KeyError); the callers sit inside [try ... except Exception]. *)

(** iteration, as a comprehension does *)
Definition py_iter (v : json) : option (list json) :=
  match v with
  | JArr items => Some items
  | JObj members => Some (map (fun kv => JStr (fst kv)) members)
  | JStr s => Some (map (fun c => JStr (String c "")) (list_ascii_of_string s))
  | _ => None
  end.

(** [v.get(key, default)] *)
Definition py_get (v : json) (key : string) (default : json) : option json :=
  match v with
  | JObj members => Some (dict_get members key default)
  | _ => None
  end.

(** [v[0]] *)
Definition py_index0 (v : json) : option json :=
  match v with
  | JArr (x :: _) => Some x
  | JStr (String c _) => Some (JStr (String c ""))
  | _ => None
  end.

(** [[m.get("model_id") for m in items]] *)
Fixpoint model_ids (items : list json) : option (list json) :=
  match items with
  | [] => Some []
  | m :: rest =>
      match py_get m "model_id" JNull, model_ids rest with
      | Some id, Some ids => Some (id :: ids)
      | _, _ => None
      end
  end.

(** The [try] block that fills [models] in step 3. *)
Definition parse_models (bd : string) : list json :=
  match json_loads lib bd with
  | Some jj =>
      match py_get jj "trained_model_configs" (JArr []) with
      | Some configs =>
          match py_iter configs with
          | Some items =>
              match model_ids items with
              | Some models => models
              | None => []
              end
          | None => []
          end
      | None => []
      end
  | None => []
  end.

(** [s in models] for a [str] s *)
Definition str_in (s : string) (models : list json) : bool :=
  existsb (fun m => match m with JStr t => String.eqb s t | _ => false end)
    models.

(** The [try] block of [_deploy_status]. *)
Definition parse_deploy_stats (bd2 : string) : bool * string :=
  let unparsed := (false, "could not parse stats") in
  match json_loads lib bd2 with
  | Some j2 =>
      match py_get j2 "trained_model_stats" (JArr [JObj []]) with
      | Some stats =>
          match py_index0 stats with
          | Some first =>
              match py_get first "deployment_stats" (JObj []) with
              | Some ds =>
                  match py_get ds "state" JNull,
                        py_get ds "allocation_status" (JObj []) with
                  | Some state, Some alloc =>
                      match state with
                      | JStr st =>
                          if String.eqb st "started" then (true, "started")
                          else (false, "state=" ++ py_str lib state
                                         ++ ", alloc=" ++ py_str lib alloc)
                      | _ => (false, "state=" ++ py_str lib state
                                       ++ ", alloc=" ++ py_str lib alloc)
                      end
                  | _, _ => unparsed
                  end
              | None => unparsed
              end
          | None => unparsed
          end
      | None => unparsed
      end
  | None => unparsed
  end.

(** ** core: the configuration read at the top of [main] *)

(** [fix] in the source; the name is reserved here *)
Definition fix_mode : bool := existsb (String.eqb "--fix") (argv w).

Definition ES_URL : string :=
  rstrip_slash (env "ES_URL" (Some "http://localhost:9200")).
Definition ES_USER : string := env "ES_USER" (Some "elastic").
Definition ES_PASS : string :=
  env "ES_PASS" (Some (env "ELASTIC_PASSWORD" (Some "changeme"))).
Definition auth : option (string * string) := Some (ES_USER, ES_PASS).
Definition INDEX : string := env "ES_INDEX" (Some "oracle_elser_index").
Definition PIPELINE_ID : string :=
  env "ES_INGEST_PIPELINE" (Some "elser_oracle_pipeline").
Definition ELSER_MODEL_ID : string :=
  env "ELSER_MODEL_ID" (Some ".elser_model_2").
Definition LS_SERVICE : string := env "LS_SERVICE" (Some "ls01").
Definition ES_CONTAINER : string := env "ES_CONTAINER" (Some "es01").

(** The URLs and commands of the run. *)
Definition root_url : string := ES_URL ++ "/".
Definition license_url : string := ES_URL ++ "/_license?pretty".
Definition models_url : string :=
  ES_URL ++ "/_ml/trained_models?size=200&pretty".
Definition download_url : string :=
  ES_URL ++ "/_ml/trained_models/" ++ ELSER_MODEL_ID ++ "/_download?pretty".
Definition model_url : string :=
  ES_URL ++ "/_ml/trained_models/" ++ ELSER_MODEL_ID ++ "?pretty".
Definition stats_url : string :=
  ES_URL ++ "/_ml/trained_models/" ++ ELSER_MODEL_ID ++ "/_stats?pretty".
Definition start_url : string :=
  ES_URL ++ "/_ml/trained_models/" ++ ELSER_MODEL_ID
         ++ "/deployment/_start?pretty".
Definition pipeline_url : string :=
  ES_URL ++ "/_ingest/pipeline/" ++ PIPELINE_ID ++ "?pretty".
Definition index_url : string := ES_URL ++ "/" ++ INDEX ++ "?pretty".
Definition count_url : string := ES_URL ++ "/" ++ INDEX ++ "/_count?pretty".

Definition docker_ps : list string :=
  ["docker"; "ps"; "--format";
   "{{.Names}}" ++ tab ++ "{{.Status}}" ++ tab ++ "{{.Ports}}"].
Definition compose_restart : list string :=
  ["docker"; "compose"; "restart"; LS_SERVICE].
Definition docker_restart : list string := ["docker"; "restart"; LS_SERVICE].
Definition docker_logs : list string :=
  ["docker"; "logs"; "--tail"; "160"; LS_SERVICE].

Definition start_payload : json :=
  JObj [("number_of_allocations", JInt 1); ("threads_per_allocation", JInt 1)].

Definition pipeline_payload : json :=
  JObj [("processors", JArr [
    JObj [("inference", JObj [
      ("model_id", JStr ELSER_MODEL_ID);
      ("input_output", JArr [
         JObj [("input_field", JStr "content");
               ("output_field", JStr "ml.tokens")]]);
      ("inference_config", JObj [("text_expansion", JObj [])])])]])].

Definition index_payload : json :=
  JObj [("mappings", JObj [("properties", JObj [
    ("id", JObj [("type", JStr "keyword")]);
    ("title", JObj [("type", JStr "text")]);
    ("body", JObj [("type", JStr "text")]);
    ("content", JObj [("type", JStr "text")]);
    ("updated_at", JObj [("type", JStr "date")]);
    ("ml", JObj [("properties", JObj [
       ("tokens", JObj [("type", JStr "rank_features")])])])])])].

Definition needles : list string :=
  ["Could not index event"; "status_exception"; "pipeline"; "inference";
   "ml"; "ORA-"; "SELECT"].

(** ** core: the two readiness probes *)

Definition _download_ready : M (bool * string) :=
  r <- http GET model_url auth None 20 ;;
  let '(st2, bd2) := r in
  if negb (st2 =? 200) then ret (false, "HTTP " ++ str_of_Z st2)
  else
    match json_loads lib bd2 with
    | Some _ => ret (true, "model exists")
    | None => ret (false, "not json yet")
    end.

Definition _deploy_status : M (bool * string) :=
  r <- http GET stats_url auth None 20 ;;
  let '(st2, bd2) := r in
  if negb (st2 =? 200) then
    ret (false, "HTTP " ++ str_of_Z st2 ++ ": " ++ str_take 120 bd2)
  else ret (parse_deploy_stats bd2).

(** ** core: [main], one definition per numbered section of its body *)

(** 0) Mode *)
Definition step0_mode : M unit :=
  heading "0) Mode" ;;
  print ("Fix mode: " ++ (if fix_mode then "ON (--fix)" else "OFF (read-only)")).

(** 1) Docker: containers and basic status *)
Definition step1_docker : M unit :=
  heading "1) Docker: containers & basic status" ;;
  r <- run docker_ps ;;
  let '(code, out) := r in
  if negb (code =? 0) then
    fail "Docker command failed. Is Docker Desktop running?" ;;
    print out ;;
    return_ 2
  else
    print out.

(** 2) Elasticsearch: reachability and license *)
Definition step2_reachability : M unit :=
  heading "2) Elasticsearch: reachability + license" ;;
  r <- http GET root_url auth None 20 ;;
  let '(st, bd) := r in
  if negb (st =? 200) then
    fail ("Elasticsearch not reachable or auth failed (HTTP "
            ++ str_of_Z st ++ ")") ;;
    print (str_take 1200 bd) ;;
    return_ 3
  else
    ok ("Elasticsearch reachable at " ++ ES_URL ++ " (auth OK)") ;;
    print (jdump bd 900) ;;
    r <- http GET license_url auth None 20 ;;
    let '(st, bd) := r in
    print (jdump bd 1200).

(** 3) ML: list the models; the value is [have_elser] *)
Definition step3_models : M bool :=
  heading
    "3) ML: list models, ensure ELSER exists, download + deploy (if --fix)" ;;
  r <- http GET models_url auth None 20 ;;
  let '(st, bd) := r in
  if negb (st =? 200) then
    fail ("Cannot list trained models (HTTP " ++ str_of_Z st ++ ").") ;;
    print (str_take 1200 bd) ;;
    return_ 4
  else
    let models := parse_models bd in
    let have_elser := str_in ELSER_MODEL_ID models in
    print "Known trained models (first 40):" ;;
    for_each (firstn 40 models) (fun m => print ("  - " ++ py_str lib m)) ;;
    (if have_elser then ok ("ELSE R model found: " ++ ELSER_MODEL_ID)
     else warn ("ELSE R model NOT found: " ++ ELSER_MODEL_ID)) ;;
    ret have_elser.

(** 3A) Download ELSER model *)
Definition step3A_download (fuel : nat) (have_elser : bool) : M unit :=
  if fix_mode && negb have_elser then
    heading "3A) Download ELSER model" ;;
    r <- http POST download_url auth None 20 ;;
    let '(st, bd) := r in
    print (jdump bd 1600) ;;
    if negb (Z_in st [200; 201]) then
      fail "ELSE R download request failed." ;;
      return_ 5
    else
      ready <- wait_until fuel "ELSE R model availability" _download_ready
                 600 10 ;;
      if negb ready then return_ 6 else ret tt
  else ret tt.

(** 3B) Start deployment (if not started) *)
Definition step3B_deploy (fuel : nat) : M unit :=
  if fix_mode then
    heading "3B) Start deployment (if not started)" ;;
    r <- http POST start_url auth (Some start_payload) 20 ;;
    let '(st, bd) := r in
    print (jdump bd 1600) ;;
    if negb (Z_in st [200; 201; 409]) then
      fail "Deployment start request failed." ;;
      return_ 7
    else
      ready <- wait_until fuel "ELSE R deployment" _deploy_status 600 10 ;;
      if negb ready then return_ 8 else ret tt
  else
    ok "Skipping deployment changes (read-only mode)." ;;
    _ <- _deploy_status ;;
    ret tt.

(** 4) Ingest pipeline *)
Definition step4_pipeline : M unit :=
  heading
    "4) Ingest pipeline: ensure it points to the correct model id (if --fix)" ;;
  if fix_mode then
    r <- http PUT pipeline_url auth (Some pipeline_payload) 20 ;;
    let '(st, bd) := r in
    print (jdump bd 1200) ;;
    if negb (Z_in st [200; 201]) then
      fail ("Failed to create/update ingest pipeline " ++ PIPELINE_ID ++ ".") ;;
      return_ 9
    else
      ok ("Ingest pipeline ready: " ++ PIPELINE_ID)
  else
    r <- http GET pipeline_url auth None 20 ;;
    let '(st, bd) := r in
    if st =? 200 then ok ("Ingest pipeline exists: " ++ PIPELINE_ID)
    else warn ("Ingest pipeline missing (HTTP " ++ str_of_Z st ++ ").").

(** 5) Index mapping *)
Definition step5_index : M unit :=
  heading "5) Index mapping: ensure ml.tokens is rank_features (if --fix)" ;;
  if fix_mode then
    r <- http DELETE index_url auth None 20 ;;
    let '(st, bd) := r in
    print (jdump bd 600) ;;
    r <- http PUT index_url auth (Some index_payload) 20 ;;
    let '(st, bd) := r in
    print (jdump bd 1200) ;;
    if negb (Z_in st [200; 201]) then
      fail ("Failed to create index " ++ INDEX ++ ".") ;;
      return_ 10
    else
      ok ("Index ready: " ++ INDEX)
  else
    ok "Skipping index recreation (read-only mode).".

(** 6) Restart Logstash (if --fix) and verify indexing *)
Definition step6_restart : M unit :=
  heading "6) Restart Logstash (if --fix) and verify indexing" ;;
  (if fix_mode then
     r <- run compose_restart ;;
     let '(code, out) := r in
     print (str_take 1200 out) ;;
     (if negb (code =? 0) then
        warn "docker compose restart failed; trying docker restart" ;;
        r2 <- run docker_restart ;;
        let '(code2, out2) := r2 in
        print (str_take 1200 out2)
      else ret tt) ;;
     time_sleep 20
   else ret tt) ;;
  r <- http GET count_url auth None 20 ;;
  let '(st, bd) := r in
  print (jdump bd 800).

(** 7) Recent Logstash evidence (tail) *)
Definition step7_logs : M unit :=
  heading "7) Recent Logstash evidence (tail)" ;;
  r <- run docker_logs ;;
  let '(code, out) := r in
  if code =? 0 then
    let lines :=
      filter (fun ln =>
                existsb (fun n =>
                           str_contains (str_lower lib n) (str_lower lib ln))
                  needles)
        (str_splitlines lib out) in
    match lines with
    | _ :: _ => print (str_join nl (list_last 140 lines))
    | [] => print (str_last 1200 out)
    end
  else
    print out.

Definition step_done : M Z :=
  heading "DONE" ;;
  ok "If count is still 0, paste sections 6 and 7 output only." ;;
  return_ 0.

Definition main (fuel : nat) : M Z :=
  step0_mode ;;
  step1_docker ;;
  step2_reachability ;;
  have_elser <- step3_models ;;
  step3A_download fuel have_elser ;;
  step3B_deploy fuel ;;
  step4_pipeline ;;
  step5_index ;;
  step6_restart ;;
  step7_logs ;;
  step_done.

End Program.

(** [sys.exit(main())]: the status the process ends with.  An uncaught
    exception makes the interpreter print a traceback and exit with 1. *)
Definition exit_status (o : Outcome Z) : option Z :=
  match o with
  | Return code _ => Some code
  | Next code _ => Some code
  | Raise _ => Some 1
  | OutOfFuel _ => None
  end.

(** * Vocabulary of the statements *)

(** ** [main] cut at a section boundary *)

Section Pieces.

Variable w : World.
Variable lib : PyLib.

Definition sections_0_2 : M unit :=
  step0_mode w ;; step1_docker w lib ;; step2_reachability w lib.

Definition sections_0_3A (fuel : nat) : M unit :=
  sections_0_2 ;;
  have_elser <- step3_models w lib ;;
  step3A_download w lib fuel have_elser.

Definition sections_0_3B (fuel : nat) : M unit :=
  sections_0_3A fuel ;; step3B_deploy w lib fuel.

Definition sections_0_4 (fuel : nat) : M unit :=
  sections_0_3B fuel ;; step4_pipeline w lib.

Definition sections_0_5 (fuel : nat) : M unit :=
  sections_0_4 fuel ;; step5_index w lib.

Definition sections_from_6 : M Z :=
  step6_restart w lib ;; step7_logs w lib ;; step_done.

Definition sections_from_5 : M Z := step5_index w lib ;; sections_from_6.

Definition sections_from_4 : M Z := step4_pipeline w lib ;; sections_from_5.

Definition sections_from_3B (fuel : nat) : M Z :=
  step3B_deploy w lib fuel ;; sections_from_4.

Definition sections_from_3 (fuel : nat) : M Z :=
  have_elser <- step3_models w lib ;;
  step3A_download w lib fuel have_elser ;;
  sections_from_3B fuel.

End Pieces.

(** What [wait_until] does with the pair its predicate returned. *)
Definition after_poll (w : World) (fuel : nat) (desc : string)
    (fn : M (bool * string)) (t0 timeout_s sleep_s : Z) (r : bool * string)
    : M bool :=
  let '(ok_flag, info) := r in
  if (ok_flag : bool) then
    ok (desc ++ ": ready") ;;
    ret true
  else
    print ("[WAIT] " ++ desc ++ ": " ++ info) ;;
    time_sleep sleep_s ;;
    wait_loop w fuel desc fn t0 timeout_s sleep_s.

(** ** What a piece of the program may add to the history, the codes it may
    return from [main] with, and whether it may exhaust the loop bound *)

Definition sat {A} (I : Event -> Prop) (E : Z -> Prop) (F : Prop) (m : M A)
    : Prop :=
  forall h,
    exists t, trace (m h) = (h ++ t)%list /\ Forall I t /\
              (forall c h', m h = Return c h' -> E c) /\
              (forall h', m h = OutOfFuel h' -> F).

(** no restriction on events *)
Definition any_event : Event -> Prop := fun _ => True.

(** ** Observation only *)

(** What a run that only observes may do: GET requests, the container
    listing and the log tail, and printing. *)
Definition read_only_event (w : World) (e : Event) : Prop :=
  match e with
  | EvHttp m _ _ _ _ => m = GET
  | EvRun cmd => cmd = docker_ps \/ cmd = docker_logs w
  | EvPrint _ => True
  | EvTime | EvSleep _ | EvCall => False
  end.

(** the codes of the sections that do not depend on the mode *)
Definition read_only_code (c : Z) : Prop := c = 0 \/ c = 2 \/ c = 3 \/ c = 4.

(** ** Measures on histories *)

Definition is_call (e : Event) : bool :=
  match e with EvCall => true | _ => false end.

(** number of invocations of the caller's predicate *)
Definition ncalls (h : History) : nat := List.length (filter is_call h).

(** seconds slept *)
Fixpoint total_sleep (h : History) : Z :=
  match h with
  | [] => 0
  | EvSleep secs :: h' => secs + total_sleep h'
  | _ :: h' => total_sleep h'
  end.

(** the lines printed *)
Fixpoint printed (h : History) : list string :=
  match h with
  | [] => []
  | EvPrint line :: h' => line :: printed h'
  | _ :: h' => printed h'
  end.

(** the HTTP requests sent, as method and URL *)
Fixpoint requests (h : History) : list (Method * string) :=
  match h with
  | [] => []
  | EvHttp m url _ _ _ :: h' => (m, url) :: requests h'
  | _ :: h' => requests h'
  end.

(** the commands run *)
Fixpoint commands (h : History) : list (list string) :=
  match h with
  | [] => []
  | EvRun cmd :: h' => cmd :: commands h'
  | _ :: h' => commands h'
  end.

(** the request a world is asked to answer *)
Definition last_event (h : History) : option Event :=
  List.last (map Some h) None.

(** ** Histories a run is expected to have *)

(** what [heading title] prints *)
Definition heading_lines (title : string) : History :=
  [EvPrint (nl ++ bar); EvPrint title; EvPrint bar].

(** up to and including the container listing of section 1 *)
Definition docker_check_history (w : World) : History :=
  heading_lines "0) Mode"
  ++ [EvPrint ("Fix mode: "
                 ++ (if fix_mode w then "ON (--fix)" else "OFF (read-only)"))]
  ++ heading_lines "1) Docker: containers & basic status"
  ++ [EvRun docker_ps].

(** from there to the request of section 2 to the root endpoint, [out]
    being what the container listing printed *)
Definition reachability_check_history (w : World) (out : string) : History :=
  docker_check_history w
  ++ [EvPrint out]
  ++ heading_lines "2) Elasticsearch: reachability + license"
  ++ [EvHttp GET (root_url w) (auth w) None 20].

(** any event but the POST that triggers the download *)
Definition not_download_trigger (w : World) (e : Event) : Prop :=
  match e with
  | EvHttp POST url _ _ _ => url <> download_url w
  | _ => True
  end.

(** from section 3's heading to its verdict, when the model is listed *)
Definition listing_history (w : World) (lib : PyLib) (bd : string) : History :=
  heading_lines
    "3) ML: list models, ensure ELSER exists, download + deploy (if --fix)"
  ++ [EvHttp GET (models_url w) (auth w) None 20;
      EvPrint "Known trained models (first 40):"]
  ++ map (fun m => EvPrint ("  - " ++ py_str lib m))
       (firstn 40 (parse_models lib bd))
  ++ [EvPrint ("[OK] ELSE R model found: " ++ ELSER_MODEL_ID w)].

(** section 3B up to its start command *)
Definition start_history (w : World) : History :=
  heading_lines "3B) Start deployment (if not started)"
  ++ [EvHttp POST (start_url w) (auth w) (Some start_payload) 20].

(** section 5 up to its DELETE *)
Definition delete_history (w : World) : History :=
  heading_lines "5) Index mapping: ensure ml.tokens is rank_features (if --fix)"
  ++ [EvHttp DELETE (index_url w) (auth w) None 20].

(** from there to the PUT, [deleted] being the body of the answer to the
    DELETE *)
Definition create_history (w : World) (lib : PyLib) (deleted : string)
    : History :=
  delete_history w
  ++ [EvPrint (jdump lib deleted 600);
      EvHttp PUT (index_url w) (auth w) (Some index_payload) 20].

(** section 6 up to the primary restart command *)
Definition restart_history (w : World) : History :=
  heading_lines "6) Restart Logstash (if --fix) and verify indexing"
  ++ [EvRun (compose_restart w)].

(** from there to the fallback restart command, [out] being what the primary
    one printed *)
Definition fallback_history (w : World) (out : string) : History :=
  restart_history w
  ++ [EvPrint (str_take 1200 out);
      EvPrint "[WARN] docker compose restart failed; trying docker restart";
      EvRun (docker_restart w)].

(** from there to the count query, [out2] being what the fallback printed *)
Definition count_history (w : World) (out out2 : string) : History :=
  fallback_history w out
  ++ [EvPrint (str_take 1200 out2);
      EvSleep 20;
      EvHttp GET (count_url w) (auth w) None 20].

(** from there to the log tail of section 7, [counted] being the body of the
    answer to the count query *)
Definition logs_history (w : World) (lib : PyLib) (out out2 counted : string)
    : History :=
  count_history w out out2
  ++ [EvPrint (jdump lib counted 800)]
  ++ heading_lines "7) Recent Logstash evidence (tail)"
  ++ [EvRun (docker_logs w)].

(** what the end of [main] prints *)
Definition done_lines : History :=
  heading_lines "DONE"
  ++ [EvPrint "[OK] If count is still 0, paste sections 6 and 7 output only."].

(** The clock of a world where a call of the predicate takes [d] ticks, a
    sleep takes exactly the time asked for, and nothing else takes time. *)
Definition uniform_clock (w : World) (c0 d : Z) : Prop :=
  forall h,
    clock w h = c0 + Z.pos (hz w) * total_sleep h + d * Z.of_nat (ncalls h).

(** The predicate answers [ans i] at its i-th invocation (from 1). *)
Definition answers (w : World) (ans : nat -> bool * string) : Prop :=
  forall h, fn_response w h = ans (ncalls h).

(** The k-th invocation is the first that is answered ready. *)
Definition first_ready (ans : nat -> bool * string) (k : nat) : Prop :=
  (1 <= k)%nat /\ fst (ans k) = true /\
  forall i, (1 <= i < k)%nat -> fst (ans i) = false.

(** the line [wait_until] prints when it gives up *)
Definition timed_out (desc : string) (timeout_s : Z) : Event :=
  EvPrint ("[FAIL] " ++ desc ++ ": timed out after "
             ++ str_of_Z timeout_s ++ "s").

(** ** Staged worlds, to run the model on *)

Module Scenario.

Definition is_request (m : Method) (url : string) (e : Event) : bool :=
  match e with
  | EvHttp m' url' _ _ _ => Method_eqb m m' && String.eqb url url'
  | _ => false
  end.

Definition cmd_eqb (a b : list string) : bool :=
  String.eqb (String.concat " " a) (String.concat " " b).

(** The control API as a table: method, path under http://localhost:9200, and
    the answer to the n-th such request (from 1); [None] raises. *)
Definition HttpTable : Type :=
  list (Method * string * (nat -> option (Z * string))).

Fixpoint http_lookup (tbl : HttpTable) (m : Method) (url : string) (n : nat)
    : option (Z * string) :=
  match tbl with
  | [] => None
  | (m', path, answer) :: tbl' =>
      if Method_eqb m m' && String.eqb url ("http://localhost:9200" ++ path)
      then answer n
      else http_lookup tbl' m url n
  end.

Fixpoint run_lookup (tbl : list (list string * (Z * string * string)))
    (cmd : list string) : option (Z * string * string) :=
  match tbl with
  | [] => None
  | (c, r) :: tbl' => if cmd_eqb cmd c then Some r else run_lookup tbl' cmd
  end.

(** A world with the default environment, where only sleeping takes time
    (one tick per second). *)
Definition staged (args : list string) (api : HttpTable)
    (docker : list (list string * (Z * string * string))) : World :=
  {| argv := "check_stack.py" :: args;
     environ := fun _ => None;
     hz := 1%positive;
     clock := total_sleep;
     http_response := fun h =>
       match last_event h with
       | Some (EvHttp m url _ _ _) =>
           http_lookup api m url (List.length (filter (is_request m url) h))
       | _ => None
       end;
     run_response := fun h =>
       match last_event h with
       | Some (EvRun cmd) => run_lookup docker cmd
       | _ => None
       end;
     fn_response := fun _ => (false, "") |}.

Fixpoint doc_lookup (docs : list (string * json)) (s : string) : option json :=
  match docs with
  | [] => None
  | (text, v) :: docs' => if String.eqb s text then Some v else doc_lookup docs' s
  end.

(** A stand-in for the library: the documents it can decode are listed. *)
Definition staged_lib (docs : list (string * json)) : PyLib :=
  {| json_loads := doc_lookup docs;
     json_dumps := fun _ => "{..}";
     py_str := fun v =>
       match v with
       | JStr s => s
       | JNull => "None"
       | JInt z => str_of_Z z
       | _ => "{..}"
       end;
     str_strip := fun s => s;
     str_lower := fun s => s;
     str_splitlines := fun s => [s] |}.

Definition always (r : Z * string) : nat -> option (Z * string) :=
  fun _ => Some r.

Definition docs : list (string * json) :=
  [ ("MODELS", JObj [("trained_model_configs",
                      JArr [JObj [("model_id", JStr ".elser_model_2")]])]);
    ("NO MODELS", JObj [("trained_model_configs", JArr [])]);
    ("STARTED", JObj [("trained_model_stats",
                       JArr [JObj [("deployment_stats",
                                    JObj [("state", JStr "started")])]])]);
    ("STARTING", JObj [("trained_model_stats",
                        JArr [JObj [("deployment_stats",
                                     JObj [("state", JStr "starting")])]])]) ].

Definition lib : PyLib := staged_lib docs.

Definition docker_up : list (list string * (Z * string * string)) :=
  [ (["docker"; "ps"; "--format";
      "{{.Names}}" ++ tab ++ "{{.Status}}" ++ tab ++ "{{.Ports}}"],
     (0, "es01 Up", ""));
    (["docker"; "logs"; "--tail"; "160"; "ls01"], (0, "pipeline started", "")) ].

Definition api_ready : HttpTable :=
  [ (GET, "/", always (200, "INFO"));
    (GET, "/_license?pretty", always (200, "LICENSE"));
    (GET, "/_ml/trained_models?size=200&pretty", always (200, "MODELS"));
    (GET, "/_ml/trained_models/.elser_model_2/_stats?pretty",
     always (200, "STARTED"));
    (GET, "/_ingest/pipeline/elser_oracle_pipeline?pretty", always (200, "{}"));
    (GET, "/oracle_elser_index/_count?pretty", always (200, "COUNT")) ].

(** Everything is up; the script is run without [--fix]. *)
Definition healthy : World := staged [] api_ready docker_up.

(** The control API rejects the credentials. *)
Definition unauthorized : World :=
  staged [] [ (GET, "/", always (401, "security_exception")) ] docker_up.

(** Nothing listens on the control API's port: requests raises. *)
Definition api_down : World := staged [] [] docker_up.

(** As [healthy], with the model not deployed. *)
Definition not_deployed : World :=
  staged []
    [ (GET, "/", always (200, "INFO"));
      (GET, "/_license?pretty", always (200, "LICENSE"));
      (GET, "/_ml/trained_models?size=200&pretty", always (200, "MODELS"));
      (GET, "/_ml/trained_models/.elser_model_2/_stats?pretty",
       always (404, "resource_not_found_exception"));
      (GET, "/_ingest/pipeline/elser_oracle_pipeline?pretty", always (200, "{}"));
      (GET, "/oracle_elser_index/_count?pretty", always (200, "COUNT")) ]
    docker_up.

(** The answer to the first such request, and to the later ones. *)
Definition first_then (r1 r : Z * string) : nat -> option (Z * string) :=
  fun n => match n with 1%nat => Some r1 | _ => Some r end.

Definition docker_restart_fails : list (list string * (Z * string * string)) :=
  docker_up ++
  [ (["docker"; "compose"; "restart"; "ls01"],
     (1, "", "no configuration file provided: not found"));
    (["docker"; "restart"; "ls01"], (1, "", "No such container: ls01")) ].

(** A run with [--fix]: the model is listed and its deployment already
    started (the start command is answered 409), the status query says
    starting once and started from then on, there is no index yet, and
    neither restart command works. *)
Definition repair : World :=
  staged ["--fix"]
    [ (GET, "/", always (200, "INFO"));
      (GET, "/_license?pretty", always (200, "LICENSE"));
      (GET, "/_ml/trained_models?size=200&pretty", always (200, "MODELS"));
      (POST, "/_ml/trained_models/.elser_model_2/deployment/_start?pretty",
       always (409, "status_exception"));
      (GET, "/_ml/trained_models/.elser_model_2/_stats?pretty",
       first_then (200, "STARTING") (200, "STARTED"));
      (PUT, "/_ingest/pipeline/elser_oracle_pipeline?pretty",
       always (200, "ACK"));
      (DELETE, "/oracle_elser_index?pretty",
       always (404, "index_not_found_exception"));
      (PUT, "/oracle_elser_index?pretty", always (200, "ACK"));
      (GET, "/oracle_elser_index/_count?pretty", always (200, "COUNT")) ]
    docker_restart_fails.

(** As [repair], with the creation of the index refused. *)
Definition repair_index_refused : World :=
  staged ["--fix"]
    [ (GET, "/", always (200, "INFO"));
      (GET, "/_license?pretty", always (200, "LICENSE"));
      (GET, "/_ml/trained_models?size=200&pretty", always (200, "MODELS"));
      (POST, "/_ml/trained_models/.elser_model_2/deployment/_start?pretty",
       always (409, "status_exception"));
      (GET, "/_ml/trained_models/.elser_model_2/_stats?pretty",
       always (200, "STARTED"));
      (PUT, "/_ingest/pipeline/elser_oracle_pipeline?pretty",
       always (200, "ACK"));
      (DELETE, "/oracle_elser_index?pretty",
       always (404, "index_not_found_exception"));
      (PUT, "/oracle_elser_index?pretty", always (400, "mapper_parsing_exception")) ]
    docker_up.

(** As [repair], with the start command refused. *)
Definition repair_start_refused : World :=
  staged ["--fix"]
    [ (GET, "/", always (200, "INFO"));
      (GET, "/_license?pretty", always (200, "LICENSE"));
      (GET, "/_ml/trained_models?size=200&pretty", always (200, "MODELS"));
      (POST, "/_ml/trained_models/.elser_model_2/deployment/_start?pretty",
       always (500, "internal error")) ]
    docker_up.

End Scenario.

(** A world for [wait_until] alone: the predicate answers [ans i] at its
    i-th invocation and takes [d] ticks each time, one tick to the second. *)
Definition probe_world (d : Z) (ans : nat -> bool * string) : World :=
  {| argv := ["probe"];
     environ := fun _ => None;
     hz := 1%positive;
     clock := fun h => total_sleep h + d * Z.of_nat (ncalls h);
     http_response := fun _ => None;
     run_response := fun _ => None;
     fn_response := fun h => ans (ncalls h) |}.

(** ready from the k-th invocation on *)
Definition ready_from (k : nat) : nat -> bool * string :=
  fun i => if (k <=? i)%nat then (true, "up") else (false, "not yet").

(** the number of clock readings taken *)
Definition is_time (e : Event) : bool :=
  match e with EvTime => true | _ => false end.

Definition nreadings (h : History) : nat := List.length (filter is_time h).

(** A world for [wait_until] alone whose clock is a wall clock that can be
    set: the i-th reading (from 1) is [reading i] seconds, whatever happened
    in between. *)
Definition reading_world (reading : nat -> Z) (ans : nat -> bool * string)
    : World :=
  {| argv := ["probe"];
     environ := fun _ => None;
     hz := 1%positive;
     clock := fun h => reading (nreadings h);
     http_response := fun _ => None;
     run_response := fun _ => None;
     fn_response := fun h => ans (ncalls h) |}.

(** the clock is set back 50 seconds between the first two readings *)
Definition set_back : nat -> Z :=
  fun i => match i with 1%nat => 100 | _ => 50 end.

(** the clock is set forward 1000 seconds between the first two readings *)
Definition set_forward : nat -> Z :=
  fun i => match i with 1%nat => 0 | _ => 1000 end.

(** ** Vocabulary of the further results *)

(** A sleep is never asked for a negative time. *)
Definition nonneg_sleep (e : Event) : Prop :=
  match e with
  | EvSleep secs => 0 <= secs
  | _ => True
  end.

(** The clock never goes back, and a sleep takes at least the time asked
    for. *)
Definition clock_advances (w : World) : Prop :=
  forall h t,
    Forall nonneg_sleep t ->
    clock w h + Z.pos (hz w) * total_sleep t <= clock w (h ++ t).

(** The number of polls that fit in [timeout_s] seconds at one every
    [sleep_s] seconds: the timeout over the interval, rounded up. *)
Definition poll_budget (timeout_s sleep_s : Z) : nat :=
  Z.to_nat ((timeout_s + sleep_s - 1) / sleep_s).

(** The run does not hit the loop bound of the model. *)
Definition ends {A} (m : M A) : Prop :=
  forall h h', m h <> OutOfFuel h'.

(** Everything a run may do to the outside: the requests it may send, each
    with the configured credentials and a timeout of 20 seconds, the commands
    it may run and the sleeps it may take. *)
Definition expected_event (w : World) (e : Event) : Prop :=
  match e with
  | EvHttp m url a p t =>
      a = auth w /\ t = 20 /\
      match m with
      | GET => p = None
      | POST =>
          (url = download_url w /\ p = None) \/
          (url = start_url w /\ p = Some start_payload)
      | PUT =>
          (url = pipeline_url w /\ p = Some (pipeline_payload w)) \/
          (url = index_url w /\ p = Some index_payload)
      | DELETE => url = index_url w /\ p = None
      end
  | EvRun cmd =>
      cmd = docker_ps \/ cmd = compose_restart w \/
      cmd = docker_restart w \/ cmd = docker_logs w
  | EvSleep secs => secs = 10 \/ secs = 20
  | EvTime | EvPrint _ => True
  | EvCall => False
  end.

(** section 3 up to its listing request *)
Definition models_history (w : World) : History :=
  heading_lines
    "3) ML: list models, ensure ELSER exists, download + deploy (if --fix)"
  ++ [EvHttp GET (models_url w) (auth w) None 20].

(** from there to the download trigger of section 3A, when the model is not
    listed *)
Definition download_history (w : World) (lib : PyLib) (bd : string) : History :=
  models_history w
  ++ [EvPrint "Known trained models (first 40):"]
  ++ map (fun m => EvPrint ("  - " ++ py_str lib m))
       (firstn 40 (parse_models lib bd))
  ++ [EvPrint ("[WARN] ELSE R model NOT found: " ++ ELSER_MODEL_ID w)]
  ++ heading_lines "3A) Download ELSER model"
  ++ [EvHttp POST (download_url w) (auth w) None 20].

(** section 4 up to its request, in either mode *)
Definition pipeline_history (w : World) : History :=
  heading_lines
    "4) Ingest pipeline: ensure it points to the correct model id (if --fix)"
  ++ [if fix_mode w
      then EvHttp PUT (pipeline_url w) (auth w) (Some (pipeline_payload w)) 20
      else EvHttp GET (pipeline_url w) (auth w) None 20].

(** The lines of the log tail that section 7 keeps: those that contain one
    of the needles, letter case apart. *)
Definition relevant_lines (lib : PyLib) (out : string) : list string :=
  filter (fun ln =>
            existsb (fun n =>
                       str_contains (str_lower lib n) (str_lower lib ln))
              needles)
    (str_splitlines lib out).

(** What a run does before it configures anything: it sends GET and POST
    requests and lists the containers. *)
Definition before_configuration (e : Event) : Prop :=
  match e with
  | EvHttp m _ _ _ _ => m = GET \/ m = POST
  | EvRun cmd => cmd = docker_ps
  | _ => True
  end.

(** Section 6 up to its count query: the heading and, in fix mode, the
    restart commands and the sleep. *)
Definition step6_before_count (w : World) (lib : PyLib) : M unit :=
  heading "6) Restart Logstash (if --fix) and verify indexing" ;;
  (if fix_mode w then
     r <- run w lib (compose_restart w) ;;
     let '(code, out) := r in
     print (str_take 1200 out) ;;
     (if negb (code =? 0) then
        warn "docker compose restart failed; trying docker restart" ;;
        r2 <- run w lib (docker_restart w) ;;
        let '(code2, out2) := r2 in
        print (str_take 1200 out2)
      else ret tt) ;;
     time_sleep 20
   else ret tt).

(** [main] up to the count query of section 6 *)
Definition sections_0_count (w : World) (lib : PyLib) (fuel : nat) : M unit :=
  sections_0_5 w lib fuel ;; step6_before_count w lib.

(** What section 7 prints of the log tail: the last 140 relevant lines, the
    last 1200 characters when no line is relevant, and everything the command
    wrote when it failed. *)
Definition log_evidence (lib : PyLib) (code : Z) (out : string) : string :=
  if code =? 0 then
    match relevant_lines lib out with
    | [] => str_last 1200 out
    | _ :: _ => str_join nl (list_last 140 (relevant_lines lib out))
    end
  else out.

(** the end of a run that succeeds: the count query and its answer, the log
    tail and what is printed of it, and the closing lines *)
Definition verification_history (w : World) (lib : PyLib) (counted : string)
    (code : Z) (out : string) : History :=
  [EvHttp GET (count_url w) (auth w) None 20; EvPrint (jdump lib counted 800)]
  ++ heading_lines "7) Recent Logstash evidence (tail)"
  ++ [EvRun (docker_logs w); EvPrint (log_evidence lib code out)]
  ++ done_lines.

(** any event but a sleep *)
Definition no_sleep (e : Event) : Prop :=
  match e with
  | EvSleep _ => False
  | _ => True
  end.

(** The piece of program asks for [k] seconds of sleep at most, however it
    ends. *)
Definition sleeps_at_most {A} (k : Z) (m : M A) : Prop :=
  forall h, total_sleep (trace (m h)) <= total_sleep h + k.

(** any event but a DELETE *)
Definition no_delete (e : Event) : Prop :=
  match e with
  | EvHttp DELETE _ _ _ _ => False
  | _ => True
  end.

(** the number of requests sent with method [m] *)
Definition count_method (m : Method) (h : History) : nat :=
  List.length (filter (fun mu => Method_eqb m (fst mu)) (requests h)).

(** The piece of program sends [k] requests with method [m] at most, however
    it ends. *)
Definition sends_at_most {A} (m : Method) (k : nat) (p : M A) : Prop :=
  forall h, (count_method m (trace (p h)) <= count_method m h + k)%nat.

(** any request but one with method [m] *)
Definition other_method (m : Method) (e : Event) : Prop :=
  match e with
  | EvHttp m' _ _ _ _ => m' <> m
  | _ => True
  end.

(** As [Scenario.repair], with a deployment that stays in the starting
    state. *)
Definition never_started : World :=
  Scenario.staged ["--fix"]
    [ (GET, "/", Scenario.always (200, "INFO"));
      (GET, "/_license?pretty", Scenario.always (200, "LICENSE"));
      (GET, "/_ml/trained_models?size=200&pretty",
       Scenario.always (200, "MODELS"));
      (POST, "/_ml/trained_models/.elser_model_2/deployment/_start?pretty",
       Scenario.always (200, "ACK"));
      (GET, "/_ml/trained_models/.elser_model_2/_stats?pretty",
       Scenario.always (200, "STARTING")) ]
    Scenario.docker_up.

(** A run with [--fix] where the model is not listed, the download is
    accepted and the model never shows up. *)
Definition never_downloaded : World :=
  Scenario.staged ["--fix"]
    [ (GET, "/", Scenario.always (200, "INFO"));
      (GET, "/_license?pretty", Scenario.always (200, "LICENSE"));
      (GET, "/_ml/trained_models?size=200&pretty",
       Scenario.always (200, "NO MODELS"));
      (POST, "/_ml/trained_models/.elser_model_2/_download?pretty",
       Scenario.always (200, "ACK"));
      (GET, "/_ml/trained_models/.elser_model_2?pretty",
       Scenario.always (404, "resource_not_found_exception")) ]
    Scenario.docker_up.

(** As [never_downloaded], with the download refused. *)
Definition download_refused : World :=
  Scenario.staged ["--fix"]
    [ (GET, "/", Scenario.always (200, "INFO"));
      (GET, "/_license?pretty", Scenario.always (200, "LICENSE"));
      (GET, "/_ml/trained_models?size=200&pretty",
       Scenario.always (200, "NO MODELS"));
      (POST, "/_ml/trained_models/.elser_model_2/_download?pretty",
       Scenario.always (403, "security_exception")) ]
    Scenario.docker_up.

(** The docker daemon is not running. *)
Definition docker_down : World :=
  Scenario.staged ["--fix"] Scenario.api_ready
    [ (docker_ps, (1, "", "Cannot connect to the Docker daemon")) ].

(** The model listing is refused. *)
Definition listing_refused : World :=
  Scenario.staged ["--fix"]
    [ (GET, "/", Scenario.always (200, "INFO"));
      (GET, "/_license?pretty", Scenario.always (200, "LICENSE"));
      (GET, "/_ml/trained_models?size=200&pretty",
       Scenario.always (403, "security_exception")) ]
    Scenario.docker_up.

(** As [Scenario.healthy], without the ingest pipeline. *)
Definition pipeline_missing : World :=
  Scenario.staged []
    [ (GET, "/", Scenario.always (200, "INFO"));
      (GET, "/_license?pretty", Scenario.always (200, "LICENSE"));
      (GET, "/_ml/trained_models?size=200&pretty",
       Scenario.always (200, "MODELS"));
      (GET, "/_ml/trained_models/.elser_model_2/_stats?pretty",
       Scenario.always (200, "STARTED"));
      (GET, "/_ingest/pipeline/elser_oracle_pipeline?pretty",
       Scenario.always (404, "{}"));
      (GET, "/oracle_elser_index/_count?pretty",
       Scenario.always (200, "COUNT")) ]
    Scenario.docker_up.

(** As [Scenario.repair], with a restart that works. *)
Definition restart_works : World :=
  Scenario.staged ["--fix"]
    [ (GET, "/", Scenario.always (200, "INFO"));
      (GET, "/_license?pretty", Scenario.always (200, "LICENSE"));
      (GET, "/_ml/trained_models?size=200&pretty",
       Scenario.always (200, "MODELS"));
      (POST, "/_ml/trained_models/.elser_model_2/deployment/_start?pretty",
       Scenario.always (200, "ACK"));
      (GET, "/_ml/trained_models/.elser_model_2/_stats?pretty",
       Scenario.always (200, "STARTED"));
      (PUT, "/_ingest/pipeline/elser_oracle_pipeline?pretty",
       Scenario.always (200, "ACK"));
      (DELETE, "/oracle_elser_index?pretty", Scenario.always (200, "ACK"));
      (PUT, "/oracle_elser_index?pretty", Scenario.always (200, "ACK"));
      (GET, "/oracle_elser_index/_count?pretty",
       Scenario.always (200, "COUNT")) ]
    (Scenario.docker_up
     ++ [ (["docker"; "compose"; "restart"; "ls01"], (0, "ls01 Started", "")) ]).

(** * Reasoning about runs *)

Example str_of_Z_404 : str_of_Z 404 = "404".
Proof. reflexivity. Qed.

Example str_of_Z_neg : str_of_Z (-7) = "-7".
Proof. reflexivity. Qed.

Example rstrip_slash_url : rstrip_slash "http://es:9200//" = "http://es:9200".
Proof. reflexivity. Qed.

Example str_last_ex : str_last 3 "abcdef" = "def".
Proof. reflexivity. Qed.

(** ** Laws of the run monad *)

Lemma bind_assoc {A B C} (m : M A) (k : A -> M B) (k' : B -> M C) (h : History) :
  bind (bind m k) k' h = bind m (fun a => bind (k a) k') h.
Proof. unfold bind. destruct (m h); reflexivity. Qed.

Lemma bind_Next {A B} (m : M A) (k : A -> M B) (h h' : History) (a : A) :
  m h = Next a h' -> bind m k h = k a h'.
Proof. intros E. unfold bind. rewrite E. reflexivity. Qed.

Lemma bind_Return {A B} (m : M A) (k : A -> M B) (h h' : History) (c : Z) :
  m h = Return c h' -> bind m k h = Return c h'.
Proof. intros E. unfold bind. rewrite E. reflexivity. Qed.

Lemma bind_ext {A B} (m : M A) (k k' : A -> M B) (h : History) :
  (forall a h', k a h' = k' a h') -> bind m k h = bind m k' h.
Proof. intros Hk. unfold bind. destruct (m h); auto. Qed.

(** ** Rules of [sat] *)

Section Sat.

Variable w : World.
Variable lib : PyLib.
Variable I : Event -> Prop.
Variable E : Z -> Prop.
Variable F : Prop.

Ltac sat_prim t :=
  exists t; rewrite ?app_nil_r; repeat split; auto; discriminate.

Lemma sat_ret {A} (a : A) : sat I E F (ret a).
Proof. intros h. unfold ret. sat_prim (@nil Event). Qed.

Lemma sat_return_ {A} (c : Z) : E c -> sat I E F (@return_ A c).
Proof.
  intros Hc h. exists []. rewrite app_nil_r. unfold return_.
  repeat split; auto; try discriminate. intros c' h' [= <- _]. exact Hc.
Qed.

Lemma sat_bind {A B} (m : M A) (k : A -> M B) :
  sat I E F m -> (forall a, sat I E F (k a)) -> sat I E F (bind m k).
Proof.
  intros Hm Hk h. destruct (Hm h) as (t1 & Ht1 & HI1 & HE1 & HF1).
  unfold bind. destruct (m h) as [a h1 | c h1 | h1 | h1] eqn:Emh; simpl in Ht1.
  - subst h1. destruct (Hk a (h ++ t1)%list) as (t2 & Ht2 & HI2 & HE2 & HF2).
    exists (t1 ++ t2)%list. rewrite app_assoc. repeat split; auto.
    apply Forall_app; auto.
  - exists t1. repeat split; auto; try discriminate.
    intros c' h' [= <- _]. eauto.
  - sat_prim t1.
  - exists t1. repeat split; auto; try discriminate. intros h' _. eauto.
Qed.

Lemma sat_emit (e : Event) : I e -> sat I E F (emit e).
Proof. intros He h. unfold emit. sat_prim [e]. Qed.

Lemma sat_print (line : string) : I (EvPrint line) -> sat I E F (print line).
Proof. apply sat_emit. Qed.

Lemma sat_heading (title : string) :
  (forall line, I (EvPrint line)) -> sat I E F (heading title).
Proof.
  intros HI. unfold heading. repeat (apply sat_bind; [|intros _]);
    apply sat_print; apply HI.
Qed.

Lemma sat_run (cmd : list string) : I (EvRun cmd) -> sat I E F (run w lib cmd).
Proof.
  intros He h. unfold run.
  destruct (run_response w (h ++ [EvRun cmd])) as [[[rc so] se]|];
    sat_prim [EvRun cmd].
Qed.

Lemma sat_http (m : Method) (url : string) (a : option (string * string))
    (p : option json) (t : Z) :
  I (EvHttp m url a p t) -> sat I E F (http w m url a p t).
Proof.
  intros He h. unfold http.
  destruct (http_response w (h ++ [EvHttp m url a p t])) as [[st bd]|];
    sat_prim [EvHttp m url a p t].
Qed.

Lemma sat_time_time : I EvTime -> sat I E F (time_time w).
Proof. intros He h. unfold time_time. sat_prim [EvTime]. Qed.

Lemma sat_time_sleep (secs : Z) :
  I (EvSleep secs) -> sat I E F (time_sleep secs).
Proof.
  intros He. unfold time_sleep. destruct (secs <? 0).
  - intros h. sat_prim (@nil Event).
  - apply sat_emit, He.
Qed.

Lemma sat_callback : I EvCall -> sat I E F (callback w).
Proof. intros He h. unfold callback. sat_prim [EvCall]. Qed.

Lemma sat_for_each {A} (l : list A) (body : A -> M unit) :
  (forall x, sat I E F (body x)) -> sat I E F (for_each l body).
Proof.
  intros Hb. induction l as [|x l IH]; simpl.
  - apply sat_ret.
  - apply sat_bind; auto.
Qed.

Lemma sat_wait_loop (fuel : nat) (desc : string) (fn : M (bool * string))
    (t0 timeout_s sleep_s : Z) :
  F -> I EvTime -> I (EvSleep sleep_s) -> (forall line, I (EvPrint line)) ->
  sat I E F fn ->
  sat I E F (wait_loop w fuel desc fn t0 timeout_s sleep_s).
Proof.
  intros HF Ht Hs Hp Hfn. induction fuel as [|fuel IH]; simpl.
  - intros h. exists []. rewrite app_nil_r. repeat split; auto; discriminate.
  - apply sat_bind; [apply sat_time_time, Ht|]. intros now.
    destruct (now - t0 <? timeout_s * Z.pos (hz w)).
    + apply sat_bind; [exact Hfn|]. intros [ok_flag info].
      destruct ok_flag.
      * apply sat_bind; [apply sat_print, Hp | intros _; apply sat_ret].
      * apply sat_bind; [apply sat_print, Hp | intros _].
        apply sat_bind; [apply sat_time_sleep, Hs | intros _; exact IH].
    + apply sat_bind; [apply sat_print, Hp | intros _; apply sat_ret].
Qed.

Lemma sat_wait_until (fuel : nat) (desc : string) (fn : M (bool * string))
    (timeout_s sleep_s : Z) :
  F -> I EvTime -> I (EvSleep sleep_s) -> (forall line, I (EvPrint line)) ->
  sat I E F fn ->
  sat I E F (wait_until w fuel desc fn timeout_s sleep_s).
Proof.
  intros HF Ht Hs Hp Hfn. unfold wait_until.
  apply sat_bind; [apply sat_time_time, Ht|]. intros t0.
  apply sat_wait_loop; auto.
Qed.

End Sat.

Lemma sat_weaken {A} (I I' : Event -> Prop) (E E' : Z -> Prop) (F F' : Prop)
    (m : M A) :
  (forall e, I e -> I' e) -> (forall c, E c -> E' c) -> (F -> F') ->
  sat I E F m -> sat I' E' F' m.
Proof.
  intros HI HE HF Hm h. destruct (Hm h) as (t & Ht & HIt & HEt & HFt).
  exists t. repeat split; eauto.
  eapply Forall_impl; eauto.
Qed.

Lemma sat_trace {A} (I : Event -> Prop) (E : Z -> Prop) (F : Prop) (m : M A)
    (h : History) :
  sat I E F m -> Forall I h -> Forall I (trace (m h)).
Proof.
  intros Hm Hh. destruct (Hm h) as (t & -> & Ht & _). apply Forall_app; auto.
Qed.

Lemma sat_code {A} (I : Event -> Prop) (E : Z -> Prop) (F : Prop) (m : M A)
    (h h' : History) (c : Z) :
  sat I E F m -> m h = Return c h' -> E c.
Proof. intros Hm Hr. destruct (Hm h) as (t & _ & _ & HE & _). eauto. Qed.

Lemma sat_fuel {A} (I : Event -> Prop) (E : Z -> Prop) (F : Prop) (m : M A)
    (h h' : History) :
  sat I E F m -> m h = OutOfFuel h' -> F.
Proof. intros Hm Hr. destruct (Hm h) as (t & _ & _ & _ & HF). eauto. Qed.

Lemma sat_extends {A} (I : Event -> Prop) (E : Z -> Prop) (F : Prop) (m : M A)
    (h : History) :
  sat I E F m -> exists t, trace (m h) = (h ++ t)%list.
Proof. intros Hm. destruct (Hm h) as (t & Ht & _). eauto. Qed.

(** Breaks a [sat] goal down along the structure of the program; what is left
    are the conditions on single events and on returned codes. *)
Ltac sat_go :=
  repeat first
    [ apply sat_ret
    | apply sat_heading; intros ?
    | apply sat_for_each; intros ?
    | apply sat_wait_until
    | apply sat_wait_loop
    | apply sat_time_sleep
    | apply sat_bind; [| intros ?]
    | apply sat_print
    | apply sat_emit
    | apply sat_run
    | apply sat_http
    | apply sat_return_
    | match goal with
      | |- sat _ _ _ (if ?b then _ else _) => destruct b eqn:?
      | |- sat _ _ _ (let '(_, _) := ?r in _) => destruct r
      | |- sat _ _ _ (match ?x with _ => _ end) => destruct x eqn:?
      end
    | progress unfold ok, warn, fail ].

Section Steps.

Variable w : World.
Variable lib : PyLib.

(** *** The probes add one GET and return normally *)

Lemma sat_download_ready (I : Event -> Prop) (E : Z -> Prop) (F : Prop) :
  I (EvHttp GET (model_url w) (auth w) None 20) ->
  sat I E F (_download_ready w lib).
Proof. intros HI. unfold _download_ready. sat_go; exact HI. Qed.

Lemma sat_deploy_status (I : Event -> Prop) (E : Z -> Prop) (F : Prop) :
  I (EvHttp GET (stats_url w) (auth w) None 20) ->
  sat I E F (_deploy_status w lib).
Proof. intros HI. unfold _deploy_status. sat_go; exact HI. Qed.

(** *** Each exit code belongs to one section of [main] *)

Lemma step0_codes : sat any_event (fun _ => False) True (step0_mode w).
Proof. unfold step0_mode. sat_go; exact Logic.I. Qed.

Lemma step1_codes : sat any_event (fun c => c = 2) True (step1_docker w lib).
Proof. unfold step1_docker. sat_go; first [exact Logic.I | reflexivity]. Qed.

Lemma step2_codes : sat any_event (fun c => c = 3) True (step2_reachability w lib).
Proof.
  unfold step2_reachability. sat_go; first [exact Logic.I | reflexivity].
Qed.

Lemma step3_codes : sat any_event (fun c => c = 4) True (step3_models w lib).
Proof. unfold step3_models. sat_go; first [exact Logic.I | reflexivity]. Qed.

Lemma step3A_codes (fuel : nat) (have_elser : bool) :
  sat any_event (fun c => c = 5 \/ c = 6) True (step3A_download w lib fuel have_elser).
Proof.
  unfold step3A_download. sat_go;
    intros; first [exact Logic.I | now left | now right].
Qed.

Lemma step3B_codes (fuel : nat) :
  sat any_event (fun c => c = 7 \/ c = 8) True (step3B_deploy w lib fuel).
Proof.
  unfold step3B_deploy. sat_go;
    intros; first [exact Logic.I | now left | now right].
Qed.

Lemma step4_codes : sat any_event (fun c => c = 9) True (step4_pipeline w lib).
Proof. unfold step4_pipeline. sat_go; first [exact Logic.I | reflexivity]. Qed.

Lemma step5_codes : sat any_event (fun c => c = 10) True (step5_index w lib).
Proof. unfold step5_index. sat_go; first [exact Logic.I | reflexivity]. Qed.

Lemma step6_codes : sat any_event (fun _ => False) True (step6_restart w lib).
Proof. unfold step6_restart. sat_go; exact Logic.I. Qed.

Lemma step7_codes : sat any_event (fun _ => False) True (step7_logs w lib).
Proof. unfold step7_logs. sat_go; exact Logic.I. Qed.

Lemma step_done_codes : sat any_event (fun c => c = 0) True (step_done).
Proof. unfold step_done. sat_go; first [exact Logic.I | reflexivity]. Qed.

End Steps.

Section MainSplit.

Variable w : World.
Variable lib : PyLib.

Lemma main_from_3 (fuel : nat) (h : History) :
  main w lib fuel h = (sections_0_2 w lib ;; sections_from_3 w lib fuel) h.
Proof.
  unfold main, sections_0_2, sections_from_3, sections_from_3B,
    sections_from_4, sections_from_5, sections_from_6.
  rewrite bind_assoc. apply bind_ext; intros _ h1.
  rewrite bind_assoc. reflexivity.
Qed.

End MainSplit.

Section ReadOnly.

Variable w : World.
Variable lib : PyLib.
Hypothesis Hfix : fix_mode w = false.

Ltac read_only_side :=
  intros; unfold read_only_code;
  first [exact Logic.I | reflexivity | now left | now right | lia | tauto].

Lemma main_read_only (fuel : nat) :
  sat (read_only_event w) read_only_code False (main w lib fuel).
Proof.
  unfold main, step0_mode, step1_docker, step2_reachability, step3_models,
    step3A_download, step3B_deploy, step4_pipeline, step5_index,
    step6_restart, step7_logs, step_done, _deploy_status.
  rewrite !Hfix. cbn [andb].
  sat_go; read_only_side.
Qed.

End ReadOnly.

(** Unfolds the helpers of the program down to histories and outcomes. *)
Ltac run_unfold :=
  unfold heading, ok, warn, fail; unfold print;
  unfold emit, http, run, time_time, ret, return_, bind.

(** Case analysis on the answer the run is waiting for. *)
Ltac case_http :=
  match goal with
  | |- context [match http_response ?w ?x with _ => _ end] =>
      destruct (http_response w x) as [[? ?]|] eqn:?
  end.

Ltac case_run :=
  match goal with
  | |- context [match run_response ?w ?x with _ => _ end] =>
      destruct (run_response w x) as [[[? ?] ?]|] eqn:?
  end.

(** Brings histories to the form [h ++ [e1; ...; en]]. *)
Ltac hist_norm :=
  repeat rewrite <- app_assoc; cbn [app].

Lemma main_not_Next (w : World) (lib : PyLib) (fuel : nat) (h h' : History)
    (c : Z) :
  main w lib fuel h <> Next c h'.
Proof.
  assert (Hb : forall A B (m : M A) (k : A -> M B) h0 b h1,
             (forall a h2, k a h2 <> Next b h1) -> bind m k h0 <> Next b h1).
  { intros A B m k h0 b h1 Hk. unfold bind. destruct (m h0); auto; discriminate. }
  unfold main. repeat (apply Hb; intros).
  unfold step_done. run_unfold. discriminate.
Qed.

(** C1. A run started without the [--fix] switch sends only GET requests and
    runs only the container listing and the log tail: no POST, PUT or DELETE,
    neither restart command, no sleep, for the whole run, however it ends. *)
Theorem read_only_run_never_mutates (w : World) (lib : PyLib) (fuel : nat) :
  fix_mode w = false ->
  let tr := trace (main w lib fuel []) in
  Forall (read_only_event w) tr /\
  (forall m url a p t, In (EvHttp m url a p t) tr -> m = GET) /\
  ~ In (EvRun (compose_restart w)) tr /\
  ~ In (EvRun (docker_restart w)) tr.
Proof.
  intros Hfix tr.
  assert (Hall : Forall (read_only_event w) tr).
  { subst tr. eapply sat_trace.
    - apply main_read_only, Hfix.
    - constructor. }
  rewrite Forall_forall in Hall.
  split; [apply Forall_forall, Hall|]. split; [|split].
  - intros m url a p t Hin. exact (Hall _ Hin).
  - intros Hin. destruct (Hall _ Hin) as [E | E]; discriminate E.
  - intros Hin. destruct (Hall _ Hin) as [E | E]; discriminate E.
Qed.

Lemma read_only_run_never_mutates_witness :
  Forall (read_only_event Scenario.healthy)
    (trace (main Scenario.healthy Scenario.lib 0 [])).
Proof.
  apply (read_only_run_never_mutates Scenario.healthy Scenario.lib 0).
  reflexivity.
Defined.

(** C9, as stated, fails when a request raises: with nothing listening on the
    control API's port the read-only run ends with status 1. *)
Lemma read_only_exit_status_counterexample :
  fix_mode Scenario.api_down = false /\
  exit_status (main Scenario.api_down Scenario.lib 0 []) = Some 1 /\
  ~ read_only_code 1.
Proof.
  split; [reflexivity|]. split; [reflexivity|].
  unfold read_only_code. lia.
Qed.

(** C9, amended. In read-only mode [main] returns 0, 2, 3 or 4 and nothing
    else; the process ends with one of these, or with the interpreter's
    status 1 when a request or a command raised, which [main] does not catch.
    The codes 5 to 10 of the mutating sections cannot occur. *)
Theorem read_only_exit_status (w : World) (lib : PyLib) (fuel : nat) :
  fix_mode w = false ->
  exists c,
    exit_status (main w lib fuel []) = Some c /\
    (c = 0 \/ c = 1 \/ c = 2 \/ c = 3 \/ c = 4) /\
    (c <> 1 -> exists h, main w lib fuel [] = Return c h) /\
    (c = 1 -> exists h, main w lib fuel [] = Raise h).
Proof.
  intros Hfix. pose proof (main_read_only w lib Hfix fuel) as Hsat.
  destruct (main w lib fuel []) as [c h | c h | h | h] eqn:Em.
  - exfalso. exact (main_not_Next w lib fuel [] h c Em).
  - pose proof (sat_code _ _ _ _ _ _ _ Hsat Em) as Hc. unfold read_only_code in Hc.
    exists c. simpl. repeat split; eauto; lia.
  - exists 1. simpl. repeat split; eauto; lia.
  - exfalso. exact (sat_fuel _ _ _ _ _ _ Hsat Em).
Qed.

Lemma read_only_exit_status_witness :
  exists c,
    exit_status (main Scenario.unauthorized Scenario.lib 0 []) = Some c /\
    (c = 0 \/ c = 1 \/ c = 2 \/ c = 3 \/ c = 4) /\
    (c <> 1 ->
     exists h, main Scenario.unauthorized Scenario.lib 0 [] = Return c h) /\
    (c = 1 ->
     exists h, main Scenario.unauthorized Scenario.lib 0 [] = Raise h).
Proof.
  apply (read_only_exit_status Scenario.unauthorized Scenario.lib 0).
  reflexivity.
Defined.

(** ** The codes of each stretch of [main] *)

Lemma bind_Return_inv {A B} (m : M A) (k : A -> M B) (h h' : History) (c : Z) :
  bind m k h = Return c h' ->
  m h = Return c h' \/ exists a h1, m h = Next a h1 /\ k a h1 = Return c h'.
Proof.
  unfold bind. destruct (m h) as [a h1 | c1 h1 | h1 | h1]; intros Hr;
    try discriminate.
  - right. eauto.
  - left. injection Hr as -> ->. reflexivity.
Qed.

Ltac codes_of lemma :=
  eapply sat_weaken; [ | | | apply lemma];
  [ intros ? ?; exact Logic.I
  | intros ? ?; cbv beta in *; first [contradiction | lia]
  | intros ?; exact Logic.I ].

Section Codes.

Variable w : World.
Variable lib : PyLib.

Lemma sections_from_6_codes :
  sat any_event (fun c => c = 0) True (sections_from_6 w lib).
Proof.
  unfold sections_from_6.
  apply sat_bind; [codes_of (step6_codes w lib) | intros _].
  apply sat_bind; [codes_of (step7_codes w lib) | intros _].
  apply step_done_codes.
Qed.

Lemma sections_from_5_codes :
  sat any_event (fun c => c = 0 \/ c = 10) True (sections_from_5 w lib).
Proof.
  unfold sections_from_5.
  apply sat_bind; [codes_of (step5_codes w lib) | intros _].
  codes_of sections_from_6_codes.
Qed.

Lemma sections_from_4_codes :
  sat any_event (fun c => c = 0 \/ c = 9 \/ c = 10) True (sections_from_4 w lib).
Proof.
  unfold sections_from_4.
  apply sat_bind; [codes_of (step4_codes w lib) | intros _].
  codes_of sections_from_5_codes.
Qed.

Lemma sections_from_3B_codes (fuel : nat) :
  sat any_event (fun c => c = 0 \/ 7 <= c <= 10) True
    (sections_from_3B w lib fuel).
Proof.
  unfold sections_from_3B.
  apply sat_bind; [codes_of (step3B_codes w lib fuel) | intros _].
  codes_of sections_from_4_codes.
Qed.

Lemma sections_from_3_codes (fuel : nat) :
  sat any_event (fun c => c = 0 \/ 4 <= c <= 10) True
    (sections_from_3 w lib fuel).
Proof.
  unfold sections_from_3.
  apply sat_bind; [codes_of (step3_codes w lib) | intros have_elser].
  apply sat_bind; [codes_of (step3A_codes w lib fuel have_elser) | intros _].
  codes_of (sections_from_3B_codes fuel).
Qed.

Lemma sections_0_2_codes :
  sat any_event (fun c => c = 2 \/ c = 3) True (sections_0_2 w lib).
Proof.
  unfold sections_0_2.
  apply sat_bind; [codes_of (step0_codes w) | intros _].
  apply sat_bind; [codes_of (step1_codes w lib) | intros _].
  codes_of (step2_codes w lib).
Qed.

Lemma sections_0_3A_codes (fuel : nat) :
  sat any_event (fun c => 2 <= c <= 6) True (sections_0_3A w lib fuel).
Proof.
  unfold sections_0_3A.
  apply sat_bind; [codes_of sections_0_2_codes | intros _].
  apply sat_bind; [codes_of (step3_codes w lib) | intros have_elser].
  codes_of (step3A_codes w lib fuel have_elser).
Qed.

Lemma sections_0_3B_codes (fuel : nat) :
  sat any_event (fun c => 2 <= c <= 8) True (sections_0_3B w lib fuel).
Proof.
  unfold sections_0_3B.
  apply sat_bind; [codes_of (sections_0_3A_codes fuel) | intros _].
  codes_of (step3B_codes w lib fuel).
Qed.

Lemma sections_0_4_codes (fuel : nat) :
  sat any_event (fun c => 2 <= c <= 9) True (sections_0_4 w lib fuel).
Proof.
  unfold sections_0_4.
  apply sat_bind; [codes_of (sections_0_3B_codes fuel) | intros _].
  codes_of (step4_codes w lib).
Qed.

Lemma sections_0_5_codes (fuel : nat) :
  sat any_event (fun c => 2 <= c <= 10) True (sections_0_5 w lib fuel).
Proof.
  unfold sections_0_5.
  apply sat_bind; [codes_of (sections_0_4_codes fuel) | intros _].
  codes_of (step5_codes w lib).
Qed.

(** *** [main] as a prefix followed by the rest *)

Ltac split_main :=
  repeat (rewrite ?bind_assoc; try reflexivity; apply bind_ext; intros).

Lemma main_from_3B (fuel : nat) (h : History) :
  main w lib fuel h
  = (sections_0_3A w lib fuel ;; sections_from_3B w lib fuel) h.
Proof.
  rewrite main_from_3.
  unfold sections_0_3A, sections_from_3. split_main.
Qed.

Lemma main_from_4 (fuel : nat) (h : History) :
  main w lib fuel h = (sections_0_3B w lib fuel ;; sections_from_4 w lib) h.
Proof.
  rewrite main_from_3B.
  unfold sections_0_3B, sections_from_3B. split_main.
Qed.

Lemma main_from_5 (fuel : nat) (h : History) :
  main w lib fuel h = (sections_0_4 w lib fuel ;; sections_from_5 w lib) h.
Proof.
  rewrite main_from_4.
  unfold sections_0_4, sections_from_4. split_main.
Qed.

Lemma main_from_6 (fuel : nat) (h : History) :
  main w lib fuel h = (sections_0_5 w lib fuel ;; sections_from_6 w lib) h.
Proof.
  rewrite main_from_5.
  unfold sections_0_5, sections_from_5. split_main.
Qed.

End Codes.

(** ** Section 2: the reachability check *)

(** C3. When the request to the root endpoint is answered with a status other
    than 200, [main] returns 3 at once: two lines are printed after the
    request, and the run has sent that one request and run the container
    listing only.  Code 3 is returned in no other situation. *)
Theorem reachability_failure_halts (w : World) (lib : PyLib) (fuel : nat) :
  (forall out err st bd,
     run_response w (docker_check_history w) = Some (0, out, err) ->
     http_response w
       (reachability_check_history w (str_strip lib (out ++ err)))
       = Some (st, bd) ->
     st <> 200 ->
     let h := (reachability_check_history w (str_strip lib (out ++ err))
               ++ [EvPrint ("[FAIL] Elasticsearch not reachable or auth failed (HTTP "
                              ++ str_of_Z st ++ ")");
                   EvPrint (str_take 1200 bd)])%list in
     main w lib fuel [] = Return 3 h /\
     exit_status (main w lib fuel []) = Some 3 /\
     requests h = [(GET, root_url w)] /\
     commands h = [docker_ps]) /\
  (forall h,
     main w lib fuel [] = Return 3 h ->
     exists out err st bd,
       run_response w (docker_check_history w) = Some (0, out, err) /\
       http_response w
         (reachability_check_history w (str_strip lib (out ++ err)))
         = Some (st, bd) /\
       st <> 200).
Proof.
  split.
  - intros out err st bd Hrun Hhttp Hst h.
    assert (Hm : main w lib fuel [] = Return 3 h).
    { subst h. revert Hrun Hhttp.
      unfold reachability_check_history, docker_check_history, heading_lines.
      unfold main, step0_mode, step1_docker, step2_reachability.
      run_unfold. hist_norm. intros Hrun Hhttp.
      rewrite Hrun. cbn [Z.eqb negb]. hist_norm.
      rewrite Hhttp. apply Z.eqb_neq in Hst. rewrite Hst. cbn [negb].
      hist_norm. reflexivity. }
    split; [exact Hm|]. split; [rewrite Hm; reflexivity|].
    subst h. unfold reachability_check_history, docker_check_history,
      heading_lines. split; reflexivity.
  - intros h Hm. rewrite main_from_3 in Hm.
    apply bind_Return_inv in Hm. destruct Hm as [Hm | (a & h1 & _ & Hm)].
    + revert Hm.
      unfold reachability_check_history, docker_check_history, heading_lines.
      unfold sections_0_2, step0_mode, step1_docker, step2_reachability.
      run_unfold. hist_norm.
      destruct (run_response w _) as [[[code out] err]|];
        [|intros Hr; discriminate Hr].
      destruct (code =? 0) eqn:Ecode; cbn [negb];
        [|intros Hr; discriminate Hr].
      apply Z.eqb_eq in Ecode. subst code. hist_norm.
      destruct (http_response w _) as [[st bd]|] eqn:Ehttp;
        [|intros Hr; discriminate Hr].
      destruct (st =? 200) eqn:Est; cbn [negb].
      * intros Hr. exfalso. revert Hr.
        match goal with
        | |- context [http_response w ?x] =>
            destruct (http_response w x) as [[st' bd']|]
        end; cbn [app]; intros Hr; discriminate Hr.
      * intros _. exists out, err, st, bd. repeat split; auto.
        apply Z.eqb_neq, Est.
    + apply (sat_code _ _ _ _ _ _ _ (sections_from_3_codes w lib fuel)) in Hm.
      lia.
Qed.

Lemma reachability_failure_halts_witness :
  main Scenario.unauthorized Scenario.lib 0 []
  = Return 3
      (reachability_check_history Scenario.unauthorized "es01 Up"
       ++ [EvPrint "[FAIL] Elasticsearch not reachable or auth failed (HTTP 401)";
           EvPrint "security_exception"]).
Proof.
  apply (proj1 (reachability_failure_halts Scenario.unauthorized Scenario.lib 0)
           "es01 Up" "" 401 "security_exception");
    [reflexivity | reflexivity | lia].
Defined.

(** ** Section 3B in read-only mode *)

(** C8, as stated, fails on what is displayed: one world has the model
    deployed and started, the other answers the status query with 404; the
    probe tells them apart, and the two runs print the same lines. *)
Lemma read_only_status_display_counterexample :
  fix_mode Scenario.healthy = false /\
  fix_mode Scenario.not_deployed = false /\
  _deploy_status Scenario.healthy Scenario.lib []
    = Next (true, "started")
        [EvHttp GET (stats_url Scenario.healthy) (auth Scenario.healthy) None 20] /\
  _deploy_status Scenario.not_deployed Scenario.lib []
    = Next (false, "HTTP 404: resource_not_found_exception")
        [EvHttp GET (stats_url Scenario.not_deployed)
           (auth Scenario.not_deployed) None 20] /\
  printed (trace (main Scenario.healthy Scenario.lib 0 []))
    = printed (trace (main Scenario.not_deployed Scenario.lib 0 [])).
Proof. repeat split; reflexivity. Qed.

Lemma read_only_skips_deployment_step (w : World) (lib : PyLib) (fuel : nat)
    (h : History) :
  fix_mode w = false ->
  let h' := (h ++ [EvPrint "[OK] Skipping deployment changes (read-only mode).";
                   EvHttp GET (stats_url w) (auth w) None 20])%list in
  step3B_deploy w lib fuel h = Next tt h' \/
  step3B_deploy w lib fuel h = Raise h'.
Proof.
  intros Hfix h'. subst h'. unfold step3B_deploy, _deploy_status.
  rewrite Hfix. run_unfold. hist_norm. cbn [append].
  case_http; auto. destruct (negb (_ =? 200)); auto.
Qed.

(** C8, amended. In read-only mode section 3B sends no start command: it
    prints that deployment changes are skipped and queries the deployment
    status with one GET, whose answer it drops; nothing of the status is
    printed.  The status query itself adds that GET to the history and
    nothing else. *)
Theorem read_only_skips_deployment (w : World) (lib : PyLib) (fuel : nat)
    (h : History) :
  fix_mode w = false ->
  let h' := (h ++ [EvPrint "[OK] Skipping deployment changes (read-only mode).";
                   EvHttp GET (stats_url w) (auth w) None 20])%list in
  (step3B_deploy w lib fuel h = Next tt h' \/
   step3B_deploy w lib fuel h = Raise h') /\
  (forall st bd,
     http_response w h' = Some (st, bd) ->
     step3B_deploy w lib fuel h = Next tt h') /\
  (forall h0,
     trace (_deploy_status w lib h0)
     = (h0 ++ [EvHttp GET (stats_url w) (auth w) None 20])%list).
Proof.
  intros Hfix h'. subst h'.
  assert (Hstep : forall r,
            http_response w
              (h ++ [EvPrint "[OK] Skipping deployment changes (read-only mode).";
                     EvHttp GET (stats_url w) (auth w) None 20]) = r ->
            step3B_deploy w lib fuel h
            = match r with
              | Some _ =>
                  Next tt
                    (h ++ [EvPrint "[OK] Skipping deployment changes (read-only mode).";
                           EvHttp GET (stats_url w) (auth w) None 20])
              | None =>
                  Raise
                    (h ++ [EvPrint "[OK] Skipping deployment changes (read-only mode).";
                           EvHttp GET (stats_url w) (auth w) None 20])
              end).
  { intros r Hr. unfold step3B_deploy, _deploy_status. rewrite Hfix.
    run_unfold. hist_norm. cbn [append]. rewrite Hr.
    destruct r as [[st bd]|]; [|reflexivity].
    destruct (negb (st =? 200)); reflexivity. }
  split; [|split].
  - rewrite (Hstep _ eq_refl). case_http; auto.
  - intros st bd Hr. rewrite (Hstep _ Hr). reflexivity.
  - intros h0. unfold _deploy_status. run_unfold.
    case_http; [|reflexivity].
    destruct (negb (_ =? 200)); reflexivity.
Qed.

Lemma read_only_skips_deployment_witness :
  step3B_deploy Scenario.not_deployed Scenario.lib 0 []
  = Next tt
      [EvPrint "[OK] Skipping deployment changes (read-only mode).";
       EvHttp GET (stats_url Scenario.not_deployed)
         (auth Scenario.not_deployed) None 20].
Proof.
  apply (proj1 (proj2 (read_only_skips_deployment Scenario.not_deployed
                         Scenario.lib 0 [] eq_refl))
           404 "resource_not_found_exception").
  reflexivity.
Defined.

(** ** Section 3A: acquisition *)

(** Runs the program text as far as the next answer of the world. *)
Ltac run_eval :=
  cbv beta iota zeta
    delta [bind heading ok warn fail print emit ret return_ time_sleep];
  repeat rewrite <- app_assoc; cbn [app].

Lemma append_cancel_l (p a b : string) :
  (p ++ a)%string = (p ++ b)%string -> a = b.
Proof.
  induction p as [|c p IH]; simpl; intros H; auto.
  injection H as H. auto.
Qed.

Lemma start_url_not_download_url (w : World) : start_url w <> download_url w.
Proof.
  unfold start_url, download_url. intros H.
  do 3 apply append_cancel_l in H. discriminate H.
Qed.

Lemma for_each_print {A} (l : list A) (f : A -> string) (h : History) :
  for_each l (fun x h' => Next tt (h' ++ [EvPrint (f x)])) h
  = Next tt (h ++ map (fun x => EvPrint (f x)) l).
Proof.
  revert h. induction l as [|x l IH]; intros h; simpl.
  - rewrite app_nil_r. reflexivity.
  - unfold bind. rewrite IH, <- app_assoc. reflexivity.
Qed.

Section Download.

Variable w : World.
Variable lib : PyLib.

Ltac download_side :=
  intros; try exact Logic.I;
  first [exact (start_url_not_download_url w) | discriminate | exact Logic.I].

Lemma sections_0_2_no_download :
  sat (not_download_trigger w) (fun _ => True) True (sections_0_2 w lib).
Proof.
  unfold sections_0_2, step0_mode, step1_docker, step2_reachability.
  sat_go; download_side.
Qed.

Lemma step3_no_download :
  sat (not_download_trigger w) (fun _ => True) True (step3_models w lib).
Proof. unfold step3_models. sat_go; download_side. Qed.

Lemma sections_from_3B_no_download (fuel : nat) :
  sat (not_download_trigger w) (fun _ => True) True
    (sections_from_3B w lib fuel).
Proof.
  unfold sections_from_3B, sections_from_4, sections_from_5, sections_from_6,
    step3B_deploy, step4_pipeline, step5_index, step6_restart, step7_logs,
    step_done, _deploy_status.
  sat_go; download_side.
Qed.

End Download.

(** C6. When the model listing is answered with 200 and the target model id
    is among the listed ids, the run goes from section 3's verdict straight to
    section 3B, in either mode: nothing of section 3A is executed, and the
    whole run sends no download trigger.  A download trigger is sent only in
    fix mode and only after a listing that lacks the target model id. *)
Theorem listed_model_skips_download (w : World) (lib : PyLib) (fuel : nat) :
  (forall h bd,
     sections_0_2 w lib [] = Next tt h ->
     http_response w
       (h ++ heading_lines
               "3) ML: list models, ensure ELSER exists, download + deploy (if --fix)"
          ++ [EvHttp GET (models_url w) (auth w) None 20])
       = Some (200, bd) ->
     str_in (ELSER_MODEL_ID w) (parse_models lib bd) = true ->
     main w lib fuel []
       = sections_from_3B w lib fuel (h ++ listing_history w lib bd)%list /\
     Forall (not_download_trigger w) (trace (main w lib fuel []))) /\
  (forall a p t,
     In (EvHttp POST (download_url w) a p t) (trace (main w lib fuel [])) ->
     fix_mode w = true /\
     exists h bd,
       sections_0_2 w lib [] = Next tt h /\
       http_response w
         (h ++ heading_lines
                 "3) ML: list models, ensure ELSER exists, download + deploy (if --fix)"
            ++ [EvHttp GET (models_url w) (auth w) None 20])
         = Some (200, bd) /\
       str_in (ELSER_MODEL_ID w) (parse_models lib bd) = false).
Proof.
  assert (Hskip : forall h bd,
     sections_0_2 w lib [] = Next tt h ->
     http_response w
       (h ++ heading_lines
               "3) ML: list models, ensure ELSER exists, download + deploy (if --fix)"
          ++ [EvHttp GET (models_url w) (auth w) None 20])
       = Some (200, bd) ->
     fix_mode w && negb (str_in (ELSER_MODEL_ID w) (parse_models lib bd))
       = false ->
     main w lib fuel []
       = sections_from_3B w lib fuel
           (h ++ heading_lines
                   "3) ML: list models, ensure ELSER exists, download + deploy (if --fix)"
              ++ [EvHttp GET (models_url w) (auth w) None 20;
                  EvPrint "Known trained models (first 40):"]
              ++ map (fun m => EvPrint ("  - " ++ py_str lib m))
                   (firstn 40 (parse_models lib bd))
              ++ [EvPrint
                    (if str_in (ELSER_MODEL_ID w) (parse_models lib bd)
                     then "[OK] ELSE R model found: " ++ ELSER_MODEL_ID w
                     else "[WARN] ELSE R model NOT found: " ++ ELSER_MODEL_ID w)])%list /\
     Forall (not_download_trigger w) (trace (main w lib fuel []))).
  { intros h bd Hreach Hlist Hcond.
    assert (Hm : main w lib fuel []
                 = sections_from_3B w lib fuel
                     (h ++ heading_lines
                             "3) ML: list models, ensure ELSER exists, download + deploy (if --fix)"
                        ++ [EvHttp GET (models_url w) (auth w) None 20;
                            EvPrint "Known trained models (first 40):"]
                        ++ map (fun m => EvPrint ("  - " ++ py_str lib m))
                             (firstn 40 (parse_models lib bd))
                        ++ [EvPrint
                              (if str_in (ELSER_MODEL_ID w) (parse_models lib bd)
                               then "[OK] ELSE R model found: " ++ ELSER_MODEL_ID w
                               else "[WARN] ELSE R model NOT found: "
                                      ++ ELSER_MODEL_ID w)])%list).
    { rewrite main_from_3. rewrite (bind_Next _ _ _ _ _ Hreach).
      unfold sections_from_3, step3_models, step3A_download.
      unfold heading_lines in *. run_eval. unfold http.
      revert Hlist. hist_norm. intros Hlist. rewrite Hlist.
      cbn [Z.eqb Pos.eqb negb]. run_eval.
      rewrite for_each_print. revert Hcond.
      destruct (str_in (ELSER_MODEL_ID w) (parse_models lib bd));
        intros Hcond; run_eval; rewrite Hcond; reflexivity. }
    split; [exact Hm|]. rewrite Hm.
    eapply sat_trace; [apply sections_from_3B_no_download|].
    apply Forall_app. split.
    - pose proof (sat_trace _ _ _ (sections_0_2 w lib) []
                    (sections_0_2_no_download w lib)
                    (Forall_nil _)) as Hh.
      rewrite Hreach in Hh. exact Hh.
    - unfold heading_lines. repeat (apply Forall_app; split);
        repeat constructor.
      apply Forall_forall. intros e He. apply in_map_iff in He.
      destruct He as (m & <- & _). exact Logic.I. }
  split.
  - intros h bd Hreach Hlist Hin.
    destruct (Hskip h bd Hreach Hlist) as [Hm Hall].
    { rewrite Hin. apply andb_false_r. }
    rewrite Hin in Hm. split; [exact Hm | exact Hall].
  - intros a p t Hin.
    assert (Hbad : ~ Forall (not_download_trigger w) (trace (main w lib fuel []))).
    { intros Hall. rewrite Forall_forall in Hall. apply Hall in Hin.
      apply Hin. reflexivity. }
    destruct (sections_0_2 w lib []) as [[] h | c h | h | h] eqn:Hreach.
    2-4: exfalso; apply Hbad; rewrite main_from_3; unfold bind;
         rewrite Hreach; cbn [trace];
         pose proof (sat_trace _ _ _ (sections_0_2 w lib) []
                       (sections_0_2_no_download w lib) (Forall_nil _)) as Hh;
         rewrite Hreach in Hh; exact Hh.
    assert (Hh : Forall (not_download_trigger w) h).
    { pose proof (sat_trace _ _ _ (sections_0_2 w lib) []
                    (sections_0_2_no_download w lib) (Forall_nil _)) as Hh.
      rewrite Hreach in Hh. exact Hh. }
    destruct (http_response w
       (h ++ heading_lines
               "3) ML: list models, ensure ELSER exists, download + deploy (if --fix)"
          ++ [EvHttp GET (models_url w) (auth w) None 20]))
      as [[st bd]|] eqn:Hlist.
    + destruct (st =? 200) eqn:Est.
      * apply Z.eqb_eq in Est. subst st.
        destruct (fix_mode w && negb (str_in (ELSER_MODEL_ID w)
                                        (parse_models lib bd))) eqn:Hcond.
        -- apply andb_true_iff in Hcond. destruct Hcond as [Hf Hn].
           split; [exact Hf|]. exists h, bd. repeat split; auto.
           apply negb_true_iff, Hn.
        -- exfalso. apply Hbad. apply (Hskip h bd); auto.
      * exfalso. apply Hbad. rewrite main_from_3.
        rewrite (bind_Next _ _ _ _ _ Hreach).
        unfold sections_from_3, step3_models. unfold heading_lines in *.
        run_eval. unfold http. revert Hlist. hist_norm. intros Hlist.
        rewrite Hlist, Est. cbn [negb]. run_eval. cbn [trace].
        apply Forall_app. split; [exact Hh|]. repeat constructor.
    + exfalso. apply Hbad. rewrite main_from_3.
      rewrite (bind_Next _ _ _ _ _ Hreach).
      unfold sections_from_3, step3_models. unfold heading_lines in *.
      run_eval. unfold http. revert Hlist. hist_norm. intros Hlist.
      rewrite Hlist. cbn [trace].
      apply Forall_app. split; [exact Hh|]. repeat constructor.
Qed.

Lemma listed_model_skips_download_witness :
  Forall (not_download_trigger Scenario.repair)
    (trace (main Scenario.repair Scenario.lib 5 [])).
Proof.
  apply (proj1 (listed_model_skips_download Scenario.repair Scenario.lib 5)
           (trace (sections_0_2 Scenario.repair Scenario.lib [])) "MODELS");
    reflexivity.
Defined.

Lemma trace_bind_http {B} (w : World) (m : Method) (url : string)
    (a : option (string * string)) (p : option json) (t : Z)
    (k : Z * string -> M B) (h : History) :
  (forall r, sat any_event (fun _ => True) True (k r)) ->
  exists tl,
    trace (bind (http w m url a p t) k h)
    = (h ++ [EvHttp m url a p t] ++ tl)%list.
Proof.
  intros Hk. unfold bind, http.
  destruct (http_response w _) as [[st bd]|].
  - destruct (sat_extends _ _ _ (k (st, bd)) (h ++ [EvHttp m url a p t])
                (Hk (st, bd))) as (tl & Htl).
    exists tl. rewrite Htl, <- app_assoc. reflexivity.
  - exists []. reflexivity.
Qed.

(** ** The first turn of the polling loop *)

Section FirstPoll.

Variable w : World.

Lemma wait_loop_enters (fuel : nat) (desc : string) (fn : M (bool * string))
    (t0 timeout_s sleep_s : Z) (h : History) :
  clock w (h ++ [EvTime]) - t0 < timeout_s * Z.pos (hz w) ->
  wait_loop w (S fuel) desc fn t0 timeout_s sleep_s h
  = (r <- fn ;; after_poll w fuel desc fn t0 timeout_s sleep_s r)
      (h ++ [EvTime])%list.
Proof.
  intros Hlt. apply Z.ltb_lt in Hlt.
  cbn [wait_loop]. unfold bind at 1. unfold time_time at 1.
  rewrite Hlt. apply bind_ext. intros [ok_flag info] h'. reflexivity.
Qed.

Lemma wait_loop_times_out (fuel : nat) (desc : string) (fn : M (bool * string))
    (t0 timeout_s sleep_s : Z) (h : History) :
  timeout_s * Z.pos (hz w) <= clock w (h ++ [EvTime]) - t0 ->
  wait_loop w (S fuel) desc fn t0 timeout_s sleep_s h
  = Next false
      (h ++ [EvTime;
             EvPrint ("[FAIL] " ++ desc ++ ": timed out after "
                        ++ str_of_Z timeout_s ++ "s")]).
Proof.
  intros Hge. apply Z.ltb_ge in Hge.
  cbn [wait_loop]. unfold bind at 1. unfold time_time at 1.
  rewrite Hge. run_eval. reflexivity.
Qed.

Lemma wait_until_unfold (fuel : nat) (desc : string) (fn : M (bool * string))
    (timeout_s sleep_s : Z) (h : History) :
  wait_until w fuel desc fn timeout_s sleep_s h
  = wait_loop w fuel desc fn (clock w (h ++ [EvTime])) timeout_s sleep_s
      (h ++ [EvTime])%list.
Proof. reflexivity. Qed.

Lemma bind_run_eq {A B} (m m2 : M A) (k : A -> M B) (h h2 : History) :
  m h = m2 h2 -> bind m k h = bind m2 k h2.
Proof. intros Hm. unfold bind. rewrite Hm. reflexivity. Qed.

(** With a predicate that starts with a request, and a clock that allows the
    first turn, the request is sent right after the two clock readings. *)
Lemma wait_until_first_poll_http {B} (n : nat) (desc : string) (m : Method)
    (url : string) (a : option (string * string)) (p : option json) (t : Z)
    (g : Z * string -> M (bool * string)) (timeout_s sleep_s : Z)
    (k : bool -> M B) (h : History) :
  (forall r, sat any_event (fun _ => True) True (g r)) ->
  (forall b, sat any_event (fun _ => True) True (k b)) ->
  clock w (h ++ [EvTime; EvTime]) - clock w (h ++ [EvTime])
    < timeout_s * Z.pos (hz w) ->
  exists tl,
    trace (bind (wait_until w (S n) desc (bind (http w m url a p t) g)
                   timeout_s sleep_s) k h)
    = (h ++ [EvTime; EvTime; EvHttp m url a p t] ++ tl)%list.
Proof.
  intros Hg Hk Hclock.
  assert (Hfn : sat any_event (fun _ => True) True (bind (http w m url a p t) g)).
  { apply sat_bind; [apply sat_http; exact Logic.I | exact Hg]. }
  rewrite (bind_run_eq _
             (r <- bind (http w m url a p t) g ;;
              after_poll w n desc (bind (http w m url a p t) g)
                (clock w (h ++ [EvTime])) timeout_s sleep_s r)
             k h (h ++ [EvTime; EvTime])).
  2:{ rewrite wait_until_unfold, wait_loop_enters.
      - rewrite <- app_assoc. reflexivity.
      - rewrite <- app_assoc. exact Hclock. }
  rewrite !bind_assoc.
  destruct (trace_bind_http w m url a p t
              (fun r =>
                 bind (g r)
                   (fun r' =>
                      bind (after_poll w n desc (bind (http w m url a p t) g)
                              (clock w (h ++ [EvTime])) timeout_s sleep_s r') k))
              (h ++ [EvTime; EvTime])) as (tl & Htl).
  { intros r. apply sat_bind; [apply Hg|]. intros [ok_flag info].
    apply sat_bind; [|exact Hk]. unfold after_poll.
    destruct ok_flag.
    - sat_go; exact Logic.I.
    - apply sat_bind; [apply sat_print; exact Logic.I | intros _].
      apply sat_bind; [apply sat_time_sleep; exact Logic.I | intros _].
      apply sat_wait_loop; try exact Logic.I; [intros; exact Logic.I|].
      exact Hfn. }
  exists tl. rewrite Htl, <- app_assoc. reflexivity.
Qed.

End FirstPoll.

(** ** Section 3B in fix mode: activation *)

Lemma Z_in_true (z : Z) (l : list Z) : In z l -> Z_in z l = true.
Proof.
  intros H. unfold Z_in. apply existsb_exists. exists z. split; auto.
  apply Z.eqb_refl.
Qed.

Lemma Z_in_false (z : Z) (l : list Z) : ~ In z l -> Z_in z l = false.
Proof.
  intros H. unfold Z_in. destruct (existsb (Z.eqb z) l) eqn:E; auto.
  exfalso. apply H. apply existsb_exists in E. destruct E as (x & Hx & Ex).
  apply Z.eqb_eq in Ex. subst x. exact Hx.
Qed.

(** C4. In fix mode, a 409 answer to the start command is handled exactly as
    200 and 201 are: the run goes on to wait for the deployment with
    [wait_until], cannot end with code 7, and (the clock allowing) polls the
    deployment status.  Any other status makes [main] return 7, and 7 is
    returned in no other situation. *)
Theorem start_conflict_is_success (w : World) (lib : PyLib) (fuel : nat) :
  (forall h st bd,
     fix_mode w = true ->
     sections_0_3A w lib fuel [] = Next tt h ->
     http_response w (h ++ start_history w) = Some (st, bd) ->
     let hq := (h ++ start_history w ++ [EvPrint (jdump lib bd 1600)])%list in
     (st = 200 \/ st = 201 \/ st = 409 ->
      main w lib fuel []
        = (ready <- wait_until w fuel "ELSE R deployment" (_deploy_status w lib)
                      600 10 ;;
           if negb ready then return_ 8 else sections_from_4 w lib) hq /\
      (forall h', main w lib fuel [] <> Return 7 h') /\
      (forall n,
         fuel = S n ->
         clock w (hq ++ [EvTime; EvTime]) - clock w (hq ++ [EvTime])
           < 600 * Z.pos (hz w) ->
         exists t,
           trace (main w lib fuel [])
           = (hq ++ [EvTime; EvTime;
                     EvHttp GET (stats_url w) (auth w) None 20] ++ t)%list)) /\
     (st <> 200 -> st <> 201 -> st <> 409 ->
      main w lib fuel []
        = Return 7 (hq ++ [EvPrint "[FAIL] Deployment start request failed."]))) /\
  (forall h',
     main w lib fuel [] = Return 7 h' ->
     fix_mode w = true /\
     exists h st bd,
       sections_0_3A w lib fuel [] = Next tt h /\
       http_response w (h ++ start_history w) = Some (st, bd) /\
       st <> 200 /\ st <> 201 /\ st <> 409).
Proof.
  assert (Hwait : sat any_event (fun c => c = 0 \/ 8 <= c <= 10) True
            (ready <- wait_until w fuel "ELSE R deployment"
                        (_deploy_status w lib) 600 10 ;;
             if negb ready then return_ 8 else sections_from_4 w lib)).
  { apply sat_bind.
    - apply sat_wait_until; try exact Logic.I; [intros; exact Logic.I|].
      apply sat_deploy_status. exact Logic.I.
    - intros ready. destruct ready; cbn [negb].
      + codes_of (sections_from_4_codes w lib).
      + apply sat_return_. lia. }
  assert (Hstep : forall h st bd,
     fix_mode w = true ->
     http_response w (h ++ start_history w) = Some (st, bd) ->
     sections_from_3B w lib fuel h
     = (if negb (Z_in st [200; 201; 409])
        then Return 7
               (h ++ start_history w
                  ++ [EvPrint (jdump lib bd 1600);
                      EvPrint "[FAIL] Deployment start request failed."])
        else (ready <- wait_until w fuel "ELSE R deployment"
                         (_deploy_status w lib) 600 10 ;;
              if negb ready then return_ 8 else sections_from_4 w lib)
               (h ++ start_history w ++ [EvPrint (jdump lib bd 1600)]))%list).
  { intros h st bd Hfix Hresp. unfold sections_from_3B, step3B_deploy.
    rewrite Hfix. revert Hresp. unfold start_history, heading_lines.
    hist_norm. intros Hresp.
    rewrite !bind_assoc. run_eval. unfold http at 1. hist_norm.
    rewrite Hresp. run_eval.
    destruct (negb (Z_in st [200; 201; 409])).
    - run_eval. reflexivity.
    - destruct (wait_until w fuel _ _ _ _ _) as [[|] h1 | c h1 | h1 | h1];
        reflexivity. }
  split.
  - intros h st bd Hfix Hreach Hresp hq.
    assert (Hm : main w lib fuel [] = sections_from_3B w lib fuel h).
    { rewrite main_from_3B, (bind_Next _ _ _ _ _ Hreach). reflexivity. }
    rewrite Hm, (Hstep h st bd Hfix Hresp). split.
    + intros Hst. rewrite Z_in_true by (simpl; lia). cbn [negb].
      split; [reflexivity|]. split.
      * intros h' Hr.
        apply (sat_code _ _ _ _ _ _ _ Hwait) in Hr. lia.
      * intros n -> Hclock. fold hq. unfold _deploy_status.
        apply wait_until_first_poll_http.
        -- intros [st2 bd2]. sat_go.
        -- intros ready. destruct ready; cbn [negb].
           ++ eapply sat_weaken;
                [| | | apply (sections_from_4_codes w lib)]; auto.
           ++ apply sat_return_. exact Logic.I.
        -- exact Hclock.
    + intros H1 H2 H3. rewrite Z_in_false by (simpl; lia). cbn [negb].
      subst hq. rewrite <- !app_assoc. reflexivity.
  - intros h' Hr. rewrite main_from_3B in Hr.
    apply bind_Return_inv in Hr. destruct Hr as [Hr | ([] & h & Hreach & Hr)].
    { apply (sat_code _ _ _ _ _ _ _ (sections_0_3A_codes w lib fuel)) in Hr.
      lia. }
    assert (Hf : fix_mode w = true \/ fix_mode w = false)
      by (destruct (fix_mode w); auto).
    destruct Hf as [Hfix | Hfix].
    + split; [exact Hfix|].
      destruct (http_response w (h ++ start_history w)) as [[st bd]|] eqn:Hresp.
      * rewrite (Hstep h st bd Hfix Hresp) in Hr.
        destruct (Z_in st [200; 201; 409]) eqn:Hin; cbn [negb] in Hr.
        -- apply (sat_code _ _ _ _ _ _ _ Hwait) in Hr. lia.
        -- exists h, st, bd. repeat split; auto; intros ->; discriminate Hin.
      * exfalso. revert Hr Hresp.
        unfold sections_from_3B, step3B_deploy. rewrite Hfix.
        unfold start_history, heading_lines. hist_norm.
        rewrite !bind_assoc. run_eval. unfold http at 1. hist_norm.
        intros Hr Hresp. rewrite Hresp in Hr. discriminate Hr.
    + exfalso. unfold sections_from_3B in Hr.
      apply bind_Return_inv in Hr. destruct Hr as [Hr | ([] & h1 & _ & Hr)].
      * destruct (read_only_skips_deployment_step w lib fuel h Hfix) as [E|E];
          rewrite E in Hr; discriminate Hr.
      * apply (sat_code _ _ _ _ _ _ _ (sections_from_4_codes w lib)) in Hr.
        lia.
Qed.

Lemma start_conflict_is_success_witness :
  (main Scenario.repair Scenario.lib 5 []
     = (ready <- wait_until Scenario.repair 5 "ELSE R deployment"
                   (_deploy_status Scenario.repair Scenario.lib) 600 10 ;;
        if negb ready then return_ 8
        else sections_from_4 Scenario.repair Scenario.lib)
         (trace (sections_0_3A Scenario.repair Scenario.lib 5 [])
          ++ start_history Scenario.repair
          ++ [EvPrint "status_exception"])%list) /\
  exit_status (main Scenario.repair_start_refused Scenario.lib 5 []) = Some 7.
Proof.
  split.
  - apply (proj1 (start_conflict_is_success Scenario.repair Scenario.lib 5)
             (trace (sections_0_3A Scenario.repair Scenario.lib 5 []))
             409 "status_exception" eq_refl eq_refl eq_refl).
    right. right. reflexivity.
  - rewrite (proj2 (proj1 (start_conflict_is_success
                             Scenario.repair_start_refused Scenario.lib 5)
                      (trace (sections_0_3A Scenario.repair_start_refused
                                Scenario.lib 5 []))
                      500 "internal error" eq_refl eq_refl eq_refl));
      [reflexivity | lia | lia | lia].
Defined.

(** ** Section 5 in fix mode: the index *)

Lemma step5_fix (w : World) (lib : PyLib) (h : History)
    (st_d : Z) (bd_d : string) (st : Z) (bd : string) :
  fix_mode w = true ->
  http_response w (h ++ delete_history w) = Some (st_d, bd_d) ->
  http_response w (h ++ create_history w lib bd_d) = Some (st, bd) ->
  step5_index w lib h
  = if negb (Z_in st [200; 201])
    then Return 10
           (h ++ create_history w lib bd_d
              ++ [EvPrint (jdump lib bd 1200);
                  EvPrint ("[FAIL] Failed to create index " ++ INDEX w ++ ".")])
    else Next tt
           (h ++ create_history w lib bd_d
              ++ [EvPrint (jdump lib bd 1200);
                  EvPrint ("[OK] Index ready: " ++ INDEX w)]).
Proof.
  intros Hfix Hdel Hput. revert Hdel Hput.
  unfold step5_index, create_history, delete_history, heading_lines.
  rewrite Hfix. hist_norm. intros Hdel Hput.
  run_eval. unfold http at 1. hist_norm. rewrite Hdel.
  run_eval. unfold http at 1. hist_norm. rewrite Hput.
  run_eval. destruct (negb (Z_in st [200; 201])); run_eval; reflexivity.
Qed.

(** C5. In fix mode section 5 first sends a DELETE for the index, whatever
    exists, prints the answer and sends the PUT that creates the index,
    whatever the DELETE was answered (a 404 included).  Only the status of
    the PUT decides: 200 or 201 completes the section, anything else makes
    [main] return 10, and 10 is returned in no other situation. *)
Theorem index_deleted_then_created (w : World) (lib : PyLib) (fuel : nat) :
  (forall h st_d bd_d st bd,
     fix_mode w = true ->
     sections_0_4 w lib fuel [] = Next tt h ->
     http_response w (h ++ delete_history w) = Some (st_d, bd_d) ->
     http_response w (h ++ create_history w lib bd_d) = Some (st, bd) ->
     let hp := (h ++ create_history w lib bd_d
                  ++ [EvPrint (jdump lib bd 1200)])%list in
     (st = 200 \/ st = 201 ->
      sections_0_5 w lib fuel []
        = Next tt (hp ++ [EvPrint ("[OK] Index ready: " ++ INDEX w)]) /\
      (forall h', main w lib fuel [] <> Return 10 h')) /\
     (st <> 200 -> st <> 201 ->
      main w lib fuel []
        = Return 10
            (hp ++ [EvPrint ("[FAIL] Failed to create index "
                               ++ INDEX w ++ ".")]))) /\
  (forall h',
     main w lib fuel [] = Return 10 h' ->
     fix_mode w = true /\
     exists h st_d bd_d st bd,
       sections_0_4 w lib fuel [] = Next tt h /\
       http_response w (h ++ delete_history w) = Some (st_d, bd_d) /\
       http_response w (h ++ create_history w lib bd_d) = Some (st, bd) /\
       st <> 200 /\ st <> 201).
Proof.
  split.
  - intros h st_d bd_d st bd Hfix Hreach Hdel Hput hp.
    pose proof (step5_fix w lib h st_d bd_d st bd Hfix Hdel Hput) as Hstep.
    assert (Hm : main w lib fuel [] = sections_from_5 w lib h).
    { rewrite main_from_5, (bind_Next _ _ _ _ _ Hreach). reflexivity. }
    assert (H5 : sections_0_5 w lib fuel [] = step5_index w lib h).
    { unfold sections_0_5. rewrite (bind_Next _ _ _ _ _ Hreach). reflexivity. }
    split.
    + intros Hst. rewrite Z_in_true in Hstep by (simpl; lia).
      cbn [negb] in Hstep. split.
      * rewrite H5, Hstep. subst hp. rewrite <- !app_assoc. reflexivity.
      * intros h' Hr. rewrite Hm in Hr. unfold sections_from_5 in Hr.
        rewrite (bind_Next _ _ _ _ _ Hstep) in Hr.
        apply (sat_code _ _ _ _ _ _ _ (sections_from_6_codes w lib)) in Hr.
        lia.
    + intros H1 H2. rewrite Z_in_false in Hstep by (simpl; lia).
      cbn [negb] in Hstep. rewrite Hm. unfold sections_from_5.
      rewrite (bind_Return _ _ _ _ _ Hstep). subst hp.
      rewrite <- !app_assoc. reflexivity.
  - intros h' Hr. rewrite main_from_5 in Hr.
    apply bind_Return_inv in Hr. destruct Hr as [Hr | ([] & h & Hreach & Hr)].
    { apply (sat_code _ _ _ _ _ _ _ (sections_0_4_codes w lib fuel)) in Hr.
      lia. }
    unfold sections_from_5 in Hr.
    apply bind_Return_inv in Hr. destruct Hr as [Hr | ([] & h1 & _ & Hr)].
    2:{ apply (sat_code _ _ _ _ _ _ _ (sections_from_6_codes w lib)) in Hr.
        lia. }
    assert (Hf : fix_mode w = true \/ fix_mode w = false)
      by (destruct (fix_mode w); auto).
    destruct Hf as [Hfix | Hfix].
    + split; [exact Hfix|].
      destruct (http_response w (h ++ delete_history w))
        as [[st_d bd_d]|] eqn:Hdel.
      * destruct (http_response w (h ++ create_history w lib bd_d))
          as [[st bd]|] eqn:Hput.
        -- rewrite (step5_fix w lib h st_d bd_d st bd Hfix Hdel Hput) in Hr.
           destruct (Z_in st [200; 201]) eqn:Hin; cbn [negb] in Hr;
             [discriminate Hr|].
           exists h, st_d, bd_d, st, bd.
           repeat split; auto; intros ->; discriminate Hin.
        -- exfalso. revert Hr Hdel Hput.
           unfold step5_index, create_history, delete_history, heading_lines.
           rewrite Hfix. hist_norm. intros Hr Hdel Hput. revert Hr.
           run_eval. unfold http at 1. hist_norm. rewrite Hdel.
           run_eval. unfold http at 1. hist_norm. rewrite Hput.
           intros Hr. discriminate Hr.
      * exfalso. revert Hr Hdel.
        unfold step5_index, delete_history, heading_lines.
        rewrite Hfix. hist_norm. intros Hr Hdel. revert Hr.
        run_eval. unfold http at 1. hist_norm. rewrite Hdel.
        intros Hr. discriminate Hr.
    + exfalso. revert Hr. unfold step5_index. rewrite Hfix. run_eval.
      intros Hr. discriminate Hr.
Qed.

Lemma index_deleted_then_created_witness :
  exit_status (main Scenario.repair_index_refused Scenario.lib 5 [])
    = Some 10 /\
  (forall h', main Scenario.repair Scenario.lib 5 [] <> Return 10 h').
Proof.
  split.
  - rewrite (proj2 (proj1 (index_deleted_then_created
                             Scenario.repair_index_refused Scenario.lib 5)
                      (trace (sections_0_4 Scenario.repair_index_refused
                                Scenario.lib 5 []))
                      404 "index_not_found_exception"
                      400 "mapper_parsing_exception"
                      eq_refl eq_refl eq_refl eq_refl));
      [reflexivity | lia | lia].
  - apply (proj1 (index_deleted_then_created Scenario.repair Scenario.lib 5)
             (trace (sections_0_4 Scenario.repair Scenario.lib 5 []))
             404 "index_not_found_exception" 200 "ACK"
             eq_refl eq_refl eq_refl eq_refl).
    left. reflexivity.
Defined.

(** ** Section 6 in fix mode: the restart *)

(** C7. In fix mode, when the primary restart command returns a non-zero
    status, a warning is printed and the fallback restart command is run,
    once.  Whatever status the fallback returns, the run sleeps and sends the
    record-count query; once that is answered it runs the log tail, and once
    that has returned [main] returns 0.  No code other than 0 can be returned
    from there, and the fallback is not run a second time. *)
Theorem restart_failure_is_not_fatal (w : World) (lib : PyLib) (fuel : nat)
    (h : History) (code : Z) (so se : string) (code2 : Z) (so2 se2 : string) :
  fix_mode w = true ->
  sections_0_5 w lib fuel [] = Next tt h ->
  run_response w (h ++ restart_history w) = Some (code, so, se) ->
  code <> 0 ->
  let out := str_strip lib (so ++ se) in
  run_response w (h ++ fallback_history w out) = Some (code2, so2, se2) ->
  let out2 := str_strip lib (so2 ++ se2) in
  (exists t,
     trace (main w lib fuel []) = (h ++ count_history w out out2 ++ t)%list /\
     ~ In (docker_restart w) (commands t)) /\
  (forall st bd,
     http_response w (h ++ count_history w out out2) = Some (st, bd) ->
     (exists t,
        trace (main w lib fuel [])
        = (h ++ logs_history w lib out out2 bd ++ t)%list) /\
     (forall c lo le,
        run_response w (h ++ logs_history w lib out out2 bd)
          = Some (c, lo, le) ->
        exists line,
          main w lib fuel []
          = Return 0 (h ++ logs_history w lib out out2 bd
                        ++ [EvPrint line] ++ done_lines))) /\
  (forall c h', main w lib fuel [] = Return c h' -> c = 0).
Proof.
  intros Hfix Hreach Hrun Hcode out Hrun2 out2. subst out out2.
  set (out := str_strip lib (so ++ se)) in *.
  set (out2 := str_strip lib (so2 ++ se2)) in *.
  assert (Hm : main w lib fuel [] = sections_from_6 w lib h).
  { rewrite main_from_6, (bind_Next _ _ _ _ _ Hreach). reflexivity. }
  assert (Hlogs : docker_logs w <> docker_restart w).
  { unfold docker_logs, docker_restart. intros E. discriminate E. }
  apply Z.eqb_neq in Hcode.
  assert (Hcount : forall r,
    http_response w (h ++ count_history w out out2) = r ->
    sections_from_6 w lib h
    = match r with
      | None => Raise (h ++ count_history w out out2)
      | Some (st, bd) =>
          (step7_logs w lib ;; step_done)
            (h ++ count_history w out out2 ++ [EvPrint (jdump lib bd 800)])%list
      end).
  { intros r Hr. revert Hrun Hrun2 Hr.
    unfold sections_from_6, step6_restart, count_history, fallback_history,
      restart_history, heading_lines.
    rewrite Hfix. hist_norm. cbn [append]. intros Hrun Hrun2 Hr.
    rewrite !bind_assoc. run_eval. unfold run at 1. hist_norm. rewrite Hrun.
    fold out. run_eval. rewrite Hcode. cbn [negb]. run_eval.
    unfold run at 1. hist_norm. cbn [append]. rewrite Hrun2. fold out2.
    run_eval.
    cbn [Z.ltb Z.compare]. run_eval. unfold http at 1. hist_norm.
    rewrite Hr. destruct r as [[st bd]|]; run_eval; reflexivity. }
  assert (Hseven : forall bd r,
    run_response w (h ++ logs_history w lib out out2 bd) = r ->
    match r with
    | None =>
        (step7_logs w lib ;; step_done)
          (h ++ count_history w out out2 ++ [EvPrint (jdump lib bd 800)])%list
        = Raise (h ++ logs_history w lib out out2 bd)
    | Some _ =>
        exists line,
          (step7_logs w lib ;; step_done)
            (h ++ count_history w out out2 ++ [EvPrint (jdump lib bd 800)])%list
          = Return 0
              (h ++ logs_history w lib out out2 bd
                 ++ [EvPrint line] ++ done_lines)
    end).
  { intros bd r Hr. revert Hr.
    unfold step7_logs, step_done, logs_history, done_lines, heading_lines.
    hist_norm. intros Hr.
    rewrite !bind_assoc. run_eval. unfold run. hist_norm. rewrite Hr.
    destruct r as [[[c lo] le]|]; [|reflexivity].
    run_eval. destruct (c =? 0); [|run_eval; eexists; reflexivity].
    destruct (filter _ _); run_eval; eexists; reflexivity. }
  split; [|split].
  - rewrite Hm, (Hcount _ eq_refl).
    destruct (http_response w (h ++ count_history w out out2))
      as [[st bd]|] eqn:Hr.
    + pose proof (Hseven bd _ eq_refl) as H7.
      destruct (run_response w (h ++ logs_history w lib out out2 bd))
        as [[[c lo] le]|].
      * destruct H7 as (line & ->). cbn [trace]. unfold logs_history.
        rewrite <- !app_assoc. eexists. split; [reflexivity|].
        unfold done_lines, heading_lines. cbn [app commands].
        intros [E|[]]. apply Hlogs. exact E.
      * rewrite H7. cbn [trace]. unfold logs_history.
        eexists. split; [reflexivity|].
        unfold heading_lines. cbn [app commands].
        intros [E|[]]. apply Hlogs. exact E.
    + cbn [trace]. exists []. rewrite app_nil_r. split; [reflexivity|].
      intros [].
  - intros st bd Hr. rewrite Hm, (Hcount _ Hr). split.
    + pose proof (Hseven bd _ eq_refl) as H7.
      destruct (run_response w (h ++ logs_history w lib out out2 bd))
        as [[[c lo] le]|].
      * destruct H7 as (line & ->). cbn [trace]. eexists. reflexivity.
      * rewrite H7. cbn [trace]. exists []. rewrite !app_nil_r. reflexivity.
    + intros c lo le Hl. exact (Hseven bd _ Hl).
  - intros c h' Hr. rewrite Hm in Hr.
    apply (sat_code _ _ _ _ _ _ _ (sections_from_6_codes w lib)) in Hr.
    exact Hr.
Qed.

Lemma restart_failure_is_not_fatal_witness :
  exists t,
    trace (main Scenario.repair Scenario.lib 5 [])
    = (trace (sections_0_5 Scenario.repair Scenario.lib 5 [])
       ++ count_history Scenario.repair
            "no configuration file provided: not found"
            "No such container: ls01"
       ++ t)%list /\
    ~ In (docker_restart Scenario.repair) (commands t).
Proof.
  apply (restart_failure_is_not_fatal Scenario.repair Scenario.lib 5
           (trace (sections_0_5 Scenario.repair Scenario.lib 5 []))
           1 "" "no configuration file provided: not found"
           1 "" "No such container: ls01");
    [reflexivity | reflexivity | reflexivity | lia | reflexivity].
Defined.

(** ** Bounded polling *)

Lemma ncalls_app (h t : History) : ncalls (h ++ t) = (ncalls h + ncalls t)%nat.
Proof. unfold ncalls. rewrite filter_app, length_app. reflexivity. Qed.

Lemma total_sleep_app (h t : History) :
  total_sleep (h ++ t) = total_sleep h + total_sleep t.
Proof.
  induction h as [|e h IH]; simpl; [reflexivity|].
  destruct e; rewrite IH; lia.
Qed.

Section Polling.

Variable w : World.

(** Failure is reported only at a clock reading that is [timeout_s] seconds
    or more after [t0]: any predicate, any clock. *)
Lemma wait_loop_fails_late (fuel : nat) (desc : string) (fn : M (bool * string))
    (t0 timeout_s sleep_s : Z) (h h' : History) :
  wait_loop w fuel desc fn t0 timeout_s sleep_s h = Next false h' ->
  exists hpre,
    h' = (hpre ++ [EvTime; timed_out desc timeout_s])%list /\
    timeout_s * Z.pos (hz w) <= clock w (hpre ++ [EvTime]) - t0.
Proof.
  revert h. induction fuel as [|fuel IH]; intros h; cbn [wait_loop].
  - intros E. discriminate E.
  - unfold bind at 1. unfold time_time at 1.
    destruct (clock w (h ++ [EvTime]) - t0 <? timeout_s * Z.pos (hz w)) eqn:Elt.
    + unfold bind at 1. destruct (fn (h ++ [EvTime])%list)
        as [[ok_flag info] h1 | c h1 | h1 | h1]; try discriminate.
      destruct ok_flag.
      * run_eval. intros E. discriminate E.
      * unfold bind at 1. unfold print at 1, emit at 1.
        unfold bind at 1. unfold time_sleep.
        destruct (sleep_s <? 0); [intros E; discriminate E|].
        unfold emit at 1. apply IH.
    + run_eval. intros [= <-]. exists h. split.
      * reflexivity.
      * apply Z.ltb_ge in Elt. exact Elt.
Qed.

(** A run that ended is not changed by a larger loop bound. *)
Lemma wait_loop_more_fuel (fuel : nat) (desc : string) (fn : M (bool * string))
    (t0 timeout_s sleep_s : Z) :
  forall (fuel' : nat) (h h' : History) (r : bool),
    (fuel <= fuel')%nat ->
    wait_loop w fuel desc fn t0 timeout_s sleep_s h = Next r h' ->
    wait_loop w fuel' desc fn t0 timeout_s sleep_s h = Next r h'.
Proof.
  induction fuel as [|fuel IH]; intros fuel' h h' r Hle; cbn [wait_loop].
  - intros E. discriminate E.
  - destruct fuel' as [|fuel']; [lia|]. cbn [wait_loop].
    unfold bind, time_time, print, emit, time_sleep, ok, fail, ret.
    destruct (clock w (h ++ [EvTime]) - t0 <? timeout_s * Z.pos (hz w));
      [|auto].
    destruct (fn (h ++ [EvTime])%list)
      as [[ok_flag info] h1 | c h1 | h1 | h1]; auto.
    destruct ok_flag; [auto|].
    destruct (sleep_s <? 0); [auto|].
    apply IH. lia.
Qed.

Variables (c0 d : Z) (ans : nat -> bool * string).
Variables (desc : string) (timeout_s sleep_s : Z).
Hypothesis Hclock : uniform_clock w c0 d.
Hypothesis Hans : answers w ans.
Hypothesis Hsleep : 0 < sleep_s.
Hypothesis Hd : 0 <= d.

(** ticks from one poll to the next *)
Let period : Z := sleep_s * Z.pos (hz w) + d.

Lemma clock_at_check (h : History) (i : nat) :
  ncalls h = i -> total_sleep h = sleep_s * Z.of_nat i ->
  clock w (h ++ [EvTime]) - c0 = Z.of_nat i * period.
Proof.
  intros Hn Hs. rewrite Hclock, ncalls_app, total_sleep_app, Hn, Hs.
  change (ncalls [EvTime]) with 0%nat. change (total_sleep [EvTime]) with 0.
  unfold period. rewrite Nat.add_0_r. nia.
Qed.

(** One turn of the loop with a predicate that is not ready. *)
Lemma wait_loop_turn (fuel : nat) (h : History) (i : nat) :
  ncalls h = i -> total_sleep h = sleep_s * Z.of_nat i ->
  Z.of_nat i * period < timeout_s * Z.pos (hz w) ->
  fst (ans (S i)) = false ->
  let h1 := (h ++ [EvTime; EvCall;
                   EvPrint ("[WAIT] " ++ desc ++ ": " ++ snd (ans (S i)));
                   EvSleep sleep_s])%list in
  wait_loop w (S fuel) desc (callback w) c0 timeout_s sleep_s h
  = wait_loop w fuel desc (callback w) c0 timeout_s sleep_s h1 /\
  ncalls h1 = S i /\ total_sleep h1 = sleep_s * Z.of_nat (S i).
Proof.
  intros Hn Hs Hlt Hnot h1. split; [|split].
  - rewrite wait_loop_enters
      by (rewrite <- (clock_at_check h i Hn Hs) in Hlt; exact Hlt).
    unfold bind, callback. rewrite <- app_assoc. cbn [app].
    rewrite Hans, ncalls_app, Hn. cbn [ncalls filter is_call List.length].
    rewrite Nat.add_1_r. destruct (ans (S i)) as [ok_flag info].
    cbn [fst] in Hnot. subst ok_flag. unfold after_poll. run_eval.
    assert (Hs0 : (sleep_s <? 0) = false) by (apply Z.ltb_ge; lia).
    rewrite Hs0. run_eval. reflexivity.
  - subst h1. rewrite ncalls_app, Hn.
    change (ncalls _) with 1%nat. lia.
  - subst h1. rewrite total_sleep_app, Hs.
    change (total_sleep _) with (sleep_s + 0) at 1. lia.
Qed.

(** [n] more polls that are not ready, then one that is. *)
Lemma wait_loop_succeeds (n : nat) :
  forall (fuel : nat) (h : History) (i : nat),
    ncalls h = i -> total_sleep h = sleep_s * Z.of_nat i ->
    (n < fuel)%nat ->
    Z.of_nat (i + n) * period < timeout_s * Z.pos (hz w) ->
    (forall j, (i < j <= i + n)%nat -> fst (ans j) = false) ->
    fst (ans (S (i + n))) = true ->
    exists hpre,
      wait_loop w fuel desc (callback w) c0 timeout_s sleep_s h
      = Next true (hpre ++ [EvCall; EvPrint ("[OK] " ++ desc ++ ": ready")]) /\
      ncalls hpre = (i + n)%nat.
Proof.
  assert (Hp : 0 < period) by (unfold period; nia).
  induction n as [|n IH]; intros fuel h i Hn Hs Hfuel Hlt Hnot Hready.
  - destruct fuel as [|fuel]; [lia|]. rewrite Nat.add_0_r in *.
    exists (h ++ [EvTime])%list. split.
    + rewrite wait_loop_enters
        by (rewrite <- (clock_at_check h i Hn Hs) in Hlt; exact Hlt).
      unfold bind, callback. rewrite <- app_assoc. cbn [app].
      rewrite Hans, ncalls_app, Hn. cbn [ncalls filter is_call List.length].
      rewrite Nat.add_1_r. destruct (ans (S i)) as [ok_flag info].
      cbn [fst] in Hready. subst ok_flag. unfold after_poll. run_eval.
      reflexivity.
    + rewrite ncalls_app, Hn. change (ncalls [EvTime]) with 0%nat. lia.
  - destruct fuel as [|fuel]; [lia|].
    destruct (wait_loop_turn fuel h i Hn Hs) as (Hturn & Hn1 & Hs1).
    { nia. }
    { apply Hnot. lia. }
    rewrite Hturn.
    destruct (IH fuel _ (S i) Hn1 Hs1) as (hpre & Hrun & Hcalls).
    + lia.
    + replace (S i + n)%nat with (i + S n)%nat by lia. exact Hlt.
    + intros j Hj. apply Hnot. lia.
    + replace (S (S i + n)) with (S (i + S n)) by lia. exact Hready.
    + exists hpre. split; [exact Hrun|]. lia.
Qed.

(** [n] more polls that are not ready, then the timeout. *)
Lemma wait_loop_gives_up (n : nat) :
  forall (fuel : nat) (h : History) (i : nat),
    ncalls h = i -> total_sleep h = sleep_s * Z.of_nat i ->
    (n < fuel)%nat ->
    ((0 < n)%nat ->
     Z.of_nat (i + n - 1) * period < timeout_s * Z.pos (hz w)) ->
    timeout_s * Z.pos (hz w) <= Z.of_nat (i + n) * period ->
    (forall j, fst (ans j) = false) ->
    exists hpre,
      wait_loop w fuel desc (callback w) c0 timeout_s sleep_s h
      = Next false (hpre ++ [EvTime; timed_out desc timeout_s]) /\
      ncalls hpre = (i + n)%nat /\
      clock w (hpre ++ [EvTime]) - c0 = Z.of_nat (i + n) * period.
Proof.
  assert (Hp : 0 < period) by (unfold period; nia).
  induction n as [|n IH]; intros fuel h i Hn Hs Hfuel Hlt Hge Hnot.
  - destruct fuel as [|fuel]; [lia|]. rewrite Nat.add_0_r in *.
    exists h. split; [|split].
    + apply wait_loop_times_out.
      rewrite (clock_at_check h i Hn Hs). exact Hge.
    + exact Hn.
    + apply clock_at_check; assumption.
  - destruct fuel as [|fuel]; [lia|].
    destruct (wait_loop_turn fuel h i Hn Hs) as (Hturn & Hn1 & Hs1).
    { assert (Hlt' := Hlt ltac:(lia)).
      replace (i + S n - 1)%nat with (i + n)%nat in Hlt' by lia. nia. }
    { apply Hnot. }
    rewrite Hturn.
    destruct (IH fuel _ (S i) Hn1 Hs1) as (hpre & Hrun & Hcalls & Hel).
    + lia.
    + intros Hpos. replace (S i + n - 1)%nat with (i + S n - 1)%nat by lia.
      apply Hlt. lia.
    + replace (S i + n)%nat with (i + S n)%nat by lia. exact Hge.
    + exact Hnot.
    + exists hpre. split; [exact Hrun|].
      replace (i + S n)%nat with (S i + n)%nat by lia. split; assumption.
Qed.

End Polling.

Lemma polls_before_timeout (T P : Z) :
  0 < T -> 0 < P ->
  let q := (T + P - 1) / P in
  0 < q /\ (q - 1) * P < T /\ T <= q * P.
Proof.
  intros HT HP q.
  pose proof (Z.div_mod (T + P - 1) P ltac:(lia)) as Hdm.
  pose proof (Z.mod_pos_bound (T + P - 1) P HP) as Hr.
  fold q in Hdm. nia.
Qed.

(** C2, as stated, fails for a predicate that takes time: one that is ready at
    its 5th invocation and takes 100 seconds a call, polled every second with
    a timeout of 10 seconds (5 times 1 is below 10), is invoked once and
    [wait_until] reports failure, 101 seconds in; it never succeeds. *)
Lemma wait_until_slow_predicate_counterexample :
  first_ready (ready_from 5) 5 /\
  5 * 1 < 10 /\
  wait_until (probe_world 100 (ready_from 5)) 5 "probe"
    (callback (probe_world 100 (ready_from 5))) 10 1 []
  = Next false
      [EvTime; EvTime; EvCall; EvPrint "[WAIT] probe: not yet"; EvSleep 1;
       EvTime; EvPrint "[FAIL] probe: timed out after 10s"] /\
  clock (probe_world 100 (ready_from 5))
    [EvTime; EvTime; EvCall; EvPrint "[WAIT] probe: not yet"; EvSleep 1; EvTime]
  - clock (probe_world 100 (ready_from 5)) [EvTime] = 101 /\
  forall fuel h',
    wait_until (probe_world 100 (ready_from 5)) fuel "probe"
      (callback (probe_world 100 (ready_from 5))) 10 1 [] <> Next true h'.
Proof.
  split; [|split; [|split; [|split]]].
  - unfold first_ready. split; [lia|]. split; [reflexivity|].
    intros i Hi. unfold ready_from.
    destruct (5 <=? i)%nat eqn:E; [|reflexivity].
    apply Nat.leb_le in E. lia.
  - lia.
  - reflexivity.
  - reflexivity.
  - intros [|[|fuel]] h'; intros E; discriminate E.
Qed.

(** C2, amended.  (1) For any predicate and any clock, [wait_until] reports
    failure only at a clock reading [timeout_s] seconds or more after its
    first one.  (2) On a clock where a call of the predicate takes [d] ticks
    and a sleep exactly the time asked for: if the predicate is ready for the
    first time at its k-th invocation and (k - 1) periods of
    [sleep_s] seconds plus [d] ticks are below the timeout, which k times
    [sleep_s] below the timeout gives when [d] is 0, then [wait_until] returns
    success at that k-th invocation, the last thing it does but printing; if
    the predicate is never ready, [wait_until] returns failure, at an elapsed
    time from the timeout up to one period more. *)
Theorem wait_until_bounded_polling :
  (forall w fuel desc fn timeout_s sleep_s h0 h',
     wait_until w fuel desc fn timeout_s sleep_s h0 = Next false h' ->
     exists hpre,
       h' = (hpre ++ [EvTime; timed_out desc timeout_s])%list /\
       timeout_s * Z.pos (hz w)
         <= clock w (hpre ++ [EvTime]) - clock w (h0 ++ [EvTime])) /\
  (forall w c0 d ans desc timeout_s sleep_s,
     0 < timeout_s -> 0 < sleep_s -> 0 <= d ->
     uniform_clock w c0 d -> answers w ans ->
     let period := sleep_s * Z.pos (hz w) + d in
     (forall k fuel,
        first_ready ans k ->
        (Z.of_nat k - 1) * period < timeout_s * Z.pos (hz w) ->
        (k <= fuel)%nat ->
        exists hpre,
          wait_until w fuel desc (callback w) timeout_s sleep_s []
          = Next true (hpre ++ [EvCall; EvPrint ("[OK] " ++ desc ++ ": ready")]) /\
          ncalls (hpre ++ [EvCall; EvPrint ("[OK] " ++ desc ++ ": ready")]) = k) /\
     (forall k fuel,
        d = 0 ->
        first_ready ans k ->
        Z.of_nat k * sleep_s < timeout_s ->
        (k <= fuel)%nat ->
        exists hpre,
          wait_until w fuel desc (callback w) timeout_s sleep_s []
          = Next true (hpre ++ [EvCall; EvPrint ("[OK] " ++ desc ++ ": ready")]) /\
          ncalls (hpre ++ [EvCall; EvPrint ("[OK] " ++ desc ++ ": ready")]) = k) /\
     ((forall i, fst (ans i) = false) ->
      exists n hpre,
        (forall fuel,
           (n < fuel)%nat ->
           wait_until w fuel desc (callback w) timeout_s sleep_s []
           = Next false (hpre ++ [EvTime; timed_out desc timeout_s])) /\
        ncalls hpre = n /\
        timeout_s * Z.pos (hz w)
          <= clock w (hpre ++ [EvTime]) - clock w [EvTime]
          < timeout_s * Z.pos (hz w) + period)).
Proof.
  split.
  - intros w fuel desc fn timeout_s sleep_s h0 h' Hrun.
    rewrite wait_until_unfold in Hrun.
    apply wait_loop_fails_late in Hrun. exact Hrun.
  - intros w c0 d ans desc timeout_s sleep_s HT Hs Hd Hclock Hans period.
    assert (Ht0 : clock w [EvTime] = c0).
    { rewrite Hclock. change (total_sleep [EvTime]) with 0.
      change (ncalls [EvTime]) with 0%nat. lia. }
    assert (Hok : forall k fuel,
      first_ready ans k ->
      (Z.of_nat k - 1) * period < timeout_s * Z.pos (hz w) ->
      (k <= fuel)%nat ->
      exists hpre,
        wait_until w fuel desc (callback w) timeout_s sleep_s []
        = Next true (hpre ++ [EvCall; EvPrint ("[OK] " ++ desc ++ ": ready")]) /\
        ncalls (hpre ++ [EvCall; EvPrint ("[OK] " ++ desc ++ ": ready")]) = k).
    { intros k fuel (Hk1 & Hready & Hnot) Hlt Hfuel.
      rewrite wait_until_unfold. cbn [app]. rewrite Ht0.
      destruct (wait_loop_succeeds w c0 d ans desc timeout_s sleep_s
                  Hclock Hans Hs Hd (k - 1) fuel [EvTime] 0%nat)
        as (hpre & Hrun & Hcalls).
      - reflexivity.
      - change (total_sleep [EvTime]) with 0. lia.
      - lia.
      - cbn [Nat.add]. fold period.
        replace (Z.of_nat (k - 1)) with (Z.of_nat k - 1) by lia. exact Hlt.
      - intros j Hj. apply Hnot. lia.
      - replace (S (0 + (k - 1))) with k by lia. exact Hready.
      - exists hpre. split; [exact Hrun|].
        rewrite ncalls_app, Hcalls.
        change (ncalls [EvCall; EvPrint _]) with 1%nat. lia. }
    split; [exact Hok|]. split.
    + intros k fuel -> Hfirst Hlt Hfuel. apply Hok; auto.
      unfold period. nia.
    + intros Hnot.
      assert (Hp : 0 < period) by (unfold period; nia).
      destruct (polls_before_timeout (timeout_s * Z.pos (hz w)) period
                  ltac:(nia) Hp) as (Hq & Hlo & Hhi).
      set (q := (timeout_s * Z.pos (hz w) + period - 1) / period) in *.
      destruct (wait_loop_gives_up w c0 d ans desc timeout_s sleep_s
                  Hclock Hans Hs Hd (Z.to_nat q) (S (Z.to_nat q)) [EvTime] 0%nat)
        as (hpre & Hrun & Hcalls & Hel).
      * reflexivity.
      * change (total_sleep [EvTime]) with 0. lia.
      * lia.
      * intros Hpos. cbn [Nat.add]. fold period.
        replace (Z.of_nat (Z.to_nat q - 1)) with (q - 1) by lia. exact Hlo.
      * cbn [Nat.add]. fold period. rewrite Z2Nat.id by lia. exact Hhi.
      * exact Hnot.
      * exists (Z.to_nat q), hpre. split; [|split].
        -- intros fuel Hfuel. rewrite wait_until_unfold. cbn [app].
           rewrite Ht0.
           apply (wait_loop_more_fuel w (S (Z.to_nat q))); [lia | exact Hrun].
        -- exact Hcalls.
        -- rewrite Ht0, Hel. cbn [Nat.add]. fold period.
           rewrite Z2Nat.id by lia. lia.
Qed.

Lemma wait_until_bounded_polling_witness :
  exists hpre,
    wait_until (probe_world 2 (ready_from 3)) 3 "probe"
      (callback (probe_world 2 (ready_from 3))) 600 10 []
    = Next true (hpre ++ [EvCall; EvPrint "[OK] probe: ready"]) /\
    ncalls (hpre ++ [EvCall; EvPrint "[OK] probe: ready"]) = 3%nat.
Proof.
  apply (proj1 (proj2 wait_until_bounded_polling
                  (probe_world 2 (ready_from 3)) 0 2 (ready_from 3)
                  "probe" 600 10
                  ltac:(lia) ltac:(lia) ltac:(lia)
                  ltac:(intros h; cbn [clock hz probe_world]; lia)
                  ltac:(intros h; reflexivity))
           3%nat 3%nat).
  - unfold first_ready. split; [lia|]. split; [reflexivity|].
    intros i Hi. unfold ready_from.
    destruct (3 <=? i)%nat eqn:E; [|reflexivity].
    apply Nat.leb_le in E. lia.
  - cbn [hz probe_world]. lia.
  - lia.
Defined.

(** C10, as stated, fails on a wall clock that is set between the two
    readings [wait_until] takes before its first poll.  Set back (100 then
    50 seconds): with a timeout of 0 the predicate is invoked, and its ready
    answer makes [wait_until] report success.  Set forward (0 then 1000
    seconds): with a timeout of 600, which is positive, the predicate is never
    invoked and [wait_until] reports failure at once. *)
Lemma wait_until_clock_set_counterexample :
  (wait_until (reading_world set_back (ready_from 1)) 1 "probe"
     (callback (reading_world set_back (ready_from 1))) 0 5 []
   = Next true [EvTime; EvTime; EvCall; EvPrint "[OK] probe: ready"]) /\
  (ncalls (trace (wait_until (reading_world set_back (ready_from 1)) 1 "probe"
                    (callback (reading_world set_back (ready_from 1))) 0 5 []))
   = 1%nat) /\
  0 < 600 /\
  (forall fuel,
     wait_until (reading_world set_forward (ready_from 1)) (S fuel) "probe"
       (callback (reading_world set_forward (ready_from 1))) 600 10 []
     = Next false
         [EvTime; EvTime; EvPrint "[FAIL] probe: timed out after 600s"]) /\
  (ncalls [EvTime; EvTime; EvPrint "[FAIL] probe: timed out after 600s"]
   = 0%nat).
Proof.
  split; [reflexivity|]. split; [reflexivity|]. split; [lia|].
  split; [|reflexivity]. intros fuel. reflexivity.
Qed.

(** C10, amended. With a clock whose first two readings, taken back to back,
    are less than one second apart and in order: a timeout of zero or less
    makes [wait_until] report failure at once, whatever the predicate, which
    is not invoked; and the predicate is invoked at least once exactly when
    the timeout is positive. *)
Theorem wait_until_nonpositive_timeout (w : World) (fuel : nat) (desc : string)
    (timeout_s sleep_s : Z) (h0 : History) :
  0 <= clock w (h0 ++ [EvTime; EvTime]) - clock w (h0 ++ [EvTime])
    < Z.pos (hz w) ->
  (forall fn,
     timeout_s <= 0 ->
     wait_until w (S fuel) desc fn timeout_s sleep_s h0
     = Next false (h0 ++ [EvTime; EvTime; timed_out desc timeout_s])) /\
  ((ncalls h0
    < ncalls (trace (wait_until w (S fuel) desc (callback w)
                       timeout_s sleep_s h0)))%nat
   <-> 0 < timeout_s).
Proof.
  intros Hclock.
  assert (Hzero : forall fn,
     timeout_s <= 0 ->
     wait_until w (S fuel) desc fn timeout_s sleep_s h0
     = Next false (h0 ++ [EvTime; EvTime; timed_out desc timeout_s])).
  { intros fn HT. rewrite wait_until_unfold, wait_loop_times_out.
    - rewrite <- app_assoc. reflexivity.
    - rewrite <- app_assoc. cbn [app]. nia. }
  split; [exact Hzero|]. split.
  - intros Hcalls. destruct (Z_lt_le_dec 0 timeout_s) as [HT | HT]; [exact HT|].
    exfalso. rewrite (Hzero (callback w) HT) in Hcalls. cbn [trace] in Hcalls.
    rewrite ncalls_app in Hcalls.
    change (ncalls [EvTime; EvTime; timed_out desc timeout_s]) with 0%nat
      in Hcalls.
    lia.
  - intros HT. rewrite wait_until_unfold, wait_loop_enters.
    + unfold bind at 1. unfold callback at 1.
      destruct (sat_extends any_event (fun _ => True) True
                  (after_poll w fuel desc (callback w)
                     (clock w (h0 ++ [EvTime])) timeout_s sleep_s
                     (fn_response w (((h0 ++ [EvTime]) ++ [EvTime]) ++ [EvCall])))
                  (((h0 ++ [EvTime]) ++ [EvTime]) ++ [EvCall]))
        as (tl & Htl).
      { unfold after_poll.
        destruct (fn_response w _) as [ok_flag info]. destruct ok_flag.
        - sat_go; exact Logic.I.
        - apply sat_bind; [apply sat_print; exact Logic.I | intros _].
          apply sat_bind; [apply sat_time_sleep; exact Logic.I | intros _].
          apply sat_wait_loop; try exact Logic.I; [intros; exact Logic.I|].
          apply sat_callback. exact Logic.I. }
      rewrite Htl. rewrite !ncalls_app.
      change (ncalls [EvCall]) with 1%nat. lia.
    + rewrite <- app_assoc. cbn [app]. nia.
Qed.

Lemma wait_until_nonpositive_timeout_witness :
  wait_until Scenario.healthy 1 "probe" (callback Scenario.healthy) 0 5 []
  = Next false [EvTime; EvTime; EvPrint "[FAIL] probe: timed out after 0s"].
Proof.
  apply (proj1 (wait_until_nonpositive_timeout Scenario.healthy 0 "probe" 0 5 []
                  ltac:(cbn; lia))).
  lia.
Defined.

(** ** Runs of the staged worlds *)

Example healthy_run :
  exit_status (main Scenario.healthy Scenario.lib 0 []) = Some 0 /\
  requests (trace (main Scenario.healthy Scenario.lib 0 []))
  = [(GET, "http://localhost:9200/");
     (GET, "http://localhost:9200/_license?pretty");
     (GET, "http://localhost:9200/_ml/trained_models?size=200&pretty");
     (GET, "http://localhost:9200/_ml/trained_models/.elser_model_2/_stats?pretty");
     (GET, "http://localhost:9200/_ingest/pipeline/elser_oracle_pipeline?pretty");
     (GET, "http://localhost:9200/oracle_elser_index/_count?pretty")].
Proof. split; reflexivity. Qed.

Example repair_run :
  exit_status (main Scenario.repair Scenario.lib 2 []) = Some 0 /\
  requests (trace (main Scenario.repair Scenario.lib 2 []))
  = [(GET, "http://localhost:9200/");
     (GET, "http://localhost:9200/_license?pretty");
     (GET, "http://localhost:9200/_ml/trained_models?size=200&pretty");
     (POST, "http://localhost:9200/_ml/trained_models/.elser_model_2/deployment/_start?pretty");
     (GET, "http://localhost:9200/_ml/trained_models/.elser_model_2/_stats?pretty");
     (GET, "http://localhost:9200/_ml/trained_models/.elser_model_2/_stats?pretty");
     (PUT, "http://localhost:9200/_ingest/pipeline/elser_oracle_pipeline?pretty");
     (DELETE, "http://localhost:9200/oracle_elser_index?pretty");
     (PUT, "http://localhost:9200/oracle_elser_index?pretty");
     (GET, "http://localhost:9200/oracle_elser_index/_count?pretty")] /\
  commands (trace (main Scenario.repair Scenario.lib 2 []))
  = [docker_ps;
     ["docker"; "compose"; "restart"; "ls01"];
     ["docker"; "restart"; "ls01"];
     ["docker"; "logs"; "--tail"; "160"; "ls01"]] /\
  total_sleep (trace (main Scenario.repair Scenario.lib 2 [])) = 30.
Proof. repeat split; reflexivity. Qed.

Example unauthorized_run :
  exit_status (main Scenario.unauthorized Scenario.lib 0 []) = Some 3 /\
  requests (trace (main Scenario.unauthorized Scenario.lib 0 []))
  = [(GET, "http://localhost:9200/")].
Proof. split; reflexivity. Qed.

(** * Further results *)

(** ** The polling budget of [wait_until] *)

Lemma total_sleep_nonneg (t : History) :
  Forall nonneg_sleep t -> 0 <= total_sleep t.
Proof.
  induction 1 as [|e t He _ IH]; simpl; [lia|].
  destruct e; simpl in He; lia.
Qed.

Lemma poll_budget_covers (timeout_s sleep_s : Z) :
  0 < sleep_s -> timeout_s <= Z.of_nat (poll_budget timeout_s sleep_s) * sleep_s.
Proof.
  intros Hs. unfold poll_budget.
  destruct (Z_lt_le_dec 0 timeout_s) as [HT | HT].
  - destruct (polls_before_timeout timeout_s sleep_s HT Hs) as (Hq & _ & Hhi).
    rewrite Z2Nat.id by lia. exact Hhi.
  - assert (0 <= Z.of_nat (Z.to_nat ((timeout_s + sleep_s - 1) / sleep_s)))
      by lia.
    nia.
Qed.




Section Budget.

Variable w : World.
Variables (desc : string) (t0 timeout_s sleep_s : Z).
Hypothesis Hclock : clock_advances w.
Hypothesis Hsleep : 0 < sleep_s.

(** [n] more polls at most fit before the timeout. *)
Let fits (n : nat) (h : History) : Prop :=
  timeout_s * Z.pos (hz w)
    <= clock w h - t0 + Z.of_nat n * (sleep_s * Z.pos (hz w)).

Lemma fits_check (h : History) :
  fits 0 h ->
  (clock w (h ++ [EvTime]) - t0 <? timeout_s * Z.pos (hz w)) = false.
Proof.
  unfold fits. intros Hf. apply Z.ltb_ge.
  pose proof (Hclock h [EvTime] ltac:(repeat constructor)) as Hc.
  change (total_sleep [EvTime]) with 0 in Hc. lia.
Qed.

Lemma fits_after_turn (n : nat) (h t : History) (line : string) :
  fits (S n) h -> Forall nonneg_sleep t ->
  fits n (((h ++ [EvTime]) ++ t) ++ [EvPrint line] ++ [EvSleep sleep_s])%list.
Proof.
  unfold fits. intros Hf Ht.
  rewrite <- !app_assoc.
  pose proof (Hclock h ([EvTime] ++ t ++ [EvPrint line] ++ [EvSleep sleep_s])%list)
    as Hc.
  rewrite !total_sleep_app in Hc.
  change (total_sleep [EvTime]) with 0 in Hc.
  change (total_sleep [EvPrint line]) with 0 in Hc.
  change (total_sleep [EvSleep sleep_s]) with (sleep_s + 0) in Hc.
  pose proof (total_sleep_nonneg t Ht) as Hpos.
  assert (Hall : Forall nonneg_sleep
                   ([EvTime] ++ t ++ [EvPrint line] ++ [EvSleep sleep_s])%list).
  { apply Forall_app. split; [repeat constructor|].
    apply Forall_app. split; [exact Ht|].
    repeat constructor. simpl. lia. }
  specialize (Hc Hall). nia.
Qed.

(** With a clock that advances, a loop bound above the number of polls that
    fit is never hit. *)
Lemma wait_loop_ends (fn : M (bool * string)) :
  sat nonneg_sleep (fun _ => True) False fn ->
  forall (n fuel : nat) (h h' : History),
    fits n h -> (n < fuel)%nat ->
    wait_loop w fuel desc fn t0 timeout_s sleep_s h <> OutOfFuel h'.
Proof.
  intros Hfn. induction n as [|n IH]; intros fuel h h' Hf Hfuel;
    (destruct fuel as [|fuel]; [lia|]); cbn [wait_loop];
    unfold bind at 1; unfold time_time at 1.
  - rewrite (fits_check h Hf). run_eval. intros E. discriminate E.
  - destruct (clock w (h ++ [EvTime]) - t0 <? timeout_s * Z.pos (hz w));
      [|run_eval; intros E; discriminate E].
    destruct (Hfn (h ++ [EvTime])%list) as (t & Ht & HI & _ & HF).
    unfold bind at 1.
    destruct (fn (h ++ [EvTime])%list)
      as [[ok_flag info] h1 | c h1 | h1 | h1] eqn:Efn;
      try (intros E; discriminate E).
    + cbn [trace] in Ht. subst h1. destruct ok_flag.
      * run_eval. intros E. discriminate E.
      * unfold bind at 1. unfold print at 1, emit at 1.
        unfold bind at 1. unfold time_sleep.
        assert (Hs0 : (sleep_s <? 0) = false) by (apply Z.ltb_ge; lia).
        rewrite Hs0. unfold emit at 1.
        rewrite <- (app_assoc _ [EvPrint _] [EvSleep sleep_s]).
        apply IH; [|lia]. apply fits_after_turn; assumption.
    + intros _. exact (HF _ eq_refl).
Qed.

(** The predicate is invoked at most as many times as polls fit, whatever
    the loop bound. *)
Lemma wait_loop_calls (fuel : nat) :
  forall (n : nat) (h : History),
    fits n h ->
    (ncalls (trace (wait_loop w fuel desc (callback w) t0 timeout_s sleep_s h))
     <= ncalls h + n)%nat.
Proof.
  induction fuel as [|fuel IH]; intros n h Hf; cbn [wait_loop].
  - cbn [trace]. lia.
  - unfold bind at 1. unfold time_time at 1.
    destruct (clock w (h ++ [EvTime]) - t0 <? timeout_s * Z.pos (hz w)) eqn:Elt.
    + destruct n as [|n]; [rewrite (fits_check h Hf) in Elt; discriminate Elt|].
      unfold bind at 1. unfold callback at 1.
      destruct (fn_response w _) as [ok_flag info]. destruct ok_flag.
      * run_eval. cbn [trace]. rewrite ncalls_app.
        change (ncalls (_ :: _)) with 1%nat. lia.
      * unfold bind at 1. unfold print at 1, emit at 1.
        unfold bind at 1. unfold time_sleep.
        assert (Hs0 : (sleep_s <? 0) = false) by (apply Z.ltb_ge; lia).
        rewrite Hs0. unfold emit at 1.
        rewrite <- (app_assoc _ [EvPrint _] [EvSleep sleep_s]).
        etransitivity.
        -- apply (IH n). apply fits_after_turn; [exact Hf|].
           repeat constructor.
        -- rewrite !ncalls_app.
           change (ncalls [EvTime]) with 0%nat.
           change (ncalls [EvCall]) with 1%nat.
           change (ncalls [EvPrint _]) with 0%nat.
           change (ncalls [EvSleep _]) with 0%nat. lia.
    + run_eval. cbn [trace]. rewrite ncalls_app.
      change (ncalls (_ :: _)) with 0%nat. lia.
Qed.

End Budget.

(** The call of [wait_until] ends, for a loop bound above the budget. *)
Lemma wait_until_ends (w : World) (fuel : nat) (desc : string)
    (fn : M (bool * string)) (timeout_s sleep_s : Z) :
  clock_advances w -> 0 < sleep_s ->
  sat nonneg_sleep (fun _ => True) False fn ->
  (poll_budget timeout_s sleep_s < fuel)%nat ->
  ends (wait_until w fuel desc fn timeout_s sleep_s).
Proof.
  intros Hclock Hs Hfn Hfuel h0 h'. rewrite wait_until_unfold.
  eapply wait_loop_ends; try eassumption.
  pose proof (poll_budget_covers timeout_s sleep_s Hs). nia.
Qed.

(** X1. On a clock that never goes back and on which a sleep takes at least
    the time asked for, [wait_until] invokes its predicate at most
    [poll_budget timeout_s sleep_s] times, and, for any predicate that itself
    ends, a loop bound above that number is never hit: the call ends. *)
Theorem wait_until_poll_budget (w : World) (desc : string)
    (timeout_s sleep_s : Z) (h0 : History) :
  clock_advances w -> 0 < sleep_s ->
  (forall fuel,
     (ncalls (trace (wait_until w fuel desc (callback w) timeout_s sleep_s h0))
      <= ncalls h0 + poll_budget timeout_s sleep_s)%nat) /\
  (forall fn fuel h',
     sat nonneg_sleep (fun _ => True) False fn ->
     (poll_budget timeout_s sleep_s < fuel)%nat ->
     wait_until w fuel desc fn timeout_s sleep_s h0 <> OutOfFuel h').
Proof.
  intros Hclock Hs.
  assert (Hfits : timeout_s * Z.pos (hz w)
                  <= clock w (h0 ++ [EvTime]) - clock w (h0 ++ [EvTime])
                     + Z.of_nat (poll_budget timeout_s sleep_s)
                       * (sleep_s * Z.pos (hz w))).
  { pose proof (poll_budget_covers timeout_s sleep_s Hs). nia. }
  split.
  - intros fuel. rewrite wait_until_unfold.
    etransitivity; [apply wait_loop_calls; eassumption|].
    rewrite ncalls_app. change (ncalls [EvTime]) with 0%nat. lia.
  - intros fn fuel h' Hfn Hfuel. rewrite wait_until_unfold.
    eapply wait_loop_ends; eassumption.
Qed.

Lemma wait_until_poll_budget_witness :
  (ncalls (trace (wait_until (probe_world 2 (ready_from 100)) 100 "probe"
                    (callback (probe_world 2 (ready_from 100))) 600 10 []))
   <= 0 + poll_budget 600 10)%nat.
Proof.
  apply (proj1 (wait_until_poll_budget (probe_world 2 (ready_from 100))
                  "probe" 600 10 []
                  ltac:(intros h t _; cbn [clock hz probe_world];
                        rewrite total_sleep_app, ncalls_app; lia)
                  ltac:(lia))).
Defined.

(** ** The run ends *)

Lemma wait_loop_never_returns (w : World) (fuel : nat) (desc : string)
    (fn : M (bool * string)) (timeout_s sleep_s : Z) :
  sat any_event (fun _ => False) True fn ->
  sat any_event (fun _ => False) True
    (wait_until w fuel desc fn timeout_s sleep_s).
Proof.
  intros Hfn. apply sat_wait_until; try exact Logic.I; auto.
  intros; exact Logic.I.
Qed.

(** A predicate that is never ready and never raises is polled until the
    timeout. *)
Lemma wait_until_gives_up (w : World) (fuel : nat) (desc : string)
    (fn : M (bool * string)) (timeout_s sleep_s : Z) (h0 : History) :
  clock_advances w -> 0 < sleep_s ->
  sat nonneg_sleep (fun _ => False) False fn ->
  (forall h r h', fn h = Next r h' -> fst r = false) ->
  (forall h h', fn h <> Raise h') ->
  (poll_budget timeout_s sleep_s < fuel)%nat ->
  exists h', wait_until w fuel desc fn timeout_s sleep_s h0 = Next false h'.
Proof.
  intros Hclock Hs Hfn Hnot Hraise Hfuel.
  assert (Hloop : forall f t0 h h',
            wait_loop w f desc fn t0 timeout_s sleep_s h <> Next true h' /\
            wait_loop w f desc fn t0 timeout_s sleep_s h <> Raise h').
  { induction f as [|f IH]; intros t0 h h'; cbn [wait_loop].
    - split; intros E; discriminate E.
    - unfold bind, time_time, print, emit, time_sleep, ok, fail, ret.
      destruct (_ <? _); [|split; intros E; discriminate E].
      destruct (fn (h ++ [EvTime])%list)
        as [[ok_flag info] h1 | c h1 | h1 | h1] eqn:Efn.
      + pose proof (Hnot _ _ _ Efn) as Hf. cbn [fst] in Hf. subst ok_flag.
        assert (Hs0 : (sleep_s <? 0) = false) by (apply Z.ltb_ge; lia).
        rewrite Hs0. apply IH.
      + split; intros E; discriminate E.
      + exfalso. exact (Hraise _ _ Efn).
      + split; intros E; discriminate E. }
  destruct (wait_until w fuel desc fn timeout_s sleep_s h0)
    as [[|] h1 | c h1 | h1 | h1] eqn:Erun.
  - exfalso. rewrite wait_until_unfold in Erun.
    exact (proj1 (Hloop _ _ _ _) Erun).
  - exists h1. reflexivity.
  - exfalso.
    assert (Hsat : sat any_event (fun _ => False) True
                     (wait_until w fuel desc fn timeout_s sleep_s)).
    { apply wait_loop_never_returns.
      eapply sat_weaken; [| | |exact Hfn]; auto. intros; exact Logic.I. }
    exact (sat_code _ _ _ _ _ _ _ Hsat Erun).
  - exfalso. rewrite wait_until_unfold in Erun.
    exact (proj2 (Hloop _ _ _ _) Erun).
  - exfalso. revert Erun. apply wait_until_ends; auto.
    eapply sat_weaken; [| | |exact Hfn]; auto.
Qed.

Section Ends.

Variable w : World.
Variable lib : PyLib.
Variable fuel : nat.
Hypothesis Hclock : clock_advances w.
Hypothesis Hfuel : (60 < fuel)%nat.





End Ends.




(** ** What a run may do to the outside *)

Lemma main_expected (w : World) (lib : PyLib) (fuel : nat) :
  sat (expected_event w) (fun _ => True) True (main w lib fuel).
Proof.
  unfold main, step0_mode, step1_docker, step2_reachability, step3_models,
    step3A_download, step3B_deploy, step4_pipeline, step5_index,
    step6_restart, step7_logs, step_done, _download_ready, _deploy_status.
  sat_go; intros; cbn [expected_event]; try exact Logic.I; auto 10; try lia.
Qed.

(** X3. Whatever the world answers and however the run ends, everything
    [main] does to the outside is on a fixed list: each request carries the
    configured credentials and a timeout of 20 seconds; a GET has no payload;
    the only POSTs are the download trigger and the start command, the only
    PUTs the pipeline and the index, each with its document, the only DELETE
    is that of the index; the only commands are the container listing, the
    two restarts and the log tail; a sleep is of 10 or 20 seconds. *)
Theorem main_outside_effects (w : World) (lib : PyLib) (fuel : nat) :
  Forall (expected_event w) (trace (main w lib fuel [])).
Proof.
  eapply sat_trace; [apply main_expected | constructor].
Qed.

(** ** Section 1: the container listing *)

(** X4. When the container listing returns a non-zero status, [main] prints
    the failure line and what the command wrote, and returns 2 before any
    request is sent, in either mode; 2 is returned in no other situation.
    When the command cannot be run at all (subprocess raises), the run ends
    there with the exception, not with code 2. *)
Theorem docker_failure_halts (w : World) (lib : PyLib) (fuel : nat) :
  (forall code out err,
     run_response w (docker_check_history w) = Some (code, out, err) ->
     code <> 0 ->
     let h := (docker_check_history w
               ++ [EvPrint "[FAIL] Docker command failed. Is Docker Desktop running?";
                   EvPrint (str_strip lib (out ++ err))])%list in
     main w lib fuel [] = Return 2 h /\
     requests h = [] /\
     commands h = [docker_ps]) /\
  (forall h,
     main w lib fuel [] = Return 2 h ->
     exists code out err,
       run_response w (docker_check_history w) = Some (code, out, err) /\
       code <> 0) /\
  (run_response w (docker_check_history w) = None ->
   main w lib fuel [] = Raise (docker_check_history w)).
Proof.
  split; [|split].
  - intros code out err Hrun Hcode h. split.
    + subst h. revert Hrun. unfold docker_check_history, heading_lines.
      unfold main, step0_mode, step1_docker.
      run_unfold. hist_norm. intros Hrun. rewrite Hrun.
      apply Z.eqb_neq in Hcode. rewrite Hcode. cbn [negb]. hist_norm.
      reflexivity.
    + subst h. unfold docker_check_history, heading_lines.
      split; reflexivity.
  - intros h Hm. rewrite main_from_3 in Hm.
    apply bind_Return_inv in Hm. destruct Hm as [Hm | (a & h1 & _ & Hm)].
    + revert Hm. unfold docker_check_history, heading_lines.
      unfold sections_0_2, step0_mode, step1_docker, step2_reachability.
      run_unfold. hist_norm.
      destruct (run_response w _) as [[[code out] err]|];
        [|intros Hr; discriminate Hr].
      destruct (code =? 0) eqn:Ecode; cbn [negb].
      * hist_norm. case_http; [|intros Hr; discriminate Hr].
        destruct (negb (_ =? 200)); [intros Hr; discriminate Hr|].
        hist_norm. case_http; intros Hr; discriminate Hr.
      * intros _. exists code, out, err. split; [reflexivity|].
        apply Z.eqb_neq, Ecode.
    + apply (sat_code _ _ _ _ _ _ _ (sections_from_3_codes w lib fuel)) in Hm.
      lia.
  - unfold docker_check_history, heading_lines.
    unfold main, step0_mode, step1_docker.
    run_unfold. hist_norm. intros Hrun. rewrite Hrun. reflexivity.
Qed.

Lemma docker_failure_halts_witness :
  main docker_down Scenario.lib 0 []
  = Return 2
      (docker_check_history docker_down
       ++ [EvPrint "[FAIL] Docker command failed. Is Docker Desktop running?";
           EvPrint "Cannot connect to the Docker daemon"]).
Proof.
  apply (proj1 (docker_failure_halts docker_down Scenario.lib 0)
           1 "" "Cannot connect to the Docker daemon");
    [reflexivity | lia].
Defined.

(** ** Section 3: the model listing *)

Lemma step3_models_run (w : World) (lib : PyLib) (h : History) (st : Z)
    (bd : string) :
  http_response w (h ++ models_history w) = Some (st, bd) ->
  step3_models w lib h
  = if negb (st =? 200)
    then Return 4
           (h ++ models_history w
              ++ [EvPrint ("[FAIL] Cannot list trained models (HTTP "
                             ++ str_of_Z st ++ ").");
                  EvPrint (str_take 1200 bd)])
    else Next (str_in (ELSER_MODEL_ID w) (parse_models lib bd))
           (h ++ models_history w
              ++ [EvPrint "Known trained models (first 40):"]
              ++ map (fun m => EvPrint ("  - " ++ py_str lib m))
                   (firstn 40 (parse_models lib bd))
              ++ [EvPrint
                    (if str_in (ELSER_MODEL_ID w) (parse_models lib bd)
                     then "[OK] ELSE R model found: " ++ ELSER_MODEL_ID w
                     else "[WARN] ELSE R model NOT found: "
                            ++ ELSER_MODEL_ID w)])%list.
Proof.
  unfold models_history, heading_lines, step3_models. hist_norm.
  intros Hlist. run_eval. unfold http. hist_norm. rewrite Hlist.
  destruct (negb (st =? 200)); run_eval; [reflexivity|].
  rewrite for_each_print.
  destruct (str_in (ELSER_MODEL_ID w) (parse_models lib bd));
    run_eval; reflexivity.
Qed.

Lemma step3_models_raises (w : World) (lib : PyLib) (h : History) :
  http_response w (h ++ models_history w) = None ->
  step3_models w lib h = Raise (h ++ models_history w).
Proof.
  unfold models_history, heading_lines, step3_models. hist_norm.
  intros Hlist. run_eval. unfold http. hist_norm. rewrite Hlist. reflexivity.
Qed.

Lemma sections_0_2_read_only (w : World) (lib : PyLib) :
  sat (read_only_event w) (fun _ => True) True (sections_0_2 w lib).
Proof.
  unfold sections_0_2, step0_mode, step1_docker, step2_reachability.
  sat_go; intros; cbn [read_only_event]; auto.
Qed.

Lemma after_step3_codes (w : World) (lib : PyLib) (fuel : nat)
    (have_elser : bool) :
  sat any_event (fun c => c = 0 \/ 5 <= c <= 10) True
    (step3A_download w lib fuel have_elser ;; sections_from_3B w lib fuel).
Proof.
  apply sat_bind; [codes_of (step3A_codes w lib fuel have_elser) | intros _].
  codes_of (sections_from_3B_codes w lib fuel).
Qed.

(** X5. When the model listing is answered with a status other than 200,
    [main] prints the failure line and the first 1200 characters of the body
    and returns 4, in either mode; up to there the run has only observed.
    Code 4 is returned in no other situation, and a body that cannot be
    decoded is not one of them. *)
Theorem listing_failure_halts (w : World) (lib : PyLib) (fuel : nat) :
  (forall h st bd,
     sections_0_2 w lib [] = Next tt h ->
     http_response w (h ++ models_history w) = Some (st, bd) ->
     st <> 200 ->
     let h' := (h ++ models_history w
                  ++ [EvPrint ("[FAIL] Cannot list trained models (HTTP "
                                 ++ str_of_Z st ++ ").");
                      EvPrint (str_take 1200 bd)])%list in
     main w lib fuel [] = Return 4 h' /\
     Forall (read_only_event w) h') /\
  (forall h',
     main w lib fuel [] = Return 4 h' ->
     exists h st bd,
       sections_0_2 w lib [] = Next tt h /\
       http_response w (h ++ models_history w) = Some (st, bd) /\
       st <> 200).
Proof.
  split.
  - intros h st bd Hreach Hlist Hst h'.
    assert (Hm : main w lib fuel [] = Return 4 h').
    { rewrite main_from_3, (bind_Next _ _ _ _ _ Hreach).
      unfold sections_from_3.
      apply bind_Return. rewrite (step3_models_run w lib h st bd Hlist).
      apply Z.eqb_neq in Hst. rewrite Hst. reflexivity. }
    split; [exact Hm|]. subst h'.
    apply Forall_app. split.
    + pose proof (sat_trace _ _ _ (sections_0_2 w lib) []
                    (sections_0_2_read_only w lib) (Forall_nil _)) as Hh.
      rewrite Hreach in Hh. exact Hh.
    + unfold models_history, heading_lines. cbn [app].
      repeat constructor.
  - intros h' Hm. rewrite main_from_3 in Hm.
    apply bind_Return_inv in Hm. destruct Hm as [Hm | ([] & h & Hreach & Hm)].
    { apply (sat_code _ _ _ _ _ _ _ (sections_0_2_codes w lib)) in Hm. lia. }
    unfold sections_from_3 in Hm.
    apply bind_Return_inv in Hm. destruct Hm as [Hm | (have & h1 & _ & Hm)].
    2:{ apply (sat_code _ _ _ _ _ _ _ (after_step3_codes w lib fuel have)) in Hm.
        lia. }
    destruct (http_response w (h ++ models_history w)) as [[st bd]|] eqn:Hlist.
    + rewrite (step3_models_run w lib h st bd Hlist) in Hm.
      destruct (st =? 200) eqn:Est; cbn [negb] in Hm; [discriminate Hm|].
      exists h, st, bd. repeat split; auto. apply Z.eqb_neq, Est.
    + rewrite (step3_models_raises w lib h Hlist) in Hm. discriminate Hm.
Qed.

Lemma listing_failure_halts_witness :
  main listing_refused Scenario.lib 0 []
  = Return 4
      (trace (sections_0_2 listing_refused Scenario.lib [])
       ++ models_history listing_refused
       ++ [EvPrint "[FAIL] Cannot list trained models (HTTP 403).";
           EvPrint "security_exception"]).
Proof.
  apply (proj1 (listing_failure_halts listing_refused Scenario.lib 0)
           (trace (sections_0_2 listing_refused Scenario.lib []))
           403 "security_exception");
    [reflexivity | reflexivity | lia].
Defined.

(** ** Section 3A in fix mode: the download *)

(** Brings a history to the form [h ++ e1 :: ... ++ l ++ [en; ...]]. *)
Ltac hist_flat := repeat first [rewrite <- app_assoc | progress cbn [app]].

(** The rest of [main] once the download has been accepted. *)
Lemma download_wait_codes (w : World) (lib : PyLib) (fuel : nat) :
  sat any_event (fun c => c = 0 \/ 6 <= c <= 10) True
    (ready <- wait_until w fuel "ELSE R model availability"
                (_download_ready w lib) 600 10 ;;
     if negb ready then return_ 6 else sections_from_3B w lib fuel).
Proof.
  apply sat_bind.
  - apply sat_wait_until; try exact Logic.I; [intros; exact Logic.I|].
    apply sat_download_ready. exact Logic.I.
  - intros ready. destruct ready; cbn [negb].
    + codes_of (sections_from_3B_codes w lib fuel).
    + apply sat_return_. lia.
Qed.

(** [main] from the listing to the answer of the download trigger. *)
Lemma main_download_run (w : World) (lib : PyLib) (fuel : nat) (h : History)
    (bd : string) (st : Z) (bd' : string) :
  fix_mode w = true ->
  sections_0_2 w lib [] = Next tt h ->
  http_response w (h ++ models_history w) = Some (200, bd) ->
  str_in (ELSER_MODEL_ID w) (parse_models lib bd) = false ->
  http_response w (h ++ download_history w lib bd) = Some (st, bd') ->
  main w lib fuel []
  = (if negb (Z_in st [200; 201])
     then Return 5
            (h ++ download_history w lib bd
               ++ [EvPrint (jdump lib bd' 1600);
                   EvPrint "[FAIL] ELSE R download request failed."])
     else (ready <- wait_until w fuel "ELSE R model availability"
                      (_download_ready w lib) 600 10 ;;
           if negb ready then return_ 6 else sections_from_3B w lib fuel)
            (h ++ download_history w lib bd
               ++ [EvPrint (jdump lib bd' 1600)]))%list.
Proof.
  intros Hfix Hreach Hlist Hin Hpost.
  rewrite main_from_3, (bind_Next _ _ _ _ _ Hreach).
  unfold sections_from_3.
  pose proof (step3_models_run w lib h 200 bd Hlist) as H3.
  cbn [Z.eqb Pos.eqb negb] in H3. rewrite Hin in H3.
  rewrite (bind_Next _ _ _ _ _ H3).
  revert Hpost. unfold download_history, models_history, step3A_download.
  rewrite Hfix. cbn [negb andb]. unfold heading_lines. hist_norm.
  intros Hpost. rewrite !bind_assoc. run_eval. unfold http at 1. hist_flat.
  rewrite Hpost. run_eval. hist_flat.
  destruct (negb (Z_in st [200; 201])).
  - run_eval. hist_flat. reflexivity.
  - destruct (wait_until w fuel _ _ _ _ _) as [[|] h1 | c h1 | h1 | h1];
      reflexivity.
Qed.

(** X6. In fix mode, after a listing that lacks the target model, the
    download trigger is sent and its answer printed.  A status other than 200
    and 201 makes [main] return 5 at once; with 200 or 201 the run goes on to
    wait for the model with [wait_until] (600 seconds, every 10) and cannot
    end with code 5.  Code 5 is returned in no other situation. *)
Theorem download_refusal_halts (w : World) (lib : PyLib) (fuel : nat) :
  (forall h bd st bd',
     fix_mode w = true ->
     sections_0_2 w lib [] = Next tt h ->
     http_response w (h ++ models_history w) = Some (200, bd) ->
     str_in (ELSER_MODEL_ID w) (parse_models lib bd) = false ->
     http_response w (h ++ download_history w lib bd) = Some (st, bd') ->
     let hq := (h ++ download_history w lib bd
                  ++ [EvPrint (jdump lib bd' 1600)])%list in
     (st <> 200 -> st <> 201 ->
      main w lib fuel []
        = Return 5 (hq ++ [EvPrint "[FAIL] ELSE R download request failed."])) /\
     (st = 200 \/ st = 201 ->
      main w lib fuel []
        = (ready <- wait_until w fuel "ELSE R model availability"
                      (_download_ready w lib) 600 10 ;;
           if negb ready then return_ 6 else sections_from_3B w lib fuel) hq /\
      (forall h', main w lib fuel [] <> Return 5 h'))) /\
  (forall h',
     main w lib fuel [] = Return 5 h' ->
     fix_mode w = true /\
     exists h bd st bd',
       sections_0_2 w lib [] = Next tt h /\
       http_response w (h ++ models_history w) = Some (200, bd) /\
       str_in (ELSER_MODEL_ID w) (parse_models lib bd) = false /\
       http_response w (h ++ download_history w lib bd) = Some (st, bd') /\
       st <> 200 /\ st <> 201).
Proof.
  split.
  - intros h bd st bd' Hfix Hreach Hlist Hin Hpost hq.
    rewrite (main_download_run w lib fuel h bd st bd' Hfix Hreach Hlist Hin
               Hpost).
    split.
    + intros H1 H2. rewrite Z_in_false by (simpl; lia). cbn [negb].
      subst hq. rewrite <- !app_assoc. reflexivity.
    + intros Hst. rewrite Z_in_true by (simpl; lia). cbn [negb].
      split; [reflexivity|]. intros h' Hr.
      apply (sat_code _ _ _ _ _ _ _ (download_wait_codes w lib fuel)) in Hr.
      lia.
  - intros h' Hm.
    pose proof Hm as Hm0. rewrite main_from_3 in Hm.
    apply bind_Return_inv in Hm. destruct Hm as [Hm | ([] & h & Hreach & Hm)].
    { apply (sat_code _ _ _ _ _ _ _ (sections_0_2_codes w lib)) in Hm. lia. }
    unfold sections_from_3 in Hm.
    apply bind_Return_inv in Hm. destruct Hm as [Hm | (have & h1 & H3 & Hm)].
    { apply (sat_code _ _ _ _ _ _ _ (step3_codes w lib)) in Hm. lia. }
    destruct (http_response w (h ++ models_history w)) as [[st0 bd]|] eqn:Hlist;
      [|rewrite (step3_models_raises w lib h Hlist) in H3; discriminate H3].
    rewrite (step3_models_run w lib h st0 bd Hlist) in H3.
    destruct (st0 =? 200) eqn:Est0; cbn [negb] in H3; [|discriminate H3].
    apply Z.eqb_eq in Est0. subst st0.
    assert (Hhave : have = str_in (ELSER_MODEL_ID w) (parse_models lib bd))
      by congruence.
    match type of H3 with
    | Next _ ?hv = _ => assert (Hh1 : h1 = hv) by congruence
    end.
    clear H3.
    apply bind_Return_inv in Hm. destruct Hm as [Hm | ([] & h2 & _ & Hm)].
    2:{ apply (sat_code _ _ _ _ _ _ _ (sections_from_3B_codes w lib fuel)) in Hm.
        lia. }
    assert (Hcond : fix_mode w = true /\ have = false).
    { unfold step3A_download in Hm.
      destruct (fix_mode w); destruct have; cbn [negb andb] in Hm;
        try discriminate Hm. auto. }
    destruct Hcond as [Hfix ->]. split; [exact Hfix|].
    symmetry in Hhave. rewrite Hhave in Hh1.
    destruct (http_response w (h ++ download_history w lib bd))
      as [[st bd']|] eqn:Hpost.
    + rewrite (main_download_run w lib fuel h bd st bd' Hfix Hreach Hlist
                 Hhave Hpost) in Hm0.
      destruct (Z_in st [200; 201]) eqn:Hin; cbn [negb] in Hm0.
      * apply (sat_code _ _ _ _ _ _ _ (download_wait_codes w lib fuel)) in Hm0.
        lia.
      * exists h, bd, st, bd'. repeat split; auto; intros ->; discriminate Hin.
    + exfalso. revert Hm Hpost. subst h1.
      unfold download_history, models_history, step3A_download.
      rewrite Hfix. cbn [negb andb]. unfold heading_lines. hist_norm.
      run_eval. unfold http at 1. hist_flat.
      intros Hm Hpost. rewrite Hpost in Hm. discriminate Hm.
Qed.

Lemma download_refusal_halts_witness :
  main download_refused Scenario.lib 0 []
  = Return 5
      ((trace (sections_0_2 download_refused Scenario.lib [])
        ++ download_history download_refused Scenario.lib "NO MODELS"
        ++ [EvPrint "security_exception"])
       ++ [EvPrint "[FAIL] ELSE R download request failed."]).
Proof.
  apply (proj1 (proj1 (download_refusal_halts download_refused Scenario.lib 0)
                  (trace (sections_0_2 download_refused Scenario.lib []))
                  "NO MODELS" 403 "security_exception"
                  eq_refl eq_refl eq_refl eq_refl eq_refl));
    lia.
Defined.

(** ** Giving up on a probe *)

(** A failure of [wait_until] ends with a clock reading and the timeout
    line, at least [timeout_s] seconds after its first reading. *)
Lemma wait_until_false_shape (w : World) (fuel : nat) (desc : string)
    (fn : M (bool * string)) (timeout_s sleep_s : Z) (h h' : History) :
  wait_until w fuel desc fn timeout_s sleep_s h = Next false h' ->
  exists hpre,
    h' = (hpre ++ [EvTime; timed_out desc timeout_s])%list /\
    timeout_s * Z.pos (hz w)
      <= clock w (hpre ++ [EvTime]) - clock w (h ++ [EvTime]).
Proof.
  rewrite wait_until_unfold. apply wait_loop_fails_late.
Qed.

(** The code that follows a failed wait is returned only after the timeout
    line. *)
Lemma wait_then_code {A} (w : World) (fuel : nat) (desc : string)
    (fn : M (bool * string)) (timeout_s sleep_s : Z) (code : Z) (k : M A)
    (h h' : History) :
  sat any_event (fun _ => False) True fn ->
  (forall h1 h2, k h1 <> Return code h2) ->
  (ready <- wait_until w fuel desc fn timeout_s sleep_s ;;
   if negb ready then return_ code else k) h = Return code h' ->
  exists hpre,
    h' = (hpre ++ [EvTime; timed_out desc timeout_s])%list /\
    timeout_s * Z.pos (hz w)
      <= clock w (hpre ++ [EvTime]) - clock w (h ++ [EvTime]).
Proof.
  intros Hfn Hk Hr. apply bind_Return_inv in Hr.
  destruct Hr as [Hr | (ready & h1 & Hw & Hr)].
  - exfalso.
    exact (sat_code _ _ _ _ _ _ _
             (wait_loop_never_returns w fuel desc fn timeout_s sleep_s Hfn) Hr).
  - destruct ready; cbn [negb] in Hr.
    + exfalso. exact (Hk _ _ Hr).
    + injection Hr as <-. eapply wait_until_false_shape. exact Hw.
Qed.

Lemma download_ready_never_returns (w : World) (lib : PyLib) :
  sat any_event (fun _ => False) True (_download_ready w lib).
Proof. apply sat_download_ready. exact Logic.I. Qed.

Lemma deploy_status_never_returns (w : World) (lib : PyLib) :
  sat any_event (fun _ => False) True (_deploy_status w lib).
Proof. apply sat_deploy_status. exact Logic.I. Qed.

Lemma step3A_return_6 (w : World) (lib : PyLib) (fuel : nat) (have : bool)
    (h h' : History) :
  step3A_download w lib fuel have h = Return 6 h' ->
  fix_mode w = true /\ have = false /\
  exists hpre,
    h' = (hpre ++ [EvTime; timed_out "ELSE R model availability" 600])%list.
Proof.
  unfold step3A_download.
  destruct (fix_mode w); destruct have; cbn [negb andb];
    try (intros Hr; discriminate Hr).
  intros Hr. split; [reflexivity|]. split; [reflexivity|].
  revert Hr. run_eval. unfold http at 1.
  case_http; [|intros Hr; discriminate Hr].
  run_eval. destruct (negb (Z_in _ _)); [intros Hr; discriminate Hr|].
  intros Hr.
  apply (wait_then_code w fuel "ELSE R model availability"
           (_download_ready w lib) 600 10 6 (ret tt)) in Hr.
  - destruct Hr as (hpre & -> & _). exists hpre. reflexivity.
  - apply download_ready_never_returns.
  - intros h1 h2 E. discriminate E.
Qed.

(** X7. In fix mode, once the download has been accepted, a model that does
    not show up (each query of the model is answered with a status other than
    200 or a body that does not decode) makes [main] return 6, on a clock that
    advances: the run ends with a clock reading and the timeout line, 600
    seconds or more after it started to wait.  Code 6 is returned only in fix
    mode and only right after that line. *)
Theorem download_timeout_halts (w : World) (lib : PyLib) (fuel : nat) :
  (forall h bd st bd',
     fix_mode w = true ->
     sections_0_2 w lib [] = Next tt h ->
     http_response w (h ++ models_history w) = Some (200, bd) ->
     str_in (ELSER_MODEL_ID w) (parse_models lib bd) = false ->
     http_response w (h ++ download_history w lib bd) = Some (st, bd') ->
     st = 200 \/ st = 201 ->
     clock_advances w -> (60 < fuel)%nat ->
     (forall h1, exists st2 bd2,
        http_response w (h1 ++ [EvHttp GET (model_url w) (auth w) None 20])
          = Some (st2, bd2) /\
        (st2 <> 200 \/ json_loads lib bd2 = None)) ->
     let hq := (h ++ download_history w lib bd
                  ++ [EvPrint (jdump lib bd' 1600)])%list in
     exists hpre,
       main w lib fuel []
         = Return 6
             (hpre ++ [EvTime; timed_out "ELSE R model availability" 600]) /\
       600 * Z.pos (hz w)
         <= clock w (hpre ++ [EvTime]) - clock w (hq ++ [EvTime])) /\
  (forall h',
     main w lib fuel [] = Return 6 h' ->
     fix_mode w = true /\
     exists hpre,
       h' = (hpre ++ [EvTime; timed_out "ELSE R model availability" 600])%list).
Proof.
  split.
  - intros h bd st bd' Hfix Hreach Hlist Hin Hpost Hst Hclock Hfuel Hnever hq.
    pose proof (main_download_run w lib fuel h bd st bd' Hfix Hreach Hlist Hin
                  Hpost) as Hm.
    rewrite Z_in_true in Hm by (simpl; lia). cbn [negb] in Hm. fold hq in Hm.
    destruct (wait_until_gives_up w fuel "ELSE R model availability"
                (_download_ready w lib) 600 10 hq Hclock) as (h' & Hw).
    + lia.
    + apply sat_download_ready. exact Logic.I.
    + intros h1 r h2. unfold _download_ready, bind, http.
      destruct (Hnever h1) as (st2 & bd2 & -> & Hbad).
      destruct (st2 =? 200) eqn:E2; cbn [negb].
      * destruct Hbad as [Hbad | Hbad];
          [apply Z.eqb_eq in E2; contradiction|].
        rewrite Hbad. intros [= <- _]. reflexivity.
      * intros [= <- _]. reflexivity.
    + intros h1 h2. unfold _download_ready, bind, http.
      destruct (Hnever h1) as (st2 & bd2 & -> & _).
      destruct (negb (st2 =? 200)); [intros E; discriminate E|].
      destruct (json_loads lib bd2); intros E; discriminate E.
    + exact Hfuel.
    + destruct (wait_until_false_shape _ _ _ _ _ _ _ _ Hw) as (hpre & -> & Hlate).
      exists hpre. split; [|exact Hlate].
      rewrite Hm. unfold bind at 1. rewrite Hw. reflexivity.
  - intros h' Hm. rewrite main_from_3 in Hm.
    apply bind_Return_inv in Hm. destruct Hm as [Hm | ([] & h & Hreach & Hm)].
    { apply (sat_code _ _ _ _ _ _ _ (sections_0_2_codes w lib)) in Hm. lia. }
    unfold sections_from_3 in Hm.
    apply bind_Return_inv in Hm. destruct Hm as [Hm | (have & h1 & H3 & Hm)].
    { apply (sat_code _ _ _ _ _ _ _ (step3_codes w lib)) in Hm. lia. }
    apply bind_Return_inv in Hm. destruct Hm as [Hm | ([] & h2 & _ & Hm)].
    2:{ apply (sat_code _ _ _ _ _ _ _ (sections_from_3B_codes w lib fuel)) in Hm.
        lia. }
    destruct (step3A_return_6 w lib fuel have h1 h' Hm) as (Hfix & _ & Hshape).
    split; assumption.
Qed.

Lemma last_event_snoc (h : History) (e : Event) :
  last_event (h ++ [e]) = Some e.
Proof.
  unfold last_event. rewrite map_app. apply last_last.
Qed.

Lemma staged_clock_advances (args : list string) (api : Scenario.HttpTable)
    (docker : list (list string * (Z * string * string))) :
  clock_advances (Scenario.staged args api docker).
Proof.
  intros h t _. cbn [clock hz Scenario.staged].
  rewrite total_sleep_app. lia.
Qed.

Lemma download_timeout_halts_witness :
  exists hpre,
    main never_downloaded Scenario.lib 61 []
      = Return 6
          (hpre ++ [EvTime; timed_out "ELSE R model availability" 600]) /\
    600 * Z.pos (hz never_downloaded)
      <= clock never_downloaded (hpre ++ [EvTime])
         - clock never_downloaded
             ((trace (sections_0_2 never_downloaded Scenario.lib [])
               ++ download_history never_downloaded Scenario.lib "NO MODELS"
               ++ [EvPrint (jdump Scenario.lib "ACK" 1600)]) ++ [EvTime]).
Proof.
  apply (proj1 (download_timeout_halts never_downloaded Scenario.lib 61)
           (trace (sections_0_2 never_downloaded Scenario.lib []))
           "NO MODELS" 200 "ACK" eq_refl eq_refl eq_refl eq_refl eq_refl).
  - left. reflexivity.
  - apply staged_clock_advances.
  - lia.
  - intros h1. exists 404, "resource_not_found_exception".
    split; [|left; lia].
    cbn [http_response never_downloaded Scenario.staged].
    rewrite last_event_snoc. reflexivity.
Defined.

(** ** Section 3B in fix mode: the deployment that does not start *)

(** [main] from section 3B on, up to the answer of the start command. *)
Lemma sections_from_3B_fix_run (w : World) (lib : PyLib) (fuel : nat)
    (h : History) (st : Z) (bd : string) :
  fix_mode w = true ->
  http_response w (h ++ start_history w) = Some (st, bd) ->
  sections_from_3B w lib fuel h
  = (if negb (Z_in st [200; 201; 409])
     then Return 7
            (h ++ start_history w
               ++ [EvPrint (jdump lib bd 1600);
                   EvPrint "[FAIL] Deployment start request failed."])
     else (ready <- wait_until w fuel "ELSE R deployment"
                      (_deploy_status w lib) 600 10 ;;
           if negb ready then return_ 8 else sections_from_4 w lib)
            (h ++ start_history w ++ [EvPrint (jdump lib bd 1600)]))%list.
Proof.
  intros Hfix Hresp. unfold sections_from_3B, step3B_deploy.
  rewrite Hfix. revert Hresp. unfold start_history, heading_lines.
  hist_norm. intros Hresp.
  rewrite !bind_assoc. run_eval. unfold http at 1. hist_norm.
  rewrite Hresp. run_eval.
  destruct (negb (Z_in st [200; 201; 409])).
  - run_eval. reflexivity.
  - destruct (wait_until w fuel _ _ _ _ _) as [[|] h1 | c h1 | h1 | h1];
      reflexivity.
Qed.

Lemma step3B_return_8 (w : World) (lib : PyLib) (fuel : nat)
    (h h' : History) :
  step3B_deploy w lib fuel h = Return 8 h' ->
  fix_mode w = true /\
  exists hpre,
    h' = (hpre ++ [EvTime; timed_out "ELSE R deployment" 600])%list.
Proof.
  unfold step3B_deploy.
  destruct (fix_mode w).
  - intros Hr. split; [reflexivity|].
    revert Hr. run_eval. unfold http at 1.
    case_http; [|intros Hr; discriminate Hr].
    run_eval. destruct (negb (Z_in _ _)); [intros Hr; discriminate Hr|].
    intros Hr.
    apply (wait_then_code w fuel "ELSE R deployment"
             (_deploy_status w lib) 600 10 8 (ret tt)) in Hr.
    + destruct Hr as (hpre & -> & _). exists hpre. reflexivity.
    + apply deploy_status_never_returns.
    + intros h1 h2 E. discriminate E.
  - intros Hr. exfalso.
    apply (sat_code any_event (fun _ => False) True) in Hr; [exact Hr|].
    unfold _deploy_status. sat_go; exact Logic.I.
Qed.

Lemma sections_0_3B_before_configuration (w : World) (lib : PyLib)
    (fuel : nat) :
  sat before_configuration (fun _ => True) True (sections_0_3B w lib fuel).
Proof.
  unfold sections_0_3B, sections_0_3A, sections_0_2, step0_mode,
    step1_docker, step2_reachability, step3_models, step3A_download,
    step3B_deploy, _download_ready, _deploy_status.
  sat_go; intros; cbn [before_configuration]; auto.
Qed.

(** X8. In fix mode, once the start command has been accepted (200, 201 or
    409), a deployment that does not reach the started state (each status
    query is answered with a status other than 200, or with a body that does
    not say started) makes [main] return 8, on a clock that advances: the
    run ends with a clock reading and the timeout line, 600 seconds or more
    after it started to wait.  Code 8 is returned only in fix mode and only
    right after that line, with the pipeline and the index untouched: no PUT
    or DELETE has been sent, and no command but the container listing run. *)
Theorem deployment_timeout_halts (w : World) (lib : PyLib) (fuel : nat) :
  (forall h st bd,
     fix_mode w = true ->
     sections_0_3A w lib fuel [] = Next tt h ->
     http_response w (h ++ start_history w) = Some (st, bd) ->
     st = 200 \/ st = 201 \/ st = 409 ->
     clock_advances w -> (60 < fuel)%nat ->
     (forall h1, exists st2 bd2,
        http_response w (h1 ++ [EvHttp GET (stats_url w) (auth w) None 20])
          = Some (st2, bd2) /\
        (st2 <> 200 \/ fst (parse_deploy_stats lib bd2) = false)) ->
     let hq := (h ++ start_history w ++ [EvPrint (jdump lib bd 1600)])%list in
     exists hpre,
       main w lib fuel []
         = Return 8 (hpre ++ [EvTime; timed_out "ELSE R deployment" 600]) /\
       600 * Z.pos (hz w)
         <= clock w (hpre ++ [EvTime]) - clock w (hq ++ [EvTime])) /\
  (forall h',
     main w lib fuel [] = Return 8 h' ->
     fix_mode w = true /\
     (exists hpre,
        h' = (hpre ++ [EvTime; timed_out "ELSE R deployment" 600])%list) /\
     Forall before_configuration h').
Proof.
  split.
  - intros h st bd Hfix Hreach Hresp Hst Hclock Hfuel Hnever hq.
    assert (Hm : main w lib fuel [] = sections_from_3B w lib fuel h).
    { rewrite main_from_3B, (bind_Next _ _ _ _ _ Hreach). reflexivity. }
    rewrite (sections_from_3B_fix_run w lib fuel h st bd Hfix Hresp) in Hm.
    rewrite Z_in_true in Hm by (simpl; lia). cbn [negb] in Hm. fold hq in Hm.
    destruct (wait_until_gives_up w fuel "ELSE R deployment"
                (_deploy_status w lib) 600 10 hq Hclock) as (h' & Hw).
    + lia.
    + apply sat_deploy_status. exact Logic.I.
    + intros h1 r h2. unfold _deploy_status, bind, http.
      destruct (Hnever h1) as (st2 & bd2 & -> & Hbad).
      destruct (st2 =? 200) eqn:E2; cbn [negb].
      * destruct Hbad as [Hbad | Hbad];
          [apply Z.eqb_eq in E2; contradiction|].
        unfold ret. intros [= <- _]. exact Hbad.
      * intros [= <- _]. reflexivity.
    + intros h1 h2. unfold _deploy_status, bind, http.
      destruct (Hnever h1) as (st2 & bd2 & -> & _).
      destruct (negb (st2 =? 200)); intros E; discriminate E.
    + exact Hfuel.
    + destruct (wait_until_false_shape _ _ _ _ _ _ _ _ Hw) as (hpre & -> & Hlate).
      exists hpre. split; [|exact Hlate].
      rewrite Hm. unfold bind at 1. rewrite Hw. reflexivity.
  - intros h' Hm. rewrite main_from_4 in Hm.
    apply bind_Return_inv in Hm. destruct Hm as [Hm | ([] & h & _ & Hm)].
    2:{ apply (sat_code _ _ _ _ _ _ _ (sections_from_4_codes w lib)) in Hm.
        lia. }
    assert (Hall : Forall before_configuration h').
    { pose proof (sat_trace _ _ _ (sections_0_3B w lib fuel) []
                    (sections_0_3B_before_configuration w lib fuel)
                    (Forall_nil _)) as Hh.
      rewrite Hm in Hh. exact Hh. }
    unfold sections_0_3B in Hm.
    apply bind_Return_inv in Hm. destruct Hm as [Hm | ([] & h & _ & Hm)].
    { apply (sat_code _ _ _ _ _ _ _ (sections_0_3A_codes w lib fuel)) in Hm.
      lia. }
    destruct (step3B_return_8 w lib fuel h h' Hm) as (Hfix & Hshape).
    repeat split; assumption.
Qed.

Lemma deployment_timeout_halts_witness :
  exists hpre,
    main never_started Scenario.lib 61 []
      = Return 8 (hpre ++ [EvTime; timed_out "ELSE R deployment" 600]) /\
    600 * Z.pos (hz never_started)
      <= clock never_started (hpre ++ [EvTime])
         - clock never_started
             ((trace (sections_0_3A never_started Scenario.lib 61 [])
               ++ start_history never_started
               ++ [EvPrint (jdump Scenario.lib "ACK" 1600)]) ++ [EvTime]).
Proof.
  apply (proj1 (deployment_timeout_halts never_started Scenario.lib 61)
           (trace (sections_0_3A never_started Scenario.lib 61 []))
           200 "ACK" eq_refl eq_refl eq_refl).
  - left. reflexivity.
  - apply staged_clock_advances.
  - lia.
  - intros h1. exists 200, "STARTING". split; [|right; reflexivity].
    cbn [http_response never_started Scenario.staged].
    rewrite last_event_snoc. reflexivity.
Defined.

(** ** Section 4: the ingest pipeline *)

Lemma step4_pipeline_run (w : World) (lib : PyLib) (h : History) (st : Z)
    (bd : string) :
  http_response w (h ++ pipeline_history w) = Some (st, bd) ->
  step4_pipeline w lib h
  = (if fix_mode w then
       if negb (Z_in st [200; 201])
       then Return 9
              (h ++ pipeline_history w
                 ++ [EvPrint (jdump lib bd 1200);
                     EvPrint ("[FAIL] Failed to create/update ingest pipeline "
                                ++ PIPELINE_ID w ++ ".")])
       else Next tt
              (h ++ pipeline_history w
                 ++ [EvPrint (jdump lib bd 1200);
                     EvPrint ("[OK] Ingest pipeline ready: " ++ PIPELINE_ID w)])
     else
       Next tt
         (h ++ pipeline_history w
            ++ [EvPrint
                  (if st =? 200
                   then "[OK] Ingest pipeline exists: " ++ PIPELINE_ID w
                   else "[WARN] Ingest pipeline missing (HTTP "
                          ++ str_of_Z st ++ ").")]))%list.
Proof.
  unfold pipeline_history, heading_lines, step4_pipeline.
  destruct (fix_mode w); hist_norm; intros Hresp; run_eval;
    unfold http at 1; hist_norm; rewrite Hresp; run_eval.
  - destruct (negb (Z_in st [200; 201])); run_eval; reflexivity.
  - destruct (st =? 200); run_eval; reflexivity.
Qed.

Lemma step4_pipeline_raises (w : World) (lib : PyLib) (h : History) :
  http_response w (h ++ pipeline_history w) = None ->
  step4_pipeline w lib h = Raise (h ++ pipeline_history w).
Proof.
  unfold pipeline_history, heading_lines, step4_pipeline.
  destruct (fix_mode w); hist_norm; intros Hresp; run_eval;
    unfold http at 1; hist_norm; rewrite Hresp; reflexivity.
Qed.

(** X9. Section 4 sends one request about the pipeline, a PUT of the
    pipeline document in fix mode and a GET otherwise.  In read-only mode the
    answer only chooses the line printed: an OK line for 200, a warning with
    the status for anything else, and the run goes on.  In fix mode the answer
    is printed; 200 or 201 completes the section, any other status makes
    [main] return 9.  Code 9 is returned in no other situation, so never in
    read-only mode. *)
Theorem pipeline_step_outcomes (w : World) (lib : PyLib) (fuel : nat) :
  (forall h st bd,
     sections_0_3B w lib fuel [] = Next tt h ->
     http_response w (h ++ pipeline_history w) = Some (st, bd) ->
     (fix_mode w = false ->
      sections_0_4 w lib fuel []
        = Next tt
            (h ++ pipeline_history w
               ++ [EvPrint
                     (if st =? 200
                      then "[OK] Ingest pipeline exists: " ++ PIPELINE_ID w
                      else "[WARN] Ingest pipeline missing (HTTP "
                             ++ str_of_Z st ++ ").")])) /\
     (fix_mode w = true -> st = 200 \/ st = 201 ->
      sections_0_4 w lib fuel []
        = Next tt
            (h ++ pipeline_history w
               ++ [EvPrint (jdump lib bd 1200);
                   EvPrint ("[OK] Ingest pipeline ready: " ++ PIPELINE_ID w)])) /\
     (fix_mode w = true -> st <> 200 -> st <> 201 ->
      main w lib fuel []
        = Return 9
            (h ++ pipeline_history w
               ++ [EvPrint (jdump lib bd 1200);
                   EvPrint ("[FAIL] Failed to create/update ingest pipeline "
                              ++ PIPELINE_ID w ++ ".")]))) /\
  (forall h',
     main w lib fuel [] = Return 9 h' ->
     fix_mode w = true /\
     exists h st bd,
       sections_0_3B w lib fuel [] = Next tt h /\
       http_response w (h ++ pipeline_history w) = Some (st, bd) /\
       st <> 200 /\ st <> 201).
Proof.
  split.
  - intros h st bd Hreach Hresp.
    pose proof (step4_pipeline_run w lib h st bd Hresp) as H4.
    assert (H04 : sections_0_4 w lib fuel [] = step4_pipeline w lib h).
    { unfold sections_0_4. rewrite (bind_Next _ _ _ _ _ Hreach). reflexivity. }
    split; [|split].
    + intros Hfix. rewrite Hfix in H4. rewrite H04. exact H4.
    + intros Hfix Hst. rewrite Hfix, Z_in_true in H4 by (simpl; lia).
      rewrite H04. exact H4.
    + intros Hfix H1 H2. rewrite Hfix, Z_in_false in H4 by (simpl; lia).
      cbn [negb] in H4.
      rewrite main_from_4, (bind_Next _ _ _ _ _ Hreach).
      unfold sections_from_4. apply bind_Return. exact H4.
  - intros h' Hm. rewrite main_from_4 in Hm.
    apply bind_Return_inv in Hm. destruct Hm as [Hm | ([] & h & Hreach & Hm)].
    { apply (sat_code _ _ _ _ _ _ _ (sections_0_3B_codes w lib fuel)) in Hm.
      lia. }
    unfold sections_from_4 in Hm.
    apply bind_Return_inv in Hm. destruct Hm as [Hm | ([] & h1 & _ & Hm)].
    2:{ apply (sat_code _ _ _ _ _ _ _ (sections_from_5_codes w lib)) in Hm.
        lia. }
    destruct (http_response w (h ++ pipeline_history w)) as [[st bd]|] eqn:Hresp.
    + rewrite (step4_pipeline_run w lib h st bd Hresp) in Hm.
      destruct (fix_mode w); [|discriminate Hm].
      split; [reflexivity|].
      destruct (Z_in st [200; 201]) eqn:Hin; cbn [negb] in Hm;
        [discriminate Hm|].
      exists h, st, bd. repeat split; auto; intros ->; discriminate Hin.
    + rewrite (step4_pipeline_raises w lib h Hresp) in Hm. discriminate Hm.
Qed.

Lemma pipeline_step_outcomes_witness :
  sections_0_4 pipeline_missing Scenario.lib 0 []
  = Next tt
      (trace (sections_0_3B pipeline_missing Scenario.lib 0 [])
       ++ pipeline_history pipeline_missing
       ++ [EvPrint "[WARN] Ingest pipeline missing (HTTP 404)."]).
Proof.
  apply (proj1 (proj1 (pipeline_step_outcomes pipeline_missing Scenario.lib 0)
                  (trace (sections_0_3B pipeline_missing Scenario.lib 0 []))
                  404 "{}" eq_refl eq_refl)).
  reflexivity.
Defined.

(** ** Section 6 in fix mode: the restart that works *)

Lemma commands_In (cmd : list string) (t : History) :
  In cmd (commands t) <-> In (EvRun cmd) t.
Proof.
  induction t as [|e t IH]; simpl; [tauto|].
  destruct e; simpl; rewrite IH; split; intros H;
    try (right; exact H);
    try (destruct H as [H|H]; [discriminate H | exact H]).
  - destruct H as [->|H]; auto.
  - destruct H as [[= ->]|H]; auto.
Qed.

Lemma commands_app (h t : History) :
  commands (h ++ t) = (commands h ++ commands t)%list.
Proof.
  induction h as [|e h IH]; simpl; [reflexivity|].
  destruct e; simpl; rewrite IH; reflexivity.
Qed.

Section Fallback.

Variable w : World.
Variable lib : PyLib.

(** any event but the fallback restart command *)
Let no_fallback (e : Event) : Prop := e <> EvRun (docker_restart w).

Ltac fallback_side :=
  intros; unfold no_fallback, docker_ps, docker_logs, compose_restart,
    docker_restart; intros Hbad; discriminate Hbad.

Lemma sections_0_5_no_fallback (fuel : nat) :
  sat no_fallback (fun _ => True) True (sections_0_5 w lib fuel).
Proof.
  unfold sections_0_5, sections_0_4, sections_0_3B, sections_0_3A,
    sections_0_2, step0_mode, step1_docker, step2_reachability, step3_models,
    step3A_download, step3B_deploy, step4_pipeline, step5_index,
    _download_ready, _deploy_status.
  sat_go; try exact Logic.I; fallback_side.
Qed.

(** what follows the restart commands *)
Lemma verification_no_fallback :
  sat no_fallback (fun _ => True) True
    (time_sleep 20 ;;
     r <- http w GET (count_url w) (auth w) None 20 ;;
     (let '(st, bd) := r in print (jdump lib bd 800)) ;;
     step7_logs w lib ;; step_done).
Proof.
  unfold step7_logs, step_done.
  sat_go; try exact Logic.I; fallback_side.
Qed.

Lemma sections_from_6_read_only_no_fallback :
  fix_mode w = false ->
  sat no_fallback (fun _ => True) True (sections_from_6 w lib).
Proof.
  intros Hfix. unfold sections_from_6, step6_restart, step7_logs, step_done.
  rewrite Hfix. sat_go; try exact Logic.I; fallback_side.
Qed.

Lemma sections_from_6_restarted (h : History) (so se : string) :
  fix_mode w = true ->
  run_response w (h ++ restart_history w) = Some (0, so, se) ->
  sections_from_6 w lib h
  = (time_sleep 20 ;;
     r <- http w GET (count_url w) (auth w) None 20 ;;
     (let '(st, bd) := r in print (jdump lib bd 800)) ;;
     step7_logs w lib ;; step_done)
      (h ++ restart_history w
         ++ [EvPrint (str_take 1200 (str_strip lib (so ++ se)))])%list.
Proof.
  intros Hfix Hrun. revert Hrun.
  unfold sections_from_6, step6_restart, restart_history, heading_lines.
  rewrite Hfix. hist_norm. intros Hrun.
  rewrite !bind_assoc. run_eval. unfold run at 1. hist_norm. rewrite Hrun.
  run_eval. cbn [Z.eqb negb]. run_eval. cbn [Z.ltb Z.compare]. run_eval.
  destruct (http w GET _ _ _ _ _) as [[st bd] h1 | c h1 | h1 | h1];
    reflexivity.
Qed.

Lemma sections_from_6_restart_raises (h : History) :
  fix_mode w = true ->
  run_response w (h ++ restart_history w) = None ->
  sections_from_6 w lib h = Raise (h ++ restart_history w).
Proof.
  intros Hfix Hrun. revert Hrun.
  unfold sections_from_6, step6_restart, restart_history, heading_lines.
  rewrite Hfix. hist_norm. intros Hrun.
  rewrite !bind_assoc. run_eval. unfold run at 1. hist_norm. rewrite Hrun.
  reflexivity.
Qed.

Lemma no_fallback_commands (t : History) :
  Forall no_fallback t -> ~ In (docker_restart w) (commands t).
Proof.
  intros Hall Hin. apply commands_In in Hin.
  rewrite Forall_forall in Hall. exact (Hall _ Hin eq_refl).
Qed.

Lemma restart_history_no_fallback (tl : History) :
  Forall no_fallback tl ->
  Forall no_fallback (restart_history w ++ tl).
Proof.
  intros Htl. unfold restart_history, heading_lines. cbn [app].
  repeat (constructor; [fallback_side|]). exact Htl.
Qed.

End Fallback.

(** X10. In fix mode, when the primary restart command returns status 0, its
    output is printed and the run sleeps 20 seconds and sends the count query:
    the fallback restart is not run, anywhere in the run.  The fallback
    restart is run only in fix mode and only after a primary restart command
    that returned a non-zero status. *)
Theorem restart_success_skips_fallback (w : World) (lib : PyLib) (fuel : nat) :
  (forall h so se,
     fix_mode w = true ->
     sections_0_5 w lib fuel [] = Next tt h ->
     run_response w (h ++ restart_history w) = Some (0, so, se) ->
     (exists t,
        trace (main w lib fuel [])
        = (h ++ restart_history w
             ++ [EvPrint (str_take 1200 (str_strip lib (so ++ se)));
                 EvSleep 20;
                 EvHttp GET (count_url w) (auth w) None 20] ++ t)%list) /\
     ~ In (docker_restart w) (commands (trace (main w lib fuel [])))) /\
  (In (docker_restart w) (commands (trace (main w lib fuel []))) ->
   fix_mode w = true /\
   exists h code so se,
     sections_0_5 w lib fuel [] = Next tt h /\
     run_response w (h ++ restart_history w) = Some (code, so, se) /\
     code <> 0).
Proof.
  assert (Hpre : Forall (fun e => e <> EvRun (docker_restart w))
                   (trace (sections_0_5 w lib fuel []))).
  { eapply sat_trace; [apply sections_0_5_no_fallback | constructor]. }
  assert (Hok : forall h so se,
     fix_mode w = true ->
     sections_0_5 w lib fuel [] = Next tt h ->
     run_response w (h ++ restart_history w) = Some (0, so, se) ->
     Forall (fun e => e <> EvRun (docker_restart w))
       (trace (main w lib fuel []))).
  { intros h so se Hfix Hreach Hrun.
    rewrite main_from_6, (bind_Next _ _ _ _ _ Hreach).
    rewrite (sections_from_6_restarted w lib h so se Hfix Hrun).
    eapply sat_trace; [apply verification_no_fallback|].
    rewrite Hreach in Hpre. cbn [trace] in Hpre.
    apply Forall_app. split; [exact Hpre|].
    apply restart_history_no_fallback. repeat constructor.
    intros Hbad. discriminate Hbad. }
  split.
  - intros h so se Hfix Hreach Hrun. split.
    + rewrite main_from_6, (bind_Next _ _ _ _ _ Hreach).
      rewrite (sections_from_6_restarted w lib h so se Hfix Hrun).
      unfold bind at 1. unfold time_sleep. cbn [Z.ltb Z.compare].
      unfold emit at 1.
      destruct (trace_bind_http w GET (count_url w) (auth w) None 20
                  (fun r => (let '(st, bd) := r in print (jdump lib bd 800)) ;;
                            step7_logs w lib ;; step_done)
                  ((h ++ restart_history w
                      ++ [EvPrint (str_take 1200 (str_strip lib (so ++ se)))])
                     ++ [EvSleep 20])%list) as (tl & Htl).
      { intros [st bd]. unfold step7_logs, step_done.
        sat_go; exact Logic.I. }
      exists tl. rewrite Htl. rewrite <- !app_assoc. reflexivity.
    + apply no_fallback_commands. exact (Hok h so se Hfix Hreach Hrun).
  - intros Hin.
    assert (Hbad : ~ Forall (fun e => e <> EvRun (docker_restart w))
                     (trace (main w lib fuel []))).
    { intros Hall. exact (no_fallback_commands w _ Hall Hin). }
    destruct (sections_0_5 w lib fuel []) as [[] h | c h | h | h] eqn:Hreach.
    2-4: exfalso; apply Hbad; rewrite main_from_6; unfold bind;
         rewrite Hreach; exact Hpre.
    cbn [trace] in Hpre.
    assert (Hf : fix_mode w = true \/ fix_mode w = false)
      by (destruct (fix_mode w); auto).
    destruct Hf as [Hfix | Hfix].
    + split; [exact Hfix|].
      destruct (run_response w (h ++ restart_history w))
        as [[[code so] se]|] eqn:Hrun.
      * destruct (Z.eq_dec code 0) as [-> | Hcode].
        -- exfalso. apply Hbad. exact (Hok h so se Hfix eq_refl Hrun).
        -- exists h, code, so, se. repeat split; auto.
      * exfalso. apply Hbad.
        rewrite main_from_6, (bind_Next _ _ _ _ _ Hreach).
        rewrite (sections_from_6_restart_raises w lib h Hfix Hrun).
        cbn [trace]. apply Forall_app. split; [exact Hpre|].
        rewrite <- (app_nil_r (restart_history w)).
        apply restart_history_no_fallback. constructor.
    + exfalso. apply Hbad.
      rewrite main_from_6, (bind_Next _ _ _ _ _ Hreach).
      eapply sat_trace;
        [apply sections_from_6_read_only_no_fallback; exact Hfix | exact Hpre].
Qed.

Lemma restart_success_skips_fallback_witness :
  exists t,
    trace (main restart_works Scenario.lib 5 [])
    = (trace (sections_0_5 restart_works Scenario.lib 5 [])
       ++ restart_history restart_works
       ++ [EvPrint "ls01 Started"; EvSleep 20;
           EvHttp GET (count_url restart_works) (auth restart_works) None 20]
       ++ t)%list.
Proof.
  apply (proj1 (proj1 (restart_success_skips_fallback restart_works
                         Scenario.lib 5)
                  (trace (sections_0_5 restart_works Scenario.lib 5 []))
                  "ls01 Started" "" eq_refl eq_refl eq_refl)).
Defined.

(** ** The end of a run that succeeds *)

Lemma bind_Next_inv {A B} (m : M A) (k : A -> M B) (h h' : History) (b : B) :
  bind m k h = Next b h' ->
  exists a h1, m h = Next a h1 /\ k a h1 = Next b h'.
Proof.
  unfold bind. destruct (m h) as [a h1 | c1 h1 | h1 | h1]; intros Hr;
    try discriminate. eauto.
Qed.

Lemma step6_ends_with_count (w : World) (lib : PyLib) (h h' : History) :
  step6_restart w lib h = Next tt h' ->
  exists pre st bd,
    http_response w (pre ++ [EvHttp GET (count_url w) (auth w) None 20])
      = Some (st, bd) /\
    h' = (pre ++ [EvHttp GET (count_url w) (auth w) None 20;
                  EvPrint (jdump lib bd 800)])%list.
Proof.
  unfold step6_restart. intros Hr.
  apply bind_Next_inv in Hr. destruct Hr as ([] & h1 & _ & Hr).
  apply bind_Next_inv in Hr. destruct Hr as ([] & h2 & _ & Hr).
  revert Hr. unfold bind, http.
  destruct (http_response w _) as [[st bd]|] eqn:Hresp;
    [|intros Hr; discriminate Hr].
  unfold print, emit. intros [= <-].
  exists h2, st, bd. split; [exact Hresp|].
  rewrite <- app_assoc. reflexivity.
Qed.

Lemma step7_logs_run (w : World) (lib : PyLib) (h : History) (code : Z)
    (so se : string) :
  run_response w
    (h ++ heading_lines "7) Recent Logstash evidence (tail)"
       ++ [EvRun (docker_logs w)]) = Some (code, so, se) ->
  step7_logs w lib h
  = Next tt
      (h ++ heading_lines "7) Recent Logstash evidence (tail)"
         ++ [EvRun (docker_logs w);
             EvPrint (log_evidence lib code (str_strip lib (so ++ se)))]).
Proof.
  unfold step7_logs, heading_lines, log_evidence, relevant_lines.
  hist_norm. intros Hrun. run_eval. unfold run. hist_norm. rewrite Hrun.
  run_eval. destruct (code =? 0); [|run_eval; reflexivity].
  destruct (filter _ _); run_eval; reflexivity.
Qed.

Lemma step7_logs_raises (w : World) (lib : PyLib) (h : History) :
  run_response w
    (h ++ heading_lines "7) Recent Logstash evidence (tail)"
       ++ [EvRun (docker_logs w)]) = None ->
  step7_logs w lib h
  = Raise (h ++ heading_lines "7) Recent Logstash evidence (tail)"
             ++ [EvRun (docker_logs w)]).
Proof.
  unfold step7_logs, heading_lines.
  hist_norm. intros Hrun. run_eval. unfold run. hist_norm. rewrite Hrun.
  reflexivity.
Qed.

Lemma step6_restart_split (w : World) (lib : PyLib) (h : History) :
  step6_restart w lib h
  = (step6_before_count w lib ;;
     r <- http w GET (count_url w) (auth w) None 20 ;;
     let '(st, bd) := r in print (jdump lib bd 800)) h.
Proof.
  unfold step6_restart, step6_before_count. rewrite bind_assoc. reflexivity.
Qed.

(** [main] from the count query on, once it is answered and the log tail has
    returned. *)
Lemma verification_run (w : World) (lib : PyLib) (pre : History) (st : Z)
    (bd : string) (code : Z) (so se : string) :
  http_response w (pre ++ [EvHttp GET (count_url w) (auth w) None 20])
    = Some (st, bd) ->
  run_response w
    (pre ++ [EvHttp GET (count_url w) (auth w) None 20;
             EvPrint (jdump lib bd 800)]
       ++ heading_lines "7) Recent Logstash evidence (tail)"
       ++ [EvRun (docker_logs w)]) = Some (code, so, se) ->
  (r <- http w GET (count_url w) (auth w) None 20 ;;
   (let '(st, bd) := r in print (jdump lib bd 800)) ;;
   step7_logs w lib ;; step_done) pre
  = Return 0
      (pre ++ verification_history w lib bd code (str_strip lib (so ++ se))).
Proof.
  intros Hc Hrun. unfold bind at 1. unfold http. rewrite Hc.
  unfold bind at 1. unfold print at 1, emit at 1.
  unfold bind at 1.
  rewrite (step7_logs_run w lib _ code so se)
    by (rewrite <- !app_assoc; exact Hrun).
  unfold step_done. run_eval.
  unfold verification_history, done_lines, heading_lines.
  hist_flat. reflexivity.
Qed.

(** X11. A run returns 0 only through the final verification, in either
    mode: the history of a run that returned 0 ends with the count query and
    its answer printed, the heading of section 7, the log tail and what is
    printed of it, and the closing lines.  And the status of the count query
    and that of the log tail do not matter: once the run has come to the
    count query, whatever status the query is answered with and whatever
    status the log tail returns, [main] returns 0 with that history. *)
Theorem success_ends_with_verification (w : World) (lib : PyLib) (fuel : nat) :
  (forall h,
     main w lib fuel [] = Return 0 h ->
     exists pre st bd code so se,
       sections_0_count w lib fuel [] = Next tt pre /\
       http_response w (pre ++ [EvHttp GET (count_url w) (auth w) None 20])
         = Some (st, bd) /\
       run_response w
         (pre ++ [EvHttp GET (count_url w) (auth w) None 20;
                  EvPrint (jdump lib bd 800)]
            ++ heading_lines "7) Recent Logstash evidence (tail)"
            ++ [EvRun (docker_logs w)]) = Some (code, so, se) /\
       h = (pre ++ verification_history w lib bd code
                     (str_strip lib (so ++ se)))%list) /\
  (forall pre st bd code so se,
     sections_0_count w lib fuel [] = Next tt pre ->
     http_response w (pre ++ [EvHttp GET (count_url w) (auth w) None 20])
       = Some (st, bd) ->
     run_response w
       (pre ++ [EvHttp GET (count_url w) (auth w) None 20;
                EvPrint (jdump lib bd 800)]
          ++ heading_lines "7) Recent Logstash evidence (tail)"
          ++ [EvRun (docker_logs w)]) = Some (code, so, se) ->
     main w lib fuel []
     = Return 0
         (pre ++ verification_history w lib bd code
                   (str_strip lib (so ++ se)))).
Proof.
  assert (Hmain : forall h0,
            main w lib fuel h0
            = (sections_0_count w lib fuel ;;
               r <- http w GET (count_url w) (auth w) None 20 ;;
               (let '(st, bd) := r in print (jdump lib bd 800)) ;;
               step7_logs w lib ;; step_done) h0).
  { intros h0. rewrite main_from_6. unfold sections_0_count, sections_from_6.
    rewrite bind_assoc. apply bind_ext. intros _ h5.
    unfold bind. rewrite step6_restart_split. unfold bind.
    destruct (step6_before_count w lib h5) as [[] h6 | c h6 | h6 | h6];
      try reflexivity.
    destruct (http w GET (count_url w) (auth w) None 20 h6)
      as [[st bd] h7 | c h7 | h7 | h7]; reflexivity. }
  split.
  - intros h Hm. rewrite Hmain in Hm.
    apply bind_Return_inv in Hm. destruct Hm as [Hm | ([] & pre & Hpre & Hm)].
    { exfalso. unfold sections_0_count in Hm.
      apply bind_Return_inv in Hm. destruct Hm as [Hm | ([] & h5 & _ & Hm)].
      - apply (sat_code _ _ _ _ _ _ _ (sections_0_5_codes w lib fuel)) in Hm.
        lia.
      - apply (sat_code any_event (fun _ => False) True) in Hm; [exact Hm|].
        unfold step6_before_count. sat_go; exact Logic.I. }
    exists pre.
    destruct (http_response w
                (pre ++ [EvHttp GET (count_url w) (auth w) None 20]))
      as [[st bd]|] eqn:Hc.
    2:{ exfalso. revert Hm. unfold bind at 1. unfold http. rewrite Hc.
        intros E. discriminate E. }
    exists st, bd.
    destruct (run_response w
                (pre ++ [EvHttp GET (count_url w) (auth w) None 20;
                         EvPrint (jdump lib bd 800)]
                   ++ heading_lines "7) Recent Logstash evidence (tail)"
                   ++ [EvRun (docker_logs w)])) as [[[code so] se]|] eqn:Hrun.
    + exists code, so, se.
      rewrite (verification_run w lib pre st bd code so se Hc Hrun) in Hm.
      assert (Hh : h = (pre ++ verification_history w lib bd code
                                 (str_strip lib (so ++ se)))%list)
        by congruence.
      repeat split; first [reflexivity | assumption].
    + exfalso. revert Hm. unfold bind at 1. unfold http. rewrite Hc.
      unfold bind at 1. unfold print at 1, emit at 1. unfold bind at 1.
      rewrite (step7_logs_raises w lib _)
        by (rewrite <- !app_assoc; exact Hrun).
      intros E. discriminate E.
  - intros pre st bd code so se Hpre Hc Hrun.
    rewrite Hmain, (bind_Next _ _ _ _ _ Hpre).
    exact (verification_run w lib pre st bd code so se Hc Hrun).
Qed.

Lemma success_ends_with_verification_witness :
  main Scenario.not_deployed Scenario.lib 0 []
  = Return 0
      (trace (sections_0_count Scenario.not_deployed Scenario.lib 0 [])
       ++ verification_history Scenario.not_deployed Scenario.lib "COUNT" 0
            (str_strip Scenario.lib ("pipeline started" ++ ""))).
Proof.
  apply (proj2 (success_ends_with_verification Scenario.not_deployed
                  Scenario.lib 0)
           (trace (sections_0_count Scenario.not_deployed Scenario.lib 0 []))
           200 "COUNT" 0 "pipeline started" "");
    reflexivity.
Defined.

(** * The helpers on strings and documents *)

(** ** [jdump] *)

Lemma str_take_length (n : nat) (s : string) :
  String.length (str_take n s) = Nat.min n (String.length s).
Proof.
  revert s. induction n as [|n IH]; intros s; [reflexivity|].
  destruct s as [|c s]; simpl; [reflexivity|]. rewrite IH. reflexivity.
Qed.

Lemma str_take_drop (n : nat) (s : string) :
  (str_take n s ++ str_drop n s)%string = s.
Proof.
  revert s. induction n as [|n IH]; intros s; [reflexivity|].
  destruct s as [|c s]; simpl; [reflexivity|]. rewrite IH. reflexivity.
Qed.

Lemma str_take_all (n : nat) (s : string) :
  (String.length s <= n)%nat -> str_take n s = s.
Proof.
  revert s. induction n as [|n IH]; intros s Hlen.
  - destruct s; [reflexivity | simpl in Hlen; lia].
  - destruct s as [|c s]; simpl; [reflexivity|].
    rewrite IH; [reflexivity | simpl in Hlen; lia].
Qed.

Lemma prefix_unique (a b x y : string) :
  (a ++ x)%string = (b ++ y)%string -> String.length a = String.length b ->
  a = b.
Proof.
  revert b. induction a as [|c a IH]; intros [|c' b]; cbn [append String.length];
    intros E Hlen; try discriminate Hlen; [reflexivity|].
  injection E as -> E. injection Hlen as Hlen. f_equal. exact (IH b E Hlen).
Qed.

(** X12. [jdump] gives the first [limit] characters of a text, whatever the
    library does: the text is the document printed back when the argument
    decodes, and the argument itself when it does not.  That is, the result
    starts that text, has [limit] characters or all of them when the text is
    shorter, and is the only string that does; so it never has more than
    [limit] characters, and an undecodable body that fits is given
    verbatim. *)
Theorem jdump_is_a_bounded_prefix (lib : PyLib) (s : string) (limit : nat) :
  let text := match json_loads lib s with
              | Some v => json_dumps lib v
              | None => s
              end in
  (String.length (jdump lib s limit) <= limit)%nat /\
  (exists rest, text = (jdump lib s limit ++ rest)%string) /\
  (json_loads lib s = None -> (String.length s <= limit)%nat ->
   jdump lib s limit = s) /\
  String.length (jdump lib s limit) = Nat.min limit (String.length text) /\
  (forall r rest,
     text = (r ++ rest)%string ->
     String.length r = Nat.min limit (String.length text) ->
     r = jdump lib s limit).
Proof.
  intros text.
  assert (Hj : jdump lib s limit = str_take limit text).
  { unfold jdump, text. destruct (json_loads lib s); reflexivity. }
  assert (Hpre : text = (jdump lib s limit ++ str_drop limit text)%string).
  { rewrite Hj. symmetry. apply str_take_drop. }
  assert (Hlen : String.length (jdump lib s limit)
                 = Nat.min limit (String.length text)).
  { rewrite Hj. apply str_take_length. }
  split; [rewrite Hlen; lia|]. split; [eexists; exact Hpre|].
  split; [|split; [exact Hlen|]].
  - intros Hnone Hfit. rewrite Hj. subst text. rewrite Hnone.
    apply str_take_all, Hfit.
  - intros r rest Hr Hrlen.
    apply (prefix_unique r (jdump lib s limit) rest (str_drop limit text)).
    + rewrite <- Hr. exact Hpre.
    + rewrite Hrlen, Hlen. reflexivity.
Qed.

Lemma jdump_is_a_bounded_prefix_witness :
  jdump Scenario.lib "security_exception" 1600 = "security_exception".
Proof.
  apply (proj1 (proj2 (proj2 (jdump_is_a_bounded_prefix Scenario.lib
                                "security_exception" 1600))));
    [reflexivity | simpl; lia].
Defined.

(** ** The base URL *)

Lemma rstrip_slash_splits (s : string) :
  exists n, s = (rstrip_slash s ++ str_mul "/" n)%string.
Proof.
  induction s as [|c s (n & IH)]; [exists 0%nat; reflexivity|].
  cbn [rstrip_slash].
  destruct (rstrip_slash s) as [|c' r] eqn:Er.
  - destruct (Ascii.eqb c "/") eqn:Ec.
    + apply Ascii.eqb_eq in Ec. subst c. exists (S n).
      cbn [append] in IH. rewrite IH at 1. reflexivity.
    + exists n. cbn [append] in *. rewrite IH at 1. reflexivity.
  - exists n. rewrite IH at 1. reflexivity.
Qed.

Lemma rstrip_slash_no_slash (s p : string) :
  rstrip_slash s <> (p ++ "/")%string.
Proof.
  revert p. induction s as [|c s IH]; intros p.
  - destruct p; discriminate.
  - cbn [rstrip_slash].
    destruct (rstrip_slash s) as [|c' r] eqn:Er.
    + destruct (Ascii.eqb c "/") eqn:Ec.
      * destruct p; discriminate.
      * destruct p as [|c1 p]; cbn [append].
        -- intros [= ->]. rewrite Ascii.eqb_refl in Ec. discriminate Ec.
        -- destruct p; discriminate.
    + destruct p as [|c1 p]; cbn [append].
      * discriminate.
      * intros [= _ Hr]. exact (IH p Hr).
Qed.

(** X13. Whatever [ES_URL] is set to in the environment, the base URL the
    run uses does not end with a slash, and differs from the configured value
    only by the slashes removed at its end; so the root endpoint is requested
    with one slash after the base, never two. *)
Theorem ES_URL_has_no_trailing_slash (w : World) :
  (forall p, ES_URL w <> (p ++ "/")%string) /\
  (exists n,
     env w "ES_URL" (Some "http://localhost:9200")
     = (ES_URL w ++ str_mul "/" n)%string) /\
  (forall p, root_url w <> (p ++ "//")%string).
Proof.
  unfold root_url, ES_URL. split; [|split].
  - intros p. apply rstrip_slash_no_slash.
  - apply rstrip_slash_splits.
  - intros p Hp.
    assert (Hsnoc : forall a b : string,
              (a ++ "/")%string = (b ++ "/")%string -> a = b).
    { induction a as [|x a IHa]; intros [|y b]; cbn [append]; intros E.
      - reflexivity.
      - injection E as _ E. destruct b; discriminate E.
      - injection E as _ E. destruct a; discriminate E.
      - injection E as -> E. f_equal. apply IHa, E. }
    replace (p ++ "//")%string with ((p ++ "/") ++ "/")%string in Hp.
    + apply Hsnoc in Hp. exact (rstrip_slash_no_slash _ _ Hp).
    + clear. induction p as [|x p IHp]; cbn [append]; [reflexivity|].
      rewrite IHp. reflexivity.
Qed.

(** ** The model listing decoded *)

Lemma str_in_In (s : string) (models : list json) :
  str_in s models = true <-> In (JStr s) models.
Proof.
  unfold str_in. rewrite existsb_exists. split.
  - intros (m & Hin & Hm). destruct m; try discriminate Hm.
    apply String.eqb_eq in Hm. subst. exact Hin.
  - intros Hin. exists (JStr s). split; [exact Hin|]. apply String.eqb_refl.
Qed.

Lemma model_ids_Some (items ids : list json) :
  model_ids items = Some ids <->
  (forall m, In m items -> exists ms, m = JObj ms) /\
  ids = map (fun m => match m with
                      | JObj ms => dict_get ms "model_id" JNull
                      | _ => JNull
                      end) items.
Proof.
  revert ids. induction items as [|m items IH]; intros ids; cbn [model_ids].
  - split.
    + intros [= <-]. split; [intros m []|reflexivity].
    + intros [_ ->]. reflexivity.
  - split.
    + destruct m; cbn [py_get]; try discriminate.
      destruct (model_ids items) as [ids'|] eqn:E; [|discriminate].
      intros [= <-]. destruct (proj1 (IH ids') eq_refl) as [Hobj ->].
      split; [|reflexivity].
      intros m [<- | Hin]; [eexists; reflexivity | exact (Hobj m Hin)].
    + intros [Hobj ->].
      destruct (Hobj m (or_introl eq_refl)) as (ms & ->). cbn [py_get map].
      match goal with
      | |- context [Some (_ :: ?ids)] =>
          assert (E : model_ids items = Some ids)
      end.
      { apply IH. split; [|reflexivity].
        intros m Hin. apply Hobj. right. exact Hin. }
      rewrite E. reflexivity.
Qed.

(** X14. The model counts as present exactly when the body of the listing
    decodes to an object whose trained_model_configs (an empty list when the
    key is missing) can be iterated, holds objects only, and has one whose
    model_id is the target id as a string.  One entry that is not an object
    empties the whole list of known models, and so does a body that does not
    decode: the model is then reported missing. *)
Theorem model_is_listed_iff (lib : PyLib) (bd s : string) :
  (str_in s (parse_models lib bd) = true <->
   exists members items ms,
     json_loads lib bd = Some (JObj members) /\
     py_iter (dict_get members "trained_model_configs" (JArr [])) = Some items /\
     (forall m, In m items -> exists ms', m = JObj ms') /\
     In (JObj ms) items /\
     dict_get ms "model_id" JNull = JStr s) /\
  (forall members items m,
     json_loads lib bd = Some (JObj members) ->
     py_iter (dict_get members "trained_model_configs" (JArr [])) = Some items ->
     In m items -> (forall ms, m <> JObj ms) ->
     parse_models lib bd = []) /\
  (json_loads lib bd = None -> parse_models lib bd = []).
Proof.
  split; [|split].
  - rewrite str_in_In. unfold parse_models. split.
    + destruct (json_loads lib bd) as [jj|]; [|intros []].
      destruct jj; cbn [py_get]; try (intros []).
      destruct (py_iter _) as [items|] eqn:Eit; [|intros []].
      destruct (model_ids items) as [ids|] eqn:Eids; [|intros []].
      apply model_ids_Some in Eids. destruct Eids as [Hobj ->].
      intros Hin. apply in_map_iff in Hin. destruct Hin as (m & Hm & Hin).
      destruct (Hobj m Hin) as (ms & ->).
      exists members, items, ms. repeat split; auto.
    + intros (members & items & ms & -> & Hit & Hobj & Hin & Hid).
      cbn [py_get]. rewrite Hit.
      rewrite (proj2 (model_ids_Some items _) (conj Hobj eq_refl)).
      apply in_map_iff. exists (JObj ms). split; [exact Hid | exact Hin].
  - intros members items m Hl Hit Hin Hnot. unfold parse_models.
    rewrite Hl. cbn [py_get]. rewrite Hit.
    destruct (model_ids items) as [ids|] eqn:Eids; [|reflexivity].
    apply model_ids_Some in Eids. destruct Eids as [Hobj _].
    destruct (Hobj m Hin) as (ms & ->). exfalso. exact (Hnot ms eq_refl).
  - intros Hl. unfold parse_models. rewrite Hl. reflexivity.
Qed.

Lemma model_is_listed_iff_witness :
  parse_models
    (Scenario.staged_lib
       [("LISTING",
         JObj [("trained_model_configs",
                JArr [JObj [("model_id", JStr ".elser_model_2")];
                      JStr "lang_ident_model_1"])])])
    "LISTING" = [].
Proof.
  apply (proj1 (proj2 (model_is_listed_iff
                         (Scenario.staged_lib
                            [("LISTING",
                              JObj [("trained_model_configs",
                                     JArr [JObj [("model_id",
                                                  JStr ".elser_model_2")];
                                           JStr "lang_ident_model_1"])])])
                         "LISTING" ".elser_model_2"))
           [("trained_model_configs",
             JArr [JObj [("model_id", JStr ".elser_model_2")];
                   JStr "lang_ident_model_1"])]
           [JObj [("model_id", JStr ".elser_model_2")];
            JStr "lang_ident_model_1"]
           (JStr "lang_ident_model_1")).
  - reflexivity.
  - reflexivity.
  - right. left. reflexivity.
  - intros ms E. discriminate E.
Defined.

(** ** The two probes *)

(** X15. The deployment probe sends one GET for the deployment statistics
    and nothing else, and reports ready exactly when the answer has status
    200 and a body that decodes to an object whose first trained_model_stats
    entry is an object with a deployment_stats object whose state is the
    string "started"; the status text is then "started".  Any other state, a
    missing key, another status or a body that does not decode gives not
    ready, never an exception. *)
Theorem deploy_status_ready_iff (w : World) (lib : PyLib) (h h' : History)
    (info : string) :
  _deploy_status w lib h = Next (true, info) h' <->
  exists bd members fm dm,
    http_response w (h ++ [EvHttp GET (stats_url w) (auth w) None 20])
      = Some (200, bd) /\
    json_loads lib bd = Some (JObj members) /\
    py_index0 (dict_get members "trained_model_stats" (JArr [JObj []]))
      = Some (JObj fm) /\
    dict_get fm "deployment_stats" (JObj []) = JObj dm /\
    dict_get dm "state" JNull = JStr "started" /\
    info = "started" /\
    h' = (h ++ [EvHttp GET (stats_url w) (auth w) None 20])%list.
Proof.
  unfold _deploy_status, bind, http, ret. split.
  - destruct (http_response w _) as [[st bd]|]; [|discriminate].
    destruct (st =? 200) eqn:Est; cbn [negb]; [|discriminate].
    apply Z.eqb_eq in Est. subst st.
    unfold parse_deploy_stats.
    destruct (json_loads lib bd) as [j2|] eqn:El; [|discriminate].
    destruct j2; cbn [py_get]; try discriminate.
    destruct (py_index0 _) as [first|] eqn:Efirst; [|discriminate].
    destruct first; cbn [py_get]; try discriminate.
    destruct (dict_get members0 "deployment_stats" (JObj [])) eqn:Eds;
      cbn [py_get]; try discriminate.
    destruct (dict_get members1 "state" JNull) eqn:Est; try discriminate.
    destruct (String.eqb s "started") eqn:Es; [|discriminate].
    apply String.eqb_eq in Es. subst s.
    intros [= <- <-].
    exists bd, members, members0, members1. repeat split; auto.
  - intros (bd & members & fm & dm & -> & Hl & Hfirst & Hds & Hst & -> & ->).
    cbn [Z.eqb Pos.eqb negb]. unfold parse_deploy_stats.
    rewrite Hl. cbn [py_get]. rewrite Hfirst. cbn [py_get]. rewrite Hds.
    cbn [py_get]. rewrite Hst. cbn [String.eqb Ascii.eqb Bool.eqb].
    reflexivity.
Qed.

Lemma deploy_status_ready_iff_witness :
  _deploy_status Scenario.healthy Scenario.lib []
  = Next (true, "started")
      [EvHttp GET (stats_url Scenario.healthy) (auth Scenario.healthy) None 20].
Proof.
  apply (proj2 (deploy_status_ready_iff Scenario.healthy Scenario.lib []
                  [EvHttp GET (stats_url Scenario.healthy)
                     (auth Scenario.healthy) None 20]
                  "started")).
  exists "STARTED",
    [("trained_model_stats",
      JArr [JObj [("deployment_stats", JObj [("state", JStr "started")])]])],
    [("deployment_stats", JObj [("state", JStr "started")])],
    [("state", JStr "started")].
  repeat split; reflexivity.
Defined.

(** X16. The download probe sends one GET for the model and nothing else,
    and reports ready as soon as the answer has status 200 and a body that
    decodes, whatever the document says; it reports not ready for any other
    status or a body that does not decode, and raises only if the request
    does. *)
Theorem download_ready_iff (w : World) (lib : PyLib) (h : History) :
  let hq := (h ++ [EvHttp GET (model_url w) (auth w) None 20])%list in
  trace (_download_ready w lib h) = hq /\
  (forall info h',
     _download_ready w lib h = Next (true, info) h' <->
     exists bd v,
       http_response w hq = Some (200, bd) /\ json_loads lib bd = Some v /\
       info = "model exists" /\ h' = hq) /\
  (forall h', _download_ready w lib h = Raise h' <->
              http_response w hq = None /\ h' = hq) /\
  (forall c h', _download_ready w lib h <> Return c h').
Proof.
  intros hq. subst hq. unfold _download_ready, bind, http, ret.
  split; [|split; [|split]].
  - destruct (http_response w _) as [[st bd]|]; [|reflexivity].
    destruct (negb (st =? 200)); [reflexivity|].
    destruct (json_loads lib bd); reflexivity.
  - intros info h'. split.
    + destruct (http_response w _) as [[st bd]|]; [|discriminate].
      destruct (st =? 200) eqn:Est; cbn [negb]; [|discriminate].
      apply Z.eqb_eq in Est. subst st.
      destruct (json_loads lib bd) as [v|] eqn:El; [|discriminate].
      intros [= <- <-]. exists bd, v. repeat split; auto.
    + intros (bd & v & -> & -> & -> & ->). reflexivity.
  - intros h'. split.
    + destruct (http_response w _) as [[st bd]|].
      * destruct (negb (st =? 200)); [discriminate|].
        destruct (json_loads lib bd); discriminate.
      * intros [= <-]. split; reflexivity.
    + intros [-> ->]. reflexivity.
  - intros c h'. destruct (http_response w _) as [[st bd]|]; [|discriminate].
    destruct (negb (st =? 200)); [discriminate|].
    destruct (json_loads lib bd); discriminate.
Qed.

Lemma download_ready_iff_witness :
  _download_ready never_downloaded Scenario.lib []
  = Next (false, "HTTP 404")
      [EvHttp GET (model_url never_downloaded) (auth never_downloaded) None 20]
  /\
  trace (_download_ready never_downloaded Scenario.lib [])
  = [EvHttp GET (model_url never_downloaded) (auth never_downloaded) None 20].
Proof.
  split; [reflexivity|].
  apply (proj1 (download_ready_iff never_downloaded Scenario.lib [])).
Defined.

(** ** Section 7: what is shown of the log tail *)








(** ** [wait_until]: success, and a negative interval *)

Lemma wait_loop_succeeds_ready (w : World) (fuel : nat) (desc : string)
    (fn : M (bool * string)) (t0 timeout_s sleep_s : Z) (h h' : History) :
  wait_loop w fuel desc fn t0 timeout_s sleep_s h = Next true h' ->
  exists hpre info h1,
    fn (hpre ++ [EvTime])%list = Next (true, info) h1 /\
    h' = (h1 ++ [EvPrint ("[OK] " ++ desc ++ ": ready")])%list /\
    clock w (hpre ++ [EvTime]) - t0 < timeout_s * Z.pos (hz w).
Proof.
  revert h. induction fuel as [|fuel IH]; intros h; cbn [wait_loop].
  - intros E. discriminate E.
  - unfold bind at 1. unfold time_time at 1.
    destruct (clock w (h ++ [EvTime]) - t0 <? timeout_s * Z.pos (hz w)) eqn:Elt.
    + unfold bind at 1. destruct (fn (h ++ [EvTime])%list)
        as [[ok_flag info] h1 | c h1 | h1 | h1] eqn:Efn; try discriminate.
      destruct ok_flag.
      * run_eval. intros [= <-]. exists h, info, h1.
        split; [exact Efn|]. split; [reflexivity|].
        apply Z.ltb_lt, Elt.
      * unfold bind at 1. unfold print at 1, emit at 1.
        unfold bind at 1. unfold time_sleep.
        destruct (sleep_s <? 0); [intros E; discriminate E|].
        unfold emit at 1. apply IH.
    + run_eval. intros E. discriminate E.
Qed.

(** X18. On any clock and for any predicate, [wait_until] reports success
    only right after an invocation of the predicate that answered ready, made
    after a clock reading less than [timeout_s] seconds from the first one;
    the ready line is the last thing it prints. *)
Theorem wait_until_success_is_ready (w : World) (fuel : nat) (desc : string)
    (fn : M (bool * string)) (timeout_s sleep_s : Z) (h0 h' : History) :
  wait_until w fuel desc fn timeout_s sleep_s h0 = Next true h' ->
  exists hpre info h1,
    fn (hpre ++ [EvTime])%list = Next (true, info) h1 /\
    h' = (h1 ++ [EvPrint ("[OK] " ++ desc ++ ": ready")])%list /\
    clock w (hpre ++ [EvTime]) - clock w (h0 ++ [EvTime])
      < timeout_s * Z.pos (hz w).
Proof.
  rewrite wait_until_unfold. apply wait_loop_succeeds_ready.
Qed.

Lemma wait_until_success_is_ready_witness :
  exists hpre info h1,
    callback (probe_world 2 (ready_from 2)) (hpre ++ [EvTime])%list
      = Next (true, info) h1 /\
    trace (wait_until (probe_world 2 (ready_from 2)) 5 "probe"
             (callback (probe_world 2 (ready_from 2))) 600 10 [])
      = (h1 ++ [EvPrint ("[OK] " ++ "probe" ++ ": ready")])%list /\
    clock (probe_world 2 (ready_from 2)) (hpre ++ [EvTime])
      - clock (probe_world 2 (ready_from 2)) ([] ++ [EvTime])
      < 600 * Z.pos (hz (probe_world 2 (ready_from 2))).
Proof.
  apply (wait_until_success_is_ready (probe_world 2 (ready_from 2)) 5 "probe"
           (callback (probe_world 2 (ready_from 2))) 600 10 []
           (trace (wait_until (probe_world 2 (ready_from 2)) 5 "probe"
                     (callback (probe_world 2 (ready_from 2))) 600 10 []))).
  reflexivity.
Defined.

(** X19. With a negative interval, [wait_until] invokes its predicate once
    at most: a first answer that is not ready is printed, and the sleep then
    raises, which ends the call with an exception instead of a result. *)
Theorem wait_until_negative_interval (w : World) (fuel : nat) (desc : string)
    (timeout_s sleep_s : Z) (h0 : History) :
  sleep_s < 0 ->
  (forall fn info h1,
     clock w (h0 ++ [EvTime; EvTime]) - clock w (h0 ++ [EvTime])
       < timeout_s * Z.pos (hz w) ->
     fn (h0 ++ [EvTime; EvTime])%list = Next (false, info) h1 ->
     wait_until w (S fuel) desc fn timeout_s sleep_s h0
     = Raise (h1 ++ [EvPrint ("[WAIT] " ++ desc ++ ": " ++ info)])) /\
  (ncalls (trace (wait_until w fuel desc (callback w) timeout_s sleep_s h0))
   <= ncalls h0 + 1)%nat.
Proof.
  intros Hneg.
  assert (Hs0 : (sleep_s <? 0) = true) by (apply Z.ltb_lt; exact Hneg).
  split.
  - intros fn info h1 Hclock Hfn.
    rewrite wait_until_unfold, wait_loop_enters
      by (rewrite <- app_assoc; exact Hclock).
    rewrite <- app_assoc. cbn [app]. unfold bind at 1. rewrite Hfn.
    unfold after_poll. unfold bind at 1. unfold print at 1, emit at 1.
    unfold bind at 1. unfold time_sleep. rewrite Hs0. reflexivity.
  - rewrite wait_until_unfold. destruct fuel as [|fuel]; cbn [wait_loop].
    + cbn [trace]. rewrite ncalls_app. cbn [ncalls filter is_call List.length].
      lia.
    + unfold bind at 1. unfold time_time at 1.
      destruct (clock w _ - _ <? _).
      * unfold bind at 1. unfold callback at 1.
        destruct (fn_response w _) as [ok_flag info]. destruct ok_flag.
        -- run_eval. cbn [trace]. rewrite !ncalls_app.
           cbn [ncalls filter is_call List.length]. lia.
        -- unfold bind at 1. unfold print at 1, emit at 1.
           unfold bind at 1. unfold time_sleep. rewrite Hs0.
           cbn [trace]. rewrite !ncalls_app.
           cbn [ncalls filter is_call List.length]. lia.
      * run_eval. cbn [trace]. rewrite !ncalls_app.
        cbn [ncalls filter is_call List.length]. lia.
Qed.

Lemma wait_until_negative_interval_witness :
  wait_until (probe_world 0 (ready_from 2)) 1 "probe"
    (callback (probe_world 0 (ready_from 2))) 600 (-1) []
  = Raise [EvTime; EvTime; EvCall; EvPrint "[WAIT] probe: not yet"].
Proof.
  apply (proj1 (wait_until_negative_interval (probe_world 0 (ready_from 2))
                  0 "probe" 600 (-1) [] ltac:(lia))
           (callback (probe_world 0 (ready_from 2))) "not yet"
           [EvTime; EvTime; EvCall]);
    [cbn; lia | reflexivity].
Defined.

(** ** The time a run may ask to sleep *)

Lemma no_sleep_total (t : History) : Forall no_sleep t -> total_sleep t = 0.
Proof.
  induction 1 as [|e t He _ IH]; [reflexivity|].
  destruct e; simpl in *; try exact IH. contradiction.
Qed.

Lemma no_sleep_nonneg (t : History) :
  Forall no_sleep t -> Forall nonneg_sleep t.
Proof.
  apply Forall_impl. intros e He. destruct e; simpl in *; auto. contradiction.
Qed.

Lemma sleeps_of_sat {A} (E : Z -> Prop) (F : Prop) (m : M A) :
  sat no_sleep E F m -> sleeps_at_most 0 m.
Proof.
  intros Hm h. destruct (Hm h) as (t & -> & Ht & _).
  rewrite total_sleep_app, (no_sleep_total t Ht). lia.
Qed.

Lemma sleeps_bind {A B} (k1 k2 k : Z) (m : M A) (f : A -> M B) :
  sleeps_at_most k1 m -> (forall a, sleeps_at_most k2 (f a)) ->
  0 <= k2 -> k1 + k2 <= k ->
  sleeps_at_most k (bind m f).
Proof.
  intros Hm Hf H2 Hk h. specialize (Hm h). unfold bind.
  destruct (m h) as [a h1 | c h1 | h1 | h1]; cbn [trace] in *; try lia.
  specialize (Hf a h1). lia.
Qed.

Lemma sleeps_weaken {A} (k k' : Z) (m : M A) :
  sleeps_at_most k m -> k <= k' -> sleeps_at_most k' m.
Proof. intros Hm Hk h. specialize (Hm h). lia. Qed.

Lemma wait_loop_sleeps (w : World) (desc : string) (fn : M (bool * string))
    (t0 timeout_s sleep_s : Z) :
  clock_advances w -> 0 < sleep_s ->
  sat no_sleep (fun _ => True) True fn ->
  forall (fuel n : nat) (h : History),
    timeout_s * Z.pos (hz w)
      <= clock w h - t0 + Z.of_nat n * (sleep_s * Z.pos (hz w)) ->
    total_sleep (trace (wait_loop w fuel desc fn t0 timeout_s sleep_s h))
      <= total_sleep h + Z.of_nat n * sleep_s.
Proof.
  intros Hclock Hs Hfn.
  induction fuel as [|fuel IH]; intros n h Hf; cbn [wait_loop].
  - cbn [trace]. nia.
  - unfold bind at 1. unfold time_time at 1.
    destruct (clock w (h ++ [EvTime]) - t0 <? timeout_s * Z.pos (hz w)) eqn:Elt.
    + destruct n as [|n].
      { rewrite (fits_check w t0 timeout_s sleep_s Hclock h Hf) in Elt.
        discriminate Elt. }
      destruct (Hfn (h ++ [EvTime])%list) as (t & Ht & HI & _).
      pose proof (no_sleep_total t HI) as Ht0.
      unfold bind at 1.
      destruct (fn (h ++ [EvTime])%list)
        as [[ok_flag info] h1 | c h1 | h1 | h1]; cbn [trace] in Ht; subst h1.
      * destruct ok_flag.
        -- unfold bind, ok, print, emit, ret. cbn [trace].
           rewrite !total_sleep_app, Ht0. cbn [total_sleep]. nia.
        -- unfold bind at 1. unfold print at 1, emit at 1.
           unfold bind at 1. unfold time_sleep.
           assert (Hs0 : (sleep_s <? 0) = false) by (apply Z.ltb_ge; lia).
           rewrite Hs0. unfold emit at 1.
           rewrite <- (app_assoc _ [EvPrint _] [EvSleep sleep_s]).
           etransitivity.
           ++ apply (IH n).
              apply (fits_after_turn w t0 timeout_s sleep_s Hclock Hs);
                [exact Hf | apply no_sleep_nonneg, HI].
           ++ rewrite !total_sleep_app, Ht0. cbn [total_sleep]. nia.
      * cbn [trace]. rewrite !total_sleep_app, Ht0. cbn [total_sleep]. nia.
      * cbn [trace]. rewrite !total_sleep_app, Ht0. cbn [total_sleep]. nia.
      * cbn [trace]. rewrite !total_sleep_app, Ht0. cbn [total_sleep]. nia.
    + run_eval. cbn [trace]. rewrite !total_sleep_app. cbn [total_sleep]. nia.
Qed.

Lemma wait_until_sleeps (w : World) (fuel : nat) (desc : string)
    (fn : M (bool * string)) (timeout_s sleep_s : Z) :
  clock_advances w -> 0 < sleep_s ->
  sat no_sleep (fun _ => True) True fn ->
  sleeps_at_most (Z.of_nat (poll_budget timeout_s sleep_s) * sleep_s)
    (wait_until w fuel desc fn timeout_s sleep_s).
Proof.
  intros Hclock Hs Hfn h. rewrite wait_until_unfold.
  etransitivity.
  - apply (wait_loop_sleeps w desc fn _ timeout_s sleep_s Hclock Hs Hfn fuel
             (poll_budget timeout_s sleep_s)).
    pose proof (poll_budget_covers timeout_s sleep_s Hs). nia.
  - rewrite total_sleep_app. cbn [total_sleep]. lia.
Qed.

Section Sleeps.

Variable w : World.
Variable lib : PyLib.
Variable fuel : nat.
Hypothesis Hclock : clock_advances w.

Ltac sleepless :=
  apply (sleeps_of_sat (fun _ => True) True); sat_go; intros;
  exact Logic.I.

Lemma step3A_sleeps (have_elser : bool) :
  sleeps_at_most 600 (step3A_download w lib fuel have_elser).
Proof.
  unfold step3A_download. destruct (fix_mode w && negb have_elser).
  2:{ apply (sleeps_weaken 0); [sleepless | lia]. }
  apply (sleeps_bind 0 600); [sleepless | intros _ | lia | lia].
  apply (sleeps_bind 0 600); [sleepless | intros [st bd] | lia | lia].
  apply (sleeps_bind 0 600); [sleepless | intros _ | lia | lia].
  destruct (negb (Z_in st [200; 201])).
  { apply (sleeps_weaken 0); [sleepless | lia]. }
  apply (sleeps_bind 600 0); [| intros ready | lia | lia].
  - apply (wait_until_sleeps w fuel _ _ 600 10 Hclock); [lia|].
    apply sat_download_ready. exact Logic.I.
  - destruct (negb ready); sleepless.
Qed.

Lemma step3B_sleeps : sleeps_at_most 600 (step3B_deploy w lib fuel).
Proof.
  unfold step3B_deploy. destruct (fix_mode w).
  2:{ apply (sleeps_weaken 0); [unfold _deploy_status; sleepless | lia]. }
  apply (sleeps_bind 0 600); [sleepless | intros _ | lia | lia].
  apply (sleeps_bind 0 600); [sleepless | intros [st bd] | lia | lia].
  apply (sleeps_bind 0 600); [sleepless | intros _ | lia | lia].
  destruct (negb (Z_in st [200; 201; 409])).
  { apply (sleeps_weaken 0); [sleepless | lia]. }
  apply (sleeps_bind 600 0); [| intros ready | lia | lia].
  - apply (wait_until_sleeps w fuel _ _ 600 10 Hclock); [lia|].
    apply sat_deploy_status. exact Logic.I.
  - destruct (negb ready); sleepless.
Qed.

Lemma step6_sleeps : sleeps_at_most 20 (step6_restart w lib).
Proof.
  unfold step6_restart.
  apply (sleeps_bind 0 20); [sleepless | intros _ | lia | lia].
  apply (sleeps_bind 20 0); [| intros _; sleepless | lia | lia].
  destruct (fix_mode w); [|apply (sleeps_weaken 0); [sleepless | lia]].
  apply (sleeps_bind 0 20); [sleepless | intros [code out] | lia | lia].
  apply (sleeps_bind 0 20); [sleepless | intros _ | lia | lia].
  apply (sleeps_bind 0 20); [sleepless | intros _ | lia | lia].
  intros h. unfold time_sleep, emit. cbn [Z.ltb Z.compare trace].
  rewrite total_sleep_app. cbn [total_sleep]. lia.
Qed.

Lemma main_sleeps : sleeps_at_most 1220 (main w lib fuel).
Proof.
  unfold main.
  apply (sleeps_bind 0 1220);
    [unfold step0_mode; sleepless | intros _ | lia | lia].
  apply (sleeps_bind 0 1220);
    [unfold step1_docker; sleepless | intros _ | lia | lia].
  apply (sleeps_bind 0 1220);
    [unfold step2_reachability; sleepless | intros _ | lia | lia].
  apply (sleeps_bind 0 1220);
    [unfold step3_models; sleepless | intros have_elser | lia | lia].
  apply (sleeps_bind 600 620); [apply step3A_sleeps | intros _ | lia | lia].
  apply (sleeps_bind 600 20); [apply step3B_sleeps | intros _ | lia | lia].
  apply (sleeps_bind 0 20);
    [unfold step4_pipeline; sleepless | intros _ | lia | lia].
  apply (sleeps_bind 0 20);
    [unfold step5_index; sleepless | intros _ | lia | lia].
  apply (sleeps_bind 20 0); [apply step6_sleeps | intros _ | lia | lia].
  apply (sleeps_bind 0 0);
    [unfold step7_logs; sleepless | intros _ | lia | lia].
  unfold step_done. sleepless.
Qed.

End Sleeps.

(** X20. On a clock that never goes back and on which a sleep takes at least
    the time asked for, a run asks for 1220 seconds of sleep at most, however
    it ends: 600 for each of the two waits and 20 after the restart. *)
Theorem main_sleep_budget (w : World) (lib : PyLib) (fuel : nat) :
  clock_advances w ->
  total_sleep (trace (main w lib fuel [])) <= 1220.
Proof.
  intros Hclock. exact (main_sleeps w lib fuel Hclock []).
Qed.

Lemma main_sleep_budget_witness :
  total_sleep (trace (main never_started Scenario.lib 61 [])) <= 1220.
Proof.
  apply (main_sleep_budget never_started Scenario.lib 61).
  apply staged_clock_advances.
Defined.

(** ** The index is reset last *)

Lemma sections_0_4_no_delete (w : World) (lib : PyLib) (fuel : nat) :
  sat no_delete (fun _ => True) True (sections_0_4 w lib fuel).
Proof.
  unfold sections_0_4, sections_0_3B, sections_0_3A, sections_0_2,
    step0_mode, step1_docker, step2_reachability, step3_models,
    step3A_download, step3B_deploy, step4_pipeline, _download_ready,
    _deploy_status.
  sat_go; intros; exact Logic.I.
Qed.

Lemma sections_from_5_read_only_no_delete (w : World) (lib : PyLib) :
  fix_mode w = false ->
  sat no_delete (fun _ => True) True (sections_from_5 w lib).
Proof.
  intros Hfix.
  unfold sections_from_5, sections_from_6, step5_index, step6_restart,
    step7_logs, step_done.
  rewrite Hfix. sat_go; intros; exact Logic.I.
Qed.

(** X22. A DELETE is sent only in fix mode, only for the index, and only
    once everything before section 5 has completed: the listing, the
    download when there was one, the start of the deployment and the wait
    for it, and the PUT of the pipeline, answered 200 or 201; the line that
    says the pipeline is ready is then the last one printed before
    section 5. *)
Theorem index_reset_comes_last (w : World) (lib : PyLib) (fuel : nat)
    (url : string) (a : option (string * string)) (p : option json) (t : Z) :
  In (EvHttp DELETE url a p t) (trace (main w lib fuel [])) ->
  fix_mode w = true /\
  url = index_url w /\
  exists h3 st bd,
    sections_0_3B w lib fuel [] = Next tt h3 /\
    http_response w (h3 ++ pipeline_history w) = Some (st, bd) /\
    (st = 200 \/ st = 201) /\
    sections_0_4 w lib fuel []
    = Next tt
        (h3 ++ pipeline_history w
           ++ [EvPrint (jdump lib bd 1200);
               EvPrint ("[OK] Ingest pipeline ready: " ++ PIPELINE_ID w)]).
Proof.
  intros Hin.
  assert (Hbad : ~ Forall no_delete (trace (main w lib fuel []))).
  { intros Hall. rewrite Forall_forall in Hall. exact (Hall _ Hin). }
  assert (Hpre : Forall no_delete (trace (sections_0_4 w lib fuel []))).
  { eapply sat_trace; [apply sections_0_4_no_delete | constructor]. }
  assert (Hurl : url = index_url w).
  { pose proof (sat_trace _ _ _ (main w lib fuel) []
                  (main_expected w lib fuel) (Forall_nil _)) as Hall.
    rewrite Forall_forall in Hall. specialize (Hall _ Hin).
    cbn [expected_event] in Hall. tauto. }
  destruct (sections_0_4 w lib fuel []) as [[] h | c h | h | h] eqn:Hreach.
  2-4: exfalso; apply Hbad; rewrite main_from_5; unfold bind;
       rewrite Hreach; exact Hpre.
  cbn [trace] in Hpre.
  assert (Hfix : fix_mode w = true).
  { destruct (fix_mode w) eqn:Hf; [reflexivity|]. exfalso. apply Hbad.
    rewrite main_from_5, (bind_Next _ _ _ _ _ Hreach).
    eapply sat_trace;
      [apply sections_from_5_read_only_no_delete; exact Hf | exact Hpre]. }
  split; [exact Hfix|]. split; [exact Hurl|].
  unfold sections_0_4 in Hreach.
  apply bind_Next_inv in Hreach. destruct Hreach as ([] & h3 & H3 & H4).
  exists h3.
  destruct (http_response w (h3 ++ pipeline_history w)) as [[st bd]|] eqn:Hresp.
  - exists st, bd. rewrite (step4_pipeline_run w lib h3 st bd Hresp) in H4.
    rewrite Hfix in H4.
    destruct (Z_in st [200; 201]) eqn:Hst; cbn [negb] in H4;
      [|discriminate H4].
    match type of H4 with
    | Next _ ?x = _ => assert (Hh : h = x) by congruence
    end.
    subst h. clear H4.
    split; [exact H3|]. split; [reflexivity|]. split; [|reflexivity].
    unfold Z_in in Hst. cbn [existsb] in Hst.
    rewrite orb_false_r in Hst. apply orb_true_iff in Hst.
    destruct Hst as [E|E]; apply Z.eqb_eq in E; auto.
  - rewrite (step4_pipeline_raises w lib h3 Hresp) in H4. discriminate H4.
Qed.

Lemma index_reset_comes_last_witness :
  fix_mode Scenario.repair = true /\
  index_url Scenario.repair = index_url Scenario.repair /\
  exists h3 st bd,
    sections_0_3B Scenario.repair Scenario.lib 5 [] = Next tt h3 /\
    http_response Scenario.repair (h3 ++ pipeline_history Scenario.repair)
      = Some (st, bd) /\
    (st = 200 \/ st = 201) /\
    sections_0_4 Scenario.repair Scenario.lib 5 []
    = Next tt
        (h3 ++ pipeline_history Scenario.repair
           ++ [EvPrint (jdump Scenario.lib bd 1200);
               EvPrint ("[OK] Ingest pipeline ready: "
                          ++ PIPELINE_ID Scenario.repair)]).
Proof.
  apply (index_reset_comes_last Scenario.repair Scenario.lib 5
           (index_url Scenario.repair) (auth Scenario.repair) None 20).
  vm_compute. tauto.
Defined.

(** ** How many mutating requests a run may send *)

Lemma requests_app (h t : History) :
  requests (h ++ t) = (requests h ++ requests t)%list.
Proof.
  induction h as [|e h IH]; simpl; [reflexivity|].
  destruct e; simpl; rewrite IH; reflexivity.
Qed.

Lemma count_method_app (m : Method) (h t : History) :
  count_method m (h ++ t) = (count_method m h + count_method m t)%nat.
Proof.
  unfold count_method. rewrite requests_app, filter_app, length_app.
  reflexivity.
Qed.

Lemma other_method_count (m : Method) (t : History) :
  Forall (other_method m) t -> count_method m t = 0%nat.
Proof.
  induction 1 as [|e t He _ IH]; [reflexivity|].
  destruct e; try exact IH.
  unfold count_method in *. cbn [requests filter fst].
  cbn [other_method] in He.
  destruct m, m0; cbn [Method_eqb]; try exact IH; contradiction.
Qed.

Lemma sends_of_sat {A} (m : Method) (E : Z -> Prop) (F : Prop) (p : M A) :
  sat (other_method m) E F p -> sends_at_most m 0 p.
Proof.
  intros Hp h. destruct (Hp h) as (t & -> & Ht & _).
  rewrite count_method_app, (other_method_count m t Ht). lia.
Qed.

Lemma sends_bind {A B} (m : Method) (k1 k2 k : nat) (p : M A)
    (f : A -> M B) :
  sends_at_most m k1 p -> (forall a, sends_at_most m k2 (f a)) ->
  (k1 + k2 <= k)%nat ->
  sends_at_most m k (bind p f).
Proof.
  intros Hp Hf Hk h. specialize (Hp h). unfold bind.
  destruct (p h) as [a h1 | c h1 | h1 | h1]; cbn [trace] in *; try lia.
  specialize (Hf a h1). lia.
Qed.

Lemma sends_http (w : World) (m m' : Method) (url : string)
    (a : option (string * string)) (p : option json) (t : Z) :
  sends_at_most m 1 (http w m' url a p t).
Proof.
  intros h. unfold http.
  assert (Hone : (count_method m [EvHttp m' url a p t] <= 1)%nat).
  { unfold count_method. cbn [requests filter fst].
    destruct (Method_eqb m m'); simpl; lia. }
  destruct (http_response w _) as [[st bd]|]; cbn [trace];
    rewrite count_method_app; lia.
Qed.

Lemma sends_weaken {A} (m : Method) (k k' : nat) (p : M A) :
  sends_at_most m k p -> (k <= k')%nat -> sends_at_most m k' p.
Proof. intros Hp Hk h. specialize (Hp h). lia. Qed.

Section Mutations.

Variable w : World.
Variable lib : PyLib.
Variable fuel : nat.

Ltac quiet :=
  match goal with
  | |- sends_at_most ?m _ _ =>
      apply (sends_of_sat m (fun _ => True) True); sat_go; intros;
      cbn [other_method]; first [exact Logic.I | discriminate]
  end.

Ltac quiet_to k :=
  match goal with
  | |- sends_at_most ?m _ _ =>
      apply (sends_bind m 0 k k); [quiet | | lia]
  end.

Ltac quiet_le :=
  match goal with
  | |- sends_at_most ?m _ _ => apply (sends_weaken m 0); [quiet | lia]
  end.

Ltac sends_here :=
  match goal with
  | |- sends_at_most ?m _ _ =>
      apply (sends_bind m 1 0 1); [apply sends_http | | lia]
  end.

Lemma step5_sends_delete : sends_at_most DELETE 1 (step5_index w lib).
Proof.
  unfold step5_index. quiet_to 1%nat. intros _.
  destruct (fix_mode w); [|quiet_le].
  sends_here. intros [st bd]. quiet.
Qed.

Lemma step5_sends_put : sends_at_most PUT 1 (step5_index w lib).
Proof.
  unfold step5_index. quiet_to 1%nat. intros _.
  destruct (fix_mode w); [|quiet_le].
  quiet_to 1%nat. intros [st bd]. quiet_to 1%nat. intros _.
  sends_here. intros [st' bd']. quiet.
Qed.

Lemma step4_sends_put : sends_at_most PUT 1 (step4_pipeline w lib).
Proof.
  unfold step4_pipeline. quiet_to 1%nat. intros _.
  destruct (fix_mode w); [|quiet_le].
  sends_here. intros [st bd]. quiet.
Qed.

Lemma step3A_sends_post (have_elser : bool) :
  sends_at_most POST 1 (step3A_download w lib fuel have_elser).
Proof.
  unfold step3A_download, _download_ready.
  destruct (fix_mode w && negb have_elser);
    [|quiet_le].
  quiet_to 1%nat. intros _. sends_here. intros [st bd]. quiet.
Qed.

Lemma step3B_sends_post : sends_at_most POST 1 (step3B_deploy w lib fuel).
Proof.
  unfold step3B_deploy, _deploy_status.
  destruct (fix_mode w); [|quiet_le].
  quiet_to 1%nat. intros _. sends_here. intros [st bd]. quiet.
Qed.

Lemma main_sends_delete : sends_at_most DELETE 1 (main w lib fuel).
Proof.
  unfold main, step0_mode, step1_docker, step2_reachability, step3_models,
    step3A_download, step3B_deploy, step4_pipeline, _download_ready,
    _deploy_status.
  do 7 (quiet_to 1%nat; intros ?).
  apply (sends_bind DELETE 1 0 1); [apply step5_sends_delete | | lia].
  intros _. unfold step6_restart, step7_logs, step_done. quiet.
Qed.

Lemma main_sends_put : sends_at_most PUT 2 (main w lib fuel).
Proof.
  unfold main, step0_mode, step1_docker, step2_reachability, step3_models,
    step3A_download, step3B_deploy, _download_ready, _deploy_status.
  do 6 (quiet_to 2%nat; intros ?).
  apply (sends_bind PUT 1 1 2); [apply step4_sends_put | | lia]. intros _.
  apply (sends_bind PUT 1 0 1); [apply step5_sends_put | | lia].
  intros _. unfold step6_restart, step7_logs, step_done. quiet.
Qed.

Lemma main_sends_post : sends_at_most POST 2 (main w lib fuel).
Proof.
  unfold main, step0_mode, step1_docker, step2_reachability, step3_models.
  do 4 (quiet_to 2%nat; intros ?).
  apply (sends_bind POST 1 1 2); [apply step3A_sends_post | | lia]. intros _.
  apply (sends_bind POST 1 0 1); [apply step3B_sends_post | | lia].
  intros _.
  unfold step4_pipeline, step5_index, step6_restart, step7_logs, step_done.
  quiet.
Qed.

End Mutations.

(** X23. However long a run polls and however it ends, it sends one DELETE
    at most, two PUTs at most (the pipeline and the index) and two POSTs at
    most (the download trigger and the start command): no mutating request is
    repeated or retried. *)
Theorem mutating_requests_are_not_repeated (w : World) (lib : PyLib)
    (fuel : nat) :
  (count_method DELETE (trace (main w lib fuel [])) <= 1)%nat /\
  (count_method PUT (trace (main w lib fuel [])) <= 2)%nat /\
  (count_method POST (trace (main w lib fuel [])) <= 2)%nat.
Proof.
  split; [|split].
  - exact (main_sends_delete w lib fuel []).
  - exact (main_sends_put w lib fuel []).
  - exact (main_sends_post w lib fuel []).
Qed.
